(** * Mentor-mentee matcher: a shallow embedding of
      [src/matching/mentor_mentee_matcher.py] and the properties of its
      scoring-and-assignment engine.

    Conventions of the embedding.
    - A JSON-decoded Python value is a [value]; a profile is a [VDict]'s
      association list, in insertion order.
    - Values are those JSON decoding yields: an integer has at most 4300
      digits and nesting is no deeper than the decoder follows, so [str]
      of a value returns.
    - Scores and float fields are rationals ([Q]): the exact values, of
      which the machine computes binary64 roundings; the non-finite results
      a cosine routine can produce are kept apart in [cell].  Where the
      rounding matters the arithmetic is given again on binary64 numbers
      ([B64]), and a statement says which of the two it is about.
    - Text is ASCII: a [string] is a sequence of code points below 128, on
      which [str.lower], [str.isspace] and the regular-expression classes
      [\s], [\w] are the tables given below ([ascii_text] is the
      hypothesis of a statement that depends on it).
    - Code that can raise returns a [result].  [json.loads] and
      [json.dumps] are services of the host that can raise, also by
      exhausting the interpreter's recursion depth. *)

From Stdlib Require Import String Ascii List ZArith QArith Bool Arith Lia Lqa.
From Stdlib Require Import DecimalString.
From Stdlib Require SpecFloat.
Import ListNotations.

Set Warnings "-register-all".

Close Scope Q_scope.
Open Scope string_scope.
Open Scope list_scope.

(** ** Python values *)

Inductive value : Type :=
| VNone : value
| VBool : bool -> value
| VInt : Z -> value
| VFloat : Q -> value
| VStr : string -> value
| VList : list value -> value
| VDict : list (string * value) -> value.

Definition pydict : Type := list (string * value).

(** Exceptions the modelled code can raise. *)
Inductive exn : Type :=
| TypeError
| KeyError
| IndexError
| AttributeError
| ValueError
| OverflowError
| RecursionError.

Inductive result (A : Type) : Type :=
| Ok : A -> result A
| Raise : exn -> result A.

Arguments Ok {A} _.
Arguments Raise {A} _.

Definition bind {A B : Type} (m : result A) (k : A -> result B) : result B :=
  match m with
  | Ok a => k a
  | Raise e => Raise e
  end.

Notation "x <- m ;; k" := (bind m (fun x => k))
  (at level 61, m at next level, right associativity).

(** [bool(v)]: the truth value of a Python object. *)
Definition py_truthy (v : value) : bool :=
  match v with
  | VNone => false
  | VBool b => b
  | VInt z => negb (Z.eqb z 0%Z)
  | VFloat q => negb (Qeq_bool q 0%Q)
  | VStr s => negb (String.eqb s "")
  | VList l => match l with [] => false | _ => true end
  | VDict d => match d with [] => false | _ => true end
  end.

(** [a or b]. *)
Definition py_or (a b : value) : value := if py_truthy a then a else b.

(** [d.get(k)] and [d.get(k, default)]. *)
Fixpoint dict_find (d : pydict) (k : string) : option value :=
  match d with
  | [] => None
  | (k', v) :: d' => if String.eqb k' k then Some v else dict_find d' k
  end.

Definition dict_get_default (d : pydict) (k : string) (dflt : value) : value :=
  match dict_find d k with
  | Some v => v
  | None => dflt
  end.

Definition dict_get (d : pydict) (k : string) : value := dict_get_default d k VNone.

(** [d[k]], which raises [KeyError] on a missing key. *)
Definition dict_index (d : pydict) (k : string) : result value :=
  match dict_find d k with
  | Some v => Ok v
  | None => Raise KeyError
  end.

(** [k in d]. *)
Definition dict_mem (d : pydict) (k : string) : bool :=
  match dict_find d k with
  | Some _ => true
  | None => false
  end.

(** [d.values()]. *)
Definition dict_values (d : pydict) : list value := map snd d.

Definition is_str (v : value) : bool :=
  match v with VStr _ => true | _ => false end.


Definition is_dict (v : value) : bool :=
  match v with VDict _ => true | _ => false end.

(** ** Text primitives (ASCII) *)

Module Text.

Definition chars : Type := list ascii.

Definition code (c : ascii) : nat := nat_of_ascii c.

(** [str.isspace] and the class [\s]: TAB..CR, FS..US and SPACE. *)
Definition is_space (c : ascii) : bool :=
  let n := code c in
  (((9 <=? n) && (n <=? 13)) || ((28 <=? n) && (n <=? 32)))%nat.

Definition is_upper (c : ascii) : bool :=
  let n := code c in ((65 <=? n) && (n <=? 90))%nat.

(** The class [\w]: letters, digits and the underscore. *)
Definition is_word (c : ascii) : bool :=
  let n := code c in
  (((48 <=? n) && (n <=? 57)) || ((65 <=? n) && (n <=? 90))
   || ((97 <=? n) && (n <=? 122)) || (n =? 95))%nat.

Definition lower_char (c : ascii) : ascii :=
  if is_upper c then ascii_of_nat (code c + 32) else c.

Definition lower (s : chars) : chars := map lower_char s.

Fixpoint lstrip (s : chars) : chars :=
  match s with
  | [] => []
  | c :: s' => if is_space c then lstrip s' else s
  end.

Definition rstrip (s : chars) : chars := rev (lstrip (rev s)).

Definition strip (s : chars) : chars := rstrip (lstrip s).

(** [re.sub(r'[.,;]', '', s)]. *)
Definition is_punct (c : ascii) : bool :=
  let n := code c in ((n =? 46) || (n =? 44) || (n =? 59))%nat.

Definition remove_punct (s : chars) : chars :=
  filter (fun c => negb (is_punct c)) s.

(** [re.sub(r'\s+', ' ', s)]: every maximal run of white space becomes
    one space. *)
Fixpoint collapse_ws (s : chars) : chars :=
  match s with
  | [] => []
  | c :: s' =>
      if is_space c then
        match s' with
        | [] => [" "%char]
        | d :: _ => if is_space d then collapse_ws s' else " "%char :: collapse_ws s'
        end
      else c :: collapse_ws s'
  end.

(** [s.split()]: the maximal runs of non-space characters. *)
Fixpoint split_aux (cur : chars) (s : chars) : list chars :=
  match s with
  | [] => match cur with [] => [] | _ => [rev cur] end
  | c :: s' =>
      if is_space c then
        match cur with
        | [] => split_aux [] s'
        | _ => rev cur :: split_aux [] s'
        end
      else split_aux (c :: cur) s'
  end.

Definition split (s : chars) : list chars := split_aux [] s.

Fixpoint is_prefix (p s : chars) : bool :=
  match p, s with
  | [], _ => true
  | _ :: _, [] => false
  | a :: p', b :: s' => Ascii.eqb a b && is_prefix p' s'
  end.

Definition word_opt (c : option ascii) : bool :=
  match c with Some a => is_word a | None => false end.

(** [\b] between two neighbours (the ends of the text count as
    non-word characters). *)
Definition boundary (before after : option ascii) : bool :=
  xorb (word_opt before) (word_opt after).

Definition last_opt (dflt : option ascii) (s : chars) : option ascii :=
  match rev s with [] => dflt | c :: _ => Some c end.

(** Does [\b pat \b] match at the head of [s], [prev] being the
    character before it? *)
Definition word_match_at (pat : chars) (prev : option ascii) (s : chars) : bool :=
  is_prefix pat s
  && boundary prev (hd_error (pat ++ skipn (length pat) s))
  && boundary (last_opt prev pat) (hd_error (skipn (length pat) s)).

(** [re.sub(r'\b' + pat + r'\b', repl, s)] for a non-empty literal
    [pat]: matches are found left to right and do not overlap; [skip]
    counts the characters of the current match still to be consumed. *)
Fixpoint sub_word_from (pat repl : chars) (prev : option ascii) (skip : nat)
         (s : chars) : chars :=
  match s with
  | [] => []
  | c :: s' =>
      match skip with
      | S k => sub_word_from pat repl (Some c) k s'
      | O =>
          if word_match_at pat prev s
          then repl ++ sub_word_from pat repl (Some c) (length pat - 1) s'
          else c :: sub_word_from pat repl (Some c) 0 s'
      end
  end.

Definition sub_word (pat repl s : chars) : chars :=
  sub_word_from pat repl None 0 s.

Definition of_string (s : string) : chars := list_ascii_of_string s.
Definition to_string (s : chars) : string := string_of_list_ascii s.

(** [sep.join(parts)]. *)
Fixpoint join (sep : string) (parts : list string) : string :=
  match parts with
  | [] => ""
  | [p] => p
  | p :: rest => p ++ sep ++ join sep rest
  end.

End Text.

(** ** Location normaliser (lines 189-264) *)

Definition abbreviations : list (string * string) :=
  [ ("ny", "new york"); ("ca", "california"); ("tx", "texas");
    ("fl", "florida"); ("il", "illinois"); ("pa", "pennsylvania");
    ("az", "arizona"); ("ma", "massachusetts"); ("tn", "tennessee");
    ("in", "indiana"); ("mo", "missouri"); ("md", "maryland");
    ("wi", "wisconsin"); ("co", "colorado"); ("mn", "minnesota");
    ("sc", "south carolina"); ("al", "alabama"); ("la", "louisiana");
    ("ky", "kentucky"); ("or", "oregon"); ("ok", "oklahoma");
    ("ct", "connecticut"); ("ut", "utah"); ("ia", "iowa");
    ("nv", "nevada"); ("ar", "arkansas"); ("ms", "mississippi");
    ("ks", "kansas"); ("nm", "new mexico"); ("ne", "nebraska");
    ("wv", "west virginia"); ("id", "idaho"); ("hi", "hawaii");
    ("nh", "new hampshire"); ("me", "maine"); ("mt", "montana");
    ("ri", "rhode island"); ("de", "delaware"); ("sd", "south dakota");
    ("nd", "north dakota"); ("ak", "alaska"); ("dc", "washington dc");
    ("vt", "vermont"); ("wy", "wyoming") ].

Definition expand_abbreviations (s : Text.chars) : Text.chars :=
  fold_left
    (fun normalized '(abbr, full) =>
       Text.sub_word (Text.of_string abbr) (Text.of_string full) normalized)
    abbreviations s.

Definition normalize_location (location : value) : string :=
  match location with
  | VStr s =>
      if negb (py_truthy location) then ""
      else
        let normalized := Text.strip (Text.lower (Text.of_string s)) in
        let normalized := Text.remove_punct normalized in
        let normalized := expand_abbreviations normalized in
        Text.to_string (Text.strip (Text.collapse_ws normalized))
  | _ => ""
  end.

(** ** Location similarity (lines 267-325) *)

(** A Python [set] of words: a list without repetition; only membership
    and cardinality are observed. *)
Definition word_set (ws : list string) : list string := nodup string_dec ws.

Definition set_mem (w : string) (s : list string) : bool :=
  if in_dec string_dec w s then true else false.

Definition set_inter (a b : list string) : list string :=
  filter (fun w => set_mem w b) a.

Definition set_diff (a b : list string) : list string :=
  filter (fun w => negb (set_mem w b)) a.

Definition set_union (a b : list string) : list string :=
  nodup string_dec (a ++ b).

Definition stop_words : list string :=
  ["the"; "a"; "an"; "and"; "or"; "but"; "in"; "on"; "at"; "to"; "for";
   "of"; "with"; "by"].

Definition str_split (s : string) : list string :=
  map Text.to_string (Text.split (Text.of_string s)).

Definition nonempty {A : Type} (l : list A) : bool :=
  match l with [] => false | _ => true end.

Definition str_nonempty (s : string) : bool := negb (String.eqb s "").

Definition normalized_of (loc : value) : string :=
  if py_truthy loc then normalize_location loc else "".

Definition words_of (normalized : string) : list string :=
  if str_nonempty normalized then word_set (str_split normalized) else [].

(** [len(common_words) / len(union_words)]. *)
Definition ratio (num den : nat) : Q := (Z.of_nat num # Pos.of_nat den)%Q.

(** The body of the double loop: the entry for one (mentee, mentor) pair. *)
Definition location_similarity (mentee_loc mentor_loc : value) : Q :=
  let mentee_normalized := normalized_of mentee_loc in
  let mentee_words := words_of mentee_normalized in
  let mentor_normalized := normalized_of mentor_loc in
  let mentor_words := words_of mentor_normalized in
  if negb (str_nonempty mentee_normalized) && negb (str_nonempty mentor_normalized)
  then 0%Q
  else if String.eqb mentee_normalized mentor_normalized
          && str_nonempty mentee_normalized
  then 1%Q
  else if nonempty mentee_words && nonempty mentor_words then
    let common_words := set_inter mentee_words mentor_words in
    let common_words := set_diff common_words stop_words in
    if nonempty common_words then
      let union_words := set_union mentee_words mentor_words in
      if nonempty union_words
      then (ratio (length common_words) (length union_words) * (1 # 2))%Q
      else 0%Q
    else 0%Q
  else 0%Q.

Definition compute_location_similarity
           (mentor_locations mentee_locations : list value) : list (list Q) :=
  map (fun mentee_loc =>
         map (fun mentor_loc => location_similarity mentee_loc mentor_loc)
             mentor_locations)
      mentee_locations.

(** ** Data of the scoring engine *)

(** [str(n)] for an integer. *)
Definition int_str (z : Z) : string := NilEmpty.string_of_int (Z.to_int z).

(** An entry of the cosine matrix before [nan_to_num]. *)
Inductive cell : Type :=
| Finite : Q -> cell
| NaN : cell
| PosInf : cell
| NegInf : cell.

Definition matrix : Type := list (list Q).

(** [a < b] on scores. *)
Definition Qltb (a b : Q) : bool := negb (Qle_bool b a).

(** One entry of [mentees] in a mentor's record (lines 433-438). *)
Record assignment : Type := {
  mentee_id : value;
  mentee_name : value;
  mentee_email : value;
  similarity_score : Q
}.

(** The value stored under a mentor's key (lines 445-452). *)
Record mentor_record : Type := {
  mentor_id : value;
  mentor_name : value;
  mentor_email : value;
  capacity : value;
  assigned_count : nat;
  mentees : list assignment
}.

(** The [statistics] object; [utilization_rate], a rounded float, is left
    out. *)
Record statistics : Type := {
  total_mentors : nat;
  total_mentees : nat;
  total_mentees_assigned : nat;
  total_capacity : value
}.

Record output : Type := {
  success : bool;
  message : string;
  stats : option statistics;
  matches : list (string * mentor_record)
}.

(** *** Dictionaries keyed by Python objects *)

Definition hashable (v : value) : bool :=
  match v with
  | VList _ | VDict _ => false
  | _ => true
  end.

(** The number a bool, int or float stands for. *)
Definition num_of (v : value) : option Q :=
  match v with
  | VBool b => Some (if b then 1%Q else 0%Q)
  | VInt z => Some (inject_Z z)
  | VFloat q => Some q
  | _ => None
  end.

(** [a == b] when one side is a scalar: numbers compare by value across
    bool, int and float; [None] and strings compare within their type. *)
Definition py_eq (a b : value) : bool :=
  match num_of a, num_of b with
  | Some p, Some q => Qeq_bool p q
  | None, None =>
      match a, b with
      | VNone, VNone => true
      | VStr s, VStr t => String.eqb s t
      | _, _ => false
      end
  | _, _ => false
  end.

(** [v > 0], which raises [TypeError] off the numbers. *)
Definition py_gt_zero (v : value) : result bool :=
  match num_of v with
  | Some q => Ok (Qltb 0%Q q)
  | None => Raise TypeError
  end.

Section Keyed.

Context {A : Type}.

Definition keyed : Type := list (value * A).

Fixpoint kd_find (d : keyed) (k : value) : option A :=
  match d with
  | [] => None
  | (k', x) :: d' => if py_eq k' k then Some x else kd_find d' k
  end.

(** [d[k] = x]: an existing key keeps its place and its key object. *)
Fixpoint kd_set (d : keyed) (k : value) (x : A) : keyed :=
  match d with
  | [] => [(k, x)]
  | (k', y) :: d' =>
      if py_eq k' k then (k', x) :: d' else (k', y) :: kd_set d' k x
  end.

Definition kd_mem (d : keyed) (k : value) : bool :=
  match kd_find d k with Some _ => true | None => false end.

End Keyed.

Arguments keyed A : clear implicits.

(** [result[key] = rec] on a dictionary with string keys. *)
Fixpoint sd_set {A : Type} (d : list (string * A)) (k : string) (x : A)
  : list (string * A) :=
  match d with
  | [] => [(k, x)]
  | (k', y) :: d' =>
      if String.eqb k' k then (k', x) :: d' else (k', y) :: sd_set d' k x
  end.

Fixpoint sd_find {A : Type} (d : list (string * A)) (k : string) : option A :=
  match d with
  | [] => None
  | (k', x) :: d' => if String.eqb k' k then Some x else sd_find d' k
  end.

(** A [for] loop whose body can raise. *)
Fixpoint for_each {A S : Type} (body : S -> A -> result S) (l : list A) (s : S)
  : result S :=
  match l with
  | [] => Ok s
  | a :: l' => s' <- body s a ;; for_each body l' s'
  end.

(** [[f(x) for x in l]] with a fallible [f]. *)
Fixpoint map_result {A B : Type} (f : A -> result B) (l : list A)
  : result (list B) :=
  match l with
  | [] => Ok []
  | a :: l' => b <- f a ;; bs <- map_result f l' ;; Ok (b :: bs)
  end.

(** [[x for x in l if p(x)]] with a fallible [p]. *)
Fixpoint filter_result {A : Type} (p : A -> result bool) (l : list A)
  : result (list A) :=
  match l with
  | [] => Ok []
  | a :: l' =>
      keep <- p a ;;
      rest <- filter_result p l' ;;
      Ok (if keep then a :: rest else rest)
  end.

(** ** The program, over the services of its host

    [str] of a float, a list or a dict ([py_repr]) and [json.loads] are
    supplied by the interpreter and its library.  The vectorisers and the
    cosine routine belong to scikit-learn: a feature vector is an abstract
    [vec]; [tfidf_fit_transform] and [count_fit_transform] answer one row
    per document or raise; [cosine] is the entry of [cosine_similarity]
    for one pair of rows. *)

(** What [json.loads] does with a string: it returns the decoded value, it
    raises [JSONDecodeError] on text that is not JSON, or it raises
    something else ([ValueError] on an integer literal of more than 4300
    digits, [RecursionError] on nesting too deep). *)
Inductive json_outcome : Type :=
| Decoded : value -> json_outcome
| NotJson : json_outcome
| JsonFails : exn -> json_outcome.

Section Program.

Variable py_repr : value -> string.
Variable json_loads : string -> json_outcome.
Variable vec : Type.
Variable zero_vec : vec.
Variable tfidf_fit_transform : list string -> result (list vec).
Variable count_fit_transform : list string -> result (list vec).
Variable cosine : vec -> vec -> cell.

(** [str(v)]. *)
Definition py_str (v : value) : string :=
  match v with
  | VStr s => s
  | VNone => "None"
  | VBool true => "True"
  | VBool false => "False"
  | VInt z => int_str z
  | VFloat _ | VList _ | VDict _ => py_repr v
  end.

Definition str_strip (s : string) : string :=
  Text.to_string (Text.strip (Text.of_string s)).

(** ** Profile text extractor (lines 16-120) *)

(** Lines 32-37: [mentor_preference], read for students only. *)
Definition extract_mentor_preference (profile : pydict) (is_student : bool)
           (text_parts : list string) : result (list string) :=
  if is_student then
    if py_truthy (dict_get profile "mentor_preference") then
      v <- dict_index profile "mentor_preference" ;;
      let mentor_pref := str_strip (py_str v) in
      if str_nonempty mentor_pref
      then Ok (text_parts ++ [mentor_pref])
      else Ok text_parts
    else Ok text_parts
  else Ok text_parts.

(** Lines 40-42, 101-103, 110-112: a list field, its elements joined. *)
Definition extract_list_field (profile : pydict) (field : string)
           (text_parts : list string) : result (list string) :=
  if py_truthy (dict_get profile field) then
    v <- dict_index profile field ;;
    match v with
    | VList items =>
        Ok (text_parts ++ [Text.join " " (map py_str items)])
    | _ => Ok text_parts
    end
  else Ok text_parts.

(** The fragment of one element of [projects] or [experiences]. *)
Definition record_fragment (item : value) : list string :=
  match item with
  | VDict d => [Text.join " " (map py_str (filter is_str (dict_values d)))]
  | VStr s => [s]
  | _ => []
  end.

(** Lines 45-51, 92-98: a list of records or strings. *)
Definition extract_records_field (profile : pydict) (field : string)
           (text_parts : list string) : result (list string) :=
  if py_truthy (dict_get profile field) then
    v <- dict_index profile field ;;
    match v with
    | VList items => Ok (text_parts ++ flat_map record_fragment items)
    | _ => Ok text_parts
    end
  else Ok text_parts.

(** Lines 54-55, 106-107: a scalar field, converted with [str]. *)
Definition extract_scalar_field (profile : pydict) (field : string)
           (text_parts : list string) : result (list string) :=
  if py_truthy (dict_get profile field) then
    v <- dict_index profile field ;;
    Ok (text_parts ++ [py_str v])
  else Ok text_parts.

(** Lines 74-86: the string leaves of a nested value, down to
    [max_depth]. *)
Fixpoint extract_dict_values (obj : value) (max_depth current_depth : nat)
  : list string :=
  if (max_depth <=? current_depth)%nat then []
  else
    match obj with
    | VDict d =>
        flat_map
          (fun kv => extract_dict_values (snd kv) max_depth (S current_depth))
          d
    | VList l =>
        flat_map
          (fun item => extract_dict_values item max_depth (S current_depth))
          l
    | VStr s =>
        if (0 <? String.length (str_strip s))%nat then [str_strip s] else []
    | _ => []
    end.

Definition resume_text_fields : list string :=
  ["summary"; "objective"; "description"; "text"; "content"].

(** Lines 58-89: [parsed_resume].  Only [JSONDecodeError] is caught (line
    63); whatever else [json.loads] raises leaves the extractor. *)
Definition extract_parsed_resume (profile : pydict)
           (text_parts : list string) : result (list string) :=
  if py_truthy (dict_get profile "parsed_resume") then
    parsed_resume <- dict_index profile "parsed_resume" ;;
    parsed_resume <-
      match parsed_resume with
      | VStr s =>
          match json_loads s with
          | Decoded decoded => Ok decoded
          | NotJson => Ok parsed_resume
          | JsonFails e => Raise e
          end
      | _ => Ok parsed_resume
      end ;;
    match parsed_resume with
    | VDict d =>
        summaries <-
          fold_left
            (fun acc field =>
               parts <- acc ;;
               if dict_mem d field then
                 v <- dict_index d field ;;
                 Ok (parts ++ [py_str v])
               else Ok parts)
            resume_text_fields (Ok text_parts) ;;
        let resume_values := extract_dict_values parsed_resume 3 0 in
        Ok (summaries ++ resume_values)
    | _ => Ok text_parts
    end
  else Ok text_parts.

Definition extract_text_from_profile (profile : pydict) (is_student : bool)
  : result string :=
  let text_parts := [] in
  text_parts <- extract_mentor_preference profile is_student text_parts ;;
  text_parts <- extract_list_field profile "skills" text_parts ;;
  text_parts <- extract_records_field profile "projects" text_parts ;;
  text_parts <- extract_scalar_field profile "aspirations" text_parts ;;
  text_parts <- extract_parsed_resume profile text_parts ;;
  text_parts <- extract_records_field profile "experiences" text_parts ;;
  text_parts <- extract_list_field profile "achievements" text_parts ;;
  text_parts <- extract_scalar_field profile "major" text_parts ;;
  text_parts <- extract_list_field profile "relevant_coursework" text_parts ;;
  let combined_text := Text.join " " text_parts in
  let combined_text :=
    Text.to_string
      (Text.strip (Text.collapse_ws (Text.of_string combined_text))) in
  Ok (if str_nonempty combined_text then combined_text else "").

(** ** Score combiner (lines 328-376) *)

Definition cosine_similarity (X Y : list vec) : list (list cell) :=
  map (fun x => map (fun y => cosine x y) Y) X.

(** [np.nan_to_num(m, nan=.., posinf=.., neginf=..)]. *)
Definition nan_to_num_cell (nan posinf neginf : Q) (c : cell) : Q :=
  match c with
  | Finite q => q
  | NaN => nan
  | PosInf => posinf
  | NegInf => neginf
  end.

Definition nan_to_num (nan posinf neginf : Q) (m : list (list cell)) : matrix :=
  map (map (nan_to_num_cell nan posinf neginf)) m.

(** Element-wise combination along one axis of two arrays of the same
    length. *)
Fixpoint zip_same {A B C : Type} (f : A -> B -> result C)
         (l1 : list A) (l2 : list B) : result (list C) :=
  match l1, l2 with
  | [], [] => Ok []
  | a :: l1', b :: l2' =>
      c <- f a b ;; cs <- zip_same f l1' l2' ;; Ok (c :: cs)
  | _, _ => Raise ValueError
  end.

(** Element-wise combination along one axis with NumPy's broadcasting:
    arrays of one length are paired off, an array of length 1 is repeated
    along the other, and any other pair of lengths raises [ValueError]. *)
Definition zip_with {A B C : Type} (f : A -> B -> result C)
           (l1 : list A) (l2 : list B) : result (list C) :=
  if (length l1 =? length l2)%nat then zip_same f l1 l2
  else
    match l1, l2 with
    | [a], _ => map_result (fun b => f a b) l2
    | _, [b] => map_result (fun a => f a b) l1
    | _, _ => Raise ValueError
    end.

Definition weighted_sum (wp wl : Q) (P L : matrix) : result matrix :=
  zip_with (zip_with (fun p l => Ok (wp * p + wl * l)%Q)) P L.

Definition compute_similarity_scores
           (mentor_vectors mentee_vectors : list vec)
           (mentor_locations mentee_locations : option (list value))
           (profile_weight location_weight : Q) : result matrix :=
  let profile_similarity := cosine_similarity mentee_vectors mentor_vectors in
  let profile_similarity := nan_to_num 0%Q 1%Q 0%Q profile_similarity in
  match mentor_locations, mentee_locations with
  | Some mentor_locs, Some mentee_locs =>
      if nonempty mentor_locs && nonempty mentee_locs then
        let location_sim := compute_location_similarity mentor_locs mentee_locs in
        let total_weight := (profile_weight + location_weight)%Q in
        if Qltb 0%Q total_weight then
          let profile_weight_norm := (profile_weight / total_weight)%Q in
          let location_weight_norm := (location_weight / total_weight)%Q in
          weighted_sum profile_weight_norm location_weight_norm
                       profile_similarity location_sim
        else Ok profile_similarity
      else Ok profile_similarity
  | _, _ => Ok profile_similarity
  end.

(** ** Matcher (lines 379-454) *)

(** Lines 401-407: does the first loop register this mentor? *)
Definition registers (mentor : pydict) : result bool :=
  let capacity := dict_get mentor "mentor_capacity" in
  let capacity := match capacity with VNone => VInt 0 | _ => capacity end in
  if py_truthy (dict_get mentor "willing_to_be_mentor")
  then py_gt_zero capacity
  else Ok false.

(** Lines 400-409. *)
Definition init_mentor (st : keyed value * keyed (list assignment))
           (mentor : pydict) : result (keyed value * keyed (list assignment)) :=
  let '(mentor_capacities, mentor_assignments) := st in
  let mentor_id := dict_get mentor "id" in
  let capacity := dict_get mentor "mentor_capacity" in
  let capacity := match capacity with VNone => VInt 0 | _ => capacity end in
  ok <- registers mentor ;;
  if ok then
    if hashable mentor_id
    then Ok (kd_set mentor_capacities mentor_id capacity,
             kd_set mentor_assignments mentor_id [])
    else Raise TypeError
  else Ok st.

(** [similarity_matrix[mentee_idx, mentor_idx]]. *)
Definition matrix_get (m : matrix) (i j : nat) : result Q :=
  match nth_error m i with
  | Some row =>
      match nth_error row j with
      | Some q => Ok q
      | None => Raise IndexError
      end
  | None => Raise IndexError
  end.

(** Lines 419-428: the scan for the best mentee of one mentor. *)
Definition scan_step (similarity_matrix : matrix) (mentor_idx : nat)
           (st : option nat * Q) (mentee_idx : nat) : result (option nat * Q) :=
  let '(best_mentee_idx, best_similarity) := st in
  similarity <- matrix_get similarity_matrix mentee_idx mentor_idx ;;
  if Qltb best_similarity similarity
  then Ok (Some mentee_idx, similarity)
  else Ok st.

Definition best_match (similarity_matrix : matrix) (n_mentees mentor_idx : nat)
  : result (option nat * Q) :=
  for_each (scan_step similarity_matrix mentor_idx)
           (seq 0 n_mentees) (None, (-1)%Q).

(** Lines 432-438. *)
Definition make_assignment (mentee : pydict) (best_similarity : Q) : assignment :=
  {| mentee_id := py_or (dict_get mentee "student_id") (dict_get mentee "id");
     mentee_name := dict_get_default mentee "name" (VStr "Unknown");
     mentee_email := dict_get_default mentee "email" (VStr "");
     similarity_score := best_similarity |}.

(** Lines 412-438: one turn of the second loop. *)
Definition assign_mentor (mentees : list pydict) (similarity_matrix : matrix)
           (mentor_capacities : keyed value)
           (mentor_assignments : keyed (list assignment))
           (mentor_idx : nat) (mentor : pydict)
  : result (keyed (list assignment)) :=
  let mentor_id := dict_get mentor "id" in
  if negb (hashable mentor_id) then Raise TypeError
  else if negb (kd_mem mentor_capacities mentor_id) then Ok mentor_assignments
  else
    best <- best_match similarity_matrix (length mentees) mentor_idx ;;
    let '(best_mentee_idx, best_similarity) := best in
    match best_mentee_idx with
    | Some idx =>
        if Qltb 0%Q best_similarity then
          match nth_error mentees idx with
          | Some mentee =>
              match kd_find mentor_assignments mentor_id with
              | Some assigned =>
                  Ok (kd_set mentor_assignments mentor_id
                             (assigned ++ [make_assignment mentee best_similarity]))
              | None => Raise KeyError
              end
          | None => Raise IndexError
          end
        else Ok mentor_assignments
    | None => Ok mentor_assignments
    end.

Fixpoint assign_loop (mentees : list pydict) (similarity_matrix : matrix)
         (mentor_capacities : keyed value)
         (mentors : list pydict) (mentor_idx : nat)
         (mentor_assignments : keyed (list assignment))
  : result (keyed (list assignment)) :=
  match mentors with
  | [] => Ok mentor_assignments
  | mentor :: rest =>
      mentor_assignments <-
        assign_mentor mentees similarity_matrix mentor_capacities
                      mentor_assignments mentor_idx mentor ;;
      assign_loop mentees similarity_matrix mentor_capacities
                  rest (S mentor_idx) mentor_assignments
  end.

Definition make_record (mentor : pydict) (assigned : list assignment)
  : mentor_record :=
  {| mentor_id := dict_get mentor "id";
     mentor_name := dict_get_default mentor "name" (VStr "Unknown");
     mentor_email := dict_get_default mentor "email" (VStr "");
     capacity := py_or (dict_get mentor "mentor_capacity") (VInt 0);
     assigned_count := length assigned;
     mentees := assigned |}.

(** Lines 442-452: one turn of the third loop. *)
Definition format_mentor (mentor_assignments : keyed (list assignment))
           (res : list (string * mentor_record)) (mentor : pydict)
  : result (list (string * mentor_record)) :=
  let mentor_id := dict_get mentor "id" in
  if negb (hashable mentor_id) then Raise TypeError
  else
    match kd_find mentor_assignments mentor_id with
    | Some assigned =>
        if (0 <? length assigned)%nat
        then Ok (sd_set res (py_str mentor_id) (make_record mentor assigned))
        else Ok res
    | None => Ok res
    end.

Definition match_mentees_to_mentors (mentors mentees : list pydict)
           (similarity_matrix : matrix) : result (list (string * mentor_record)) :=
  st <- for_each init_mentor mentors ([], []) ;;
  let '(mentor_capacities, mentor_assignments) := st in
  mentor_assignments <-
    assign_loop mentees similarity_matrix mentor_capacities
                mentors 0 mentor_assignments ;;
  for_each (format_mentor mentor_assignments) mentors [].

(** ** Eligibility filter and pipeline (lines 457-643) *)

(** Line 472. *)
Definition mentor_eligible (mentor : pydict) : result bool :=
  if py_truthy (dict_get mentor "willing_to_be_mentor")
  then py_gt_zero (py_or (dict_get mentor "mentor_capacity") (VInt 0))
  else Ok false.

Definition str_lower (s : string) : string :=
  Text.to_string (Text.lower (Text.of_string s)).

(** Lines 482-486 and 489-493: [v is True or (isinstance(v, str) and
    v.lower() == 'true') or v == 1]. *)
Definition is_true_flag (v : value) : bool :=
  match v with VBool true => true | _ => false end
  || match v with VStr s => String.eqb (str_lower s) "true" | _ => false end
  || py_eq v (VInt 1).

Definition has_interest (mentee : pydict) : bool :=
  is_true_flag (dict_get mentee "mentorship_interest").

Definition is_paired (mentee : pydict) : bool :=
  is_true_flag (dict_get mentee "mentor_paired").

Definition mentee_eligible (mentee : pydict) : bool :=
  has_interest mentee && negb (is_paired mentee).

Definition no_mentors_message : string :=
  "No mentors available for matching (willing_to_be_mentor=true AND capacity>0)".

Definition no_mentees_message : string :=
  "No mentees available for matching (mentorship_interest=true AND mentor_paired=false)".

Definition failure (msg : string) : output :=
  {| success := false; message := msg; stats := None; matches := [] |}.

(** Lines 537-588: the joint corpus and its vectors. *)
Definition vectorize (all_texts : list string) : result (list vec) :=
  let all_texts :=
    if forallb (fun text => negb (str_nonempty text)) all_texts
    then repeat "dummy text" (length all_texts)
    else all_texts in
  let non_empty_texts :=
    filter (fun text => str_nonempty (str_strip text)) all_texts in
  if negb (nonempty non_empty_texts)
  then Ok (repeat zero_vec (length all_texts))
  else
    match tfidf_fit_transform all_texts with
    | Ok vectors => Ok vectors
    | Raise ValueError => count_fit_transform all_texts
    | Raise e => Raise e
    end.

(** Lines 596-602: the locations, and the [strip] calls of the log
    lines, which raise on a location that is not a string. *)
Definition location_of (profile : pydict) : value :=
  py_or (dict_get_default profile "location" (VStr "")) (VStr "").

Definition check_strip (loc : value) : result unit :=
  if is_str loc then Ok tt else Raise AttributeError.

(** The conversion of an int that meets a float: it raises
    [OverflowError] when the int rounds to no finite binary64. *)
Definition float_of_int (z : Z) : result Q :=
  if (Z.abs z <? 2 ^ 1024 - 2 ^ 970)%Z
  then Ok (inject_Z z)
  else Raise OverflowError.

(** The integer a bool or an int stands for. *)
Definition int_of (v : value) : option Z :=
  match v with
  | VBool b => Some (if b then 1%Z else 0%Z)
  | VInt z => Some z
  | _ => None
  end.

(** [total + v], [total] being a number: ints add exactly, an int that
    meets a float is converted, anything else raises [TypeError]. *)
Definition num_add (total v : value) : result value :=
  match total, v with
  | VFloat p, VFloat q => Ok (VFloat (p + q)%Q)
  | VFloat p, _ =>
      match int_of v with
      | Some z => q <- float_of_int z ;; Ok (VFloat (p + q)%Q)
      | None => Raise TypeError
      end
  | _, VFloat q =>
      match int_of total with
      | Some z => p <- float_of_int z ;; Ok (VFloat (p + q)%Q)
      | None => Raise TypeError
      end
  | _, _ =>
      match int_of total, int_of v with
      | Some x, Some y => Ok (VInt (x + y))
      | _, _ => Raise TypeError
      end
  end.

(** Line 630: [sum((m.get('mentor_capacity') or 0) for m in mentors)],
    added from the int 0, left to right. *)
Definition capacity_sum (mentors : list pydict) : result value :=
  for_each
    (fun total m => num_add total (py_or (dict_get m "mentor_capacity") (VInt 0)))
    mentors (VInt 0).

(** Line 628: [len(m['mentees'])]. *)
Definition assigned_total (r : mentor_record) : nat := length (mentees r).

Definition perform_matching (mentors_data mentees_data : list pydict)
  : result output :=
  mentors <- filter_result mentor_eligible mentors_data ;;
  let mentees := filter mentee_eligible mentees_data in
  if negb (nonempty mentors) then Ok (failure no_mentors_message)
  else if negb (nonempty mentees) then Ok (failure no_mentees_message)
  else
    mentor_texts <-
      map_result (fun m => extract_text_from_profile m false) mentors ;;
    mentee_texts <-
      map_result (fun m => extract_text_from_profile m true) mentees ;;
    let all_texts := mentor_texts ++ mentee_texts in
    all_vectors <- vectorize all_texts ;;
    let mentor_vectors := firstn (length mentors) all_vectors in
    let mentee_vectors := skipn (length mentors) all_vectors in
    let mentor_locations := map location_of mentors in
    let mentee_locations := map location_of mentees in
    _ <- map_result check_strip mentor_locations ;;
    _ <- map_result check_strip mentee_locations ;;
    similarity_matrix <-
      compute_similarity_scores mentor_vectors mentee_vectors
                                (Some mentor_locations) (Some mentee_locations)
                                (7 # 10)%Q (3 # 10)%Q ;;
    matched <- match_mentees_to_mentors mentors mentees similarity_matrix ;;
    let total_mentees_assigned :=
      list_sum (map (fun kr => assigned_total (snd kr)) matched) in
    total_capacity <- capacity_sum mentors ;;
    Ok {| success := true;
          message := "Successfully matched " ++ int_str (Z.of_nat total_mentees_assigned)
                     ++ " mentees to mentors";
          stats := Some {| total_mentors := length mentors;
                           total_mentees := length mentees;
                           total_mentees_assigned := total_mentees_assigned;
                           total_capacity := total_capacity |};
          matches := matched |}.

End Program.

(** ** The combiner's arithmetic on binary64 numbers (lines 356-369)

    NumPy computes every entry of the combined matrix in IEEE 754 binary64
    with rounding to nearest: [B64] is that arithmetic, for one entry.  A
    decimal literal of the source is the binary64 nearest to it, which is
    what the correctly rounded quotient [ratio_of] yields. *)

Module B64.

Definition float : Type := SpecFloat.spec_float.

Definition prec : Z := 53%Z.
Definition emax : Z := 1024%Z.

Definition add : float -> float -> float := SpecFloat.SFadd prec emax.
Definition mul : float -> float -> float := SpecFloat.SFmul prec emax.
Definition div : float -> float -> float := SpecFloat.SFdiv prec emax.
Definition ltb : float -> float -> bool := SpecFloat.SFltb.

Definition of_Z (z : Z) : float :=
  SpecFloat.binary_normalize prec emax z 0 false.


Definition zero : float := of_Z 0.
Definition one : float := of_Z 1.
Definition nan : float := SpecFloat.S754_nan.


(** Line 356, on one entry: [np.nan_to_num(x, nan=.., posinf=..,
    neginf=..)]. *)
Definition nan_to_num (nan_value posinf neginf x : float) : float :=
  match x with
  | SpecFloat.S754_nan => nan_value
  | SpecFloat.S754_infinity false => posinf
  | SpecFloat.S754_infinity true => neginf
  | _ => x
  end.

(** Lines 364-371, on one entry: the weights are divided by their sum and
    the two similarities are blended. *)
Definition combine (profile_weight location_weight
                    profile_similarity location_similarity : float) : float :=
  let total_weight := add profile_weight location_weight in
  if ltb zero total_weight then
    let profile_weight_norm := div profile_weight total_weight in
    let location_weight_norm := div location_weight total_weight in
    add (mul profile_weight_norm profile_similarity)
        (mul location_weight_norm location_similarity)
  else profile_similarity.

(** Lines 353-371 for one (mentee, mentor) pair whose cosine is [cosine]
    and whose location score is [location_similarity]. *)
Definition combined_entry (profile_weight location_weight
                           cosine location_similarity : float) : float :=
  combine profile_weight location_weight
          (nan_to_num zero one zero cosine) location_similarity.

End B64.

(** ** The stand-alone vectoriser (lines 123-186)

    [vectorize_profiles] returns the matrix together with the fitted
    vectoriser object; the object is opaque and only the matrix is
    modelled. *)

Definition vectorize_profiles
           (py_repr : value -> string) (json_loads : string -> json_outcome)
           (vec : Type) (zero_vec : vec)
           (tfidf_fit_transform count_fit_transform : list string -> result (list vec))
           (profiles : list pydict) (is_students : bool) : result (list vec) :=
  texts <-
    map_result
      (fun profile =>
         extract_text_from_profile py_repr json_loads profile is_students)
      profiles ;;
  let texts :=
    if forallb (fun text => negb (str_nonempty text)) texts
    then repeat "dummy text" (length profiles)
    else texts in
  let non_empty_texts :=
    filter (fun text => str_nonempty (str_strip text)) texts in
  if negb (nonempty non_empty_texts)
  then Ok (repeat zero_vec (length profiles))
  else
    match tfidf_fit_transform texts with
    | Ok vectors => Ok vectors
    | Raise ValueError => count_fit_transform texts
    | Raise e => Raise e
    end.

(** ** The entry point (lines 646-701)

    Reading and decoding the input is the host's; [main] is modelled from
    the decoded document on, the three ways the reading can fail being
    outcomes of the load.  [main] hands the raw [mentors] and [mentees]
    values to [perform_matching], whose loops (lines 470-479) iterate them
    and call [get] on each element: [perform_matching_values] is
    [perform_matching] with these two steps written out for values that
    need not be lists of objects.  The text [str(e)] of an exception is the
    host's ([exn_text]), and so is [json.dumps], which can raise on the
    result of a matching (an integer of more than 4300 digits, such as a
    large capacity total, or nesting too deep); this happens inside the
    [try] of line 652 and ends in the error document.  The result is the
    printed document and the exit code. *)

Inductive load_outcome : Type :=
| Loaded : value -> load_outcome
| FileNotFound : string -> load_outcome
| JsonDecodeError : string -> load_outcome
| OtherLoadError : string -> load_outcome.

(** [for x in v]: what the iteration yields, or [TypeError]. *)
Definition py_iter (v : value) : result (list value) :=
  match v with
  | VList l => Ok l
  | VDict d => Ok (map (fun kv => VStr (fst kv)) d)
  | VStr s => Ok (map (fun c => VStr (String c "")) (list_ascii_of_string s))
  | VNone | VBool _ | VInt _ | VFloat _ => Raise TypeError
  end.

(** [x.get]: only an object has it. *)
Definition as_profile (v : value) : result pydict :=
  match v with
  | VDict d => Ok d
  | _ => Raise AttributeError
  end.

Section EntryPoint.

Variable py_repr : value -> string.
Variable json_loads : string -> json_outcome.
Variable vec : Type.
Variable zero_vec : vec.
Variable tfidf_fit_transform : list string -> result (list vec).
Variable count_fit_transform : list string -> result (list vec).
Variable cosine : vec -> vec -> cell.
Variable exn_text : exn -> string.
Variable json_dumps : output -> result string.

Definition perform_matching_values (mentors_data mentees_data : value)
  : result output :=
  mentor_items <- py_iter mentors_data ;;
  _ <- filter_result (fun v => d <- as_profile v ;; mentor_eligible d)
                     mentor_items ;;
  mentors <- map_result as_profile mentor_items ;;
  mentee_items <- py_iter mentees_data ;;
  mentees <- map_result as_profile mentee_items ;;
  perform_matching py_repr json_loads vec zero_vec tfidf_fit_transform
                   count_fit_transform cosine mentors mentees.

Definition error_document (e : exn) : output * nat :=
  (failure ("Error during matching: " ++ exn_text e), 1%nat).

(** Line 676: [json.dumps(result, indent=2)].  A document without
    statistics and matches holds a boolean, a string and an empty object,
    which [json.dumps] always serialises; any other document is handed to
    the host. *)
Definition serialise (document : output) : result unit :=
  match stats document, matches document with
  | None, [] => Ok tt
  | _, _ => _ <- json_dumps document ;; Ok tt
  end.

Definition main (load : load_outcome) : output * nat :=
  match load with
  | FileNotFound msg => (failure ("Input file not found: " ++ msg), 1%nat)
  | JsonDecodeError msg => (failure ("Invalid JSON input: " ++ msg), 1%nat)
  | OtherLoadError msg => (failure ("Error during matching: " ++ msg), 1%nat)
  | Loaded input_data =>
      let attempt :=
        input <- as_profile input_data ;;
        let mentors := dict_get_default input "mentors" (VList []) in
        let mentees := dict_get_default input "mentees" (VList []) in
        result <-
          (if negb (py_truthy mentors) && negb (py_truthy mentees)
           then Ok (failure "No mentors or mentees provided")
           else perform_matching_values mentors mentees) ;;
        _ <- serialise result ;;
        Ok result in
      match attempt with
      | Ok result => (result, 0%nat)
      | Raise e => error_document e
      end
  end.

End EntryPoint.

(** ** A small instance of the host services, for worked examples

    Every document gets the same one-dimensional vector, so every cosine
    is 1: what TF-IDF yields on identical documents. *)

Module Demo.

Definition repr (v : value) : string := "?".
Definition loads (s : string) : json_outcome := NotJson.
Definition fit_transform (docs : list string) : result (list unit) :=
  Ok (repeat tt (length docs)).
Definition cos (a b : unit) : cell := Finite 1%Q.

Definition run : list pydict -> list pydict -> result output :=
  perform_matching repr loads unit tt fit_transform fit_transform cos.

Definition mentor_1 : pydict :=
  [("id", VInt 1); ("willing_to_be_mentor", VBool true);
   ("mentor_capacity", VInt 1); ("skills", VList [VStr "python"])].

Definition mentee_10 : pydict :=
  [("id", VInt 10); ("mentorship_interest", VBool true);
   ("mentor_paired", VBool false); ("skills", VList [VStr "python"])].

(** A mentor whose flag is the string "false". *)
Definition mentor_says_false : pydict :=
  [("id", VInt 1); ("willing_to_be_mentor", VStr "false");
   ("mentor_capacity", VInt 2); ("skills", VList [VStr "python"])].

(** Two mentors that carry no [id]. *)
Definition anonymous_a : pydict :=
  [("name", VStr "A"); ("willing_to_be_mentor", VBool true);
   ("mentor_capacity", VInt 1); ("skills", VList [VStr "python"])].

Definition anonymous_b : pydict :=
  [("name", VStr "B"); ("willing_to_be_mentor", VBool true);
   ("mentor_capacity", VInt 1); ("skills", VList [VStr "python"])].

(** A mentee whose [student_id] is present and is 0. *)
Definition mentee_zero_sid : pydict :=
  [("student_id", VInt 0); ("id", VInt 7); ("mentorship_interest", VBool true)].

Definition out_of (r : result output) : output :=
  match r with Ok o => o | Raise _ => failure "" end.

Definition first_record (o : output) : mentor_record :=
  match matches o with
  | (_, r) :: _ => r
  | [] => make_record [] []
  end.

Definition first_assignment (o : output) : assignment :=
  match mentees (first_record o) with
  | a :: _ => a
  | [] => make_assignment [] 0%Q
  end.

(** The scenario of one mentor and one mentee who share a skill. *)
Definition basic_run : output := out_of (run [mentor_1] [mentee_10]).

Definition mentor_2 : pydict :=
  [("id", VInt 2); ("willing_to_be_mentor", VBool true);
   ("mentor_capacity", VInt 3); ("name", VStr "Bo")].

Definition mentee_11 : pydict :=
  [("student_id", VStr "s11"); ("id", VInt 11); ("name", VStr "Kim");
   ("email", VStr "kim@example.org"); ("mentorship_interest", VBool true)].

(** Rows are mentees 10 and 11, columns are mentors 1 and 2: both
    mentees tie for mentor 1, nobody scores above 0 for mentor 2. *)
Definition tie_matrix : matrix := [[(1 # 2)%Q; 0%Q]; [(1 # 2)%Q; 0%Q]].

Definition tie_result : list (string * mentor_record) :=
  match match_mentees_to_mentors repr [mentor_1; mentor_2]
                                 [mentee_10; mentee_11] tie_matrix with
  | Ok res => res
  | Raise _ => []
  end.

End Demo.

(** ** Further worked inputs *)

Module Cases.

(** Rows are mentees 10 and 11, columns are mentors 1 and 2; the two
    columns are equal. *)
Definition shared_matrix : matrix :=
  [[(1 # 2)%Q; (1 # 2)%Q]; [(1 # 3)%Q; (1 # 3)%Q]].


(** A willing mentor whose capacity arrives as text. *)
Definition mentor_text_capacity : pydict :=
  [("id", VInt 3); ("willing_to_be_mentor", VBool true);
   ("mentor_capacity", VStr "3")].

(** An unwilling mentor and a mentee that is already paired. *)
Definition mentor_unwilling : pydict :=
  [("id", VInt 4); ("willing_to_be_mentor", VBool false);
   ("mentor_capacity", VInt 2)].

Definition mentee_paired : pydict :=
  [("id", VInt 12); ("mentorship_interest", VBool true);
   ("mentor_paired", VStr "True")].

(** An unwilling mentor that carries the [id] of [Demo.mentor_1]. *)
Definition mentor_unwilling_1 : pydict :=
  [("id", VInt 1); ("name", VStr "Zed"); ("willing_to_be_mentor", VBool false);
   ("mentor_capacity", VInt 5)].

(** A mentee whose interest arrives as the JSON number 1.0. *)
Definition mentee_float_interest : pydict :=
  [("id", VInt 15); ("mentorship_interest", VFloat 1%Q);
   ("skills", VList [VStr "python"])].

(** A run with an ineligible profile on each side. *)
Definition mixed_run : output :=
  Demo.out_of (Demo.run [Demo.mentor_1; mentor_unwilling]
                        [Demo.mentee_10; mentee_paired]).

(** An eligible mentee whose location arrives as a number. *)
Definition mentee_numeric_location : pydict :=
  [("id", VInt 13); ("mentorship_interest", VBool true);
   ("location", VInt 77840)].

(** [json.loads] on runs of decimal digits: an integer literal decodes to
    its integer unless it has more than 4300 digits, when [ValueError] is
    raised; a literal with a leading zero is not JSON.  No other text is
    decoded by this instance. *)
Definition is_digit (c : ascii) : bool :=
  ((48 <=? Text.code c) && (Text.code c <=? 57))%nat.

Definition digits_value (cs : Text.chars) : Z :=
  fold_left (fun n c => (10 * n + Z.of_nat (Text.code c - 48))%Z) cs 0%Z.

Definition loads (s : string) : json_outcome :=
  let cs := Text.of_string s in
  if nonempty cs && forallb is_digit cs then
    if (4300 <? length cs)%nat then JsonFails ValueError
    else
      match cs with
      | "0"%char :: _ :: _ => NotJson
      | _ => Decoded (VInt (digits_value cs))
      end
  else NotJson.

(** An integer literal of 4301 digits. *)
Definition long_number : string :=
  Text.to_string (repeat "1"%char 4301).

(** A mentee whose resume is that literal, as a string. *)
Definition mentee_long_resume : pydict :=
  [("id", VInt 14); ("mentorship_interest", VBool true);
   ("parsed_resume", VStr long_number)].

End Cases.

(** ** Notions used in the statements *)

(** The mentors carry pairwise different identities: different as keys of
    the matcher's dictionaries and different as keys of the result. *)
Fixpoint distinct_identities (py_repr : value -> string) (mentors : list pydict)
  : Prop :=
  match mentors with
  | [] => True
  | m :: rest =>
      Forall (fun m' =>
                py_eq (dict_get m "id") (dict_get m' "id") = false
                /\ py_str py_repr (dict_get m "id")
                   <> py_str py_repr (dict_get m' "id"))
             rest
      /\ distinct_identities py_repr rest
  end.

(** What the second loop appends for the mentor at column [j] (lines
    419-438). *)
Definition contribution (students : list pydict) (sim : matrix) (j : nat)
  : list assignment :=
  match best_match sim (length students) j with
  | Ok (Some i, best) =>
      if Qltb 0 best then
        match nth_error students i with
        | Some mentee => [make_assignment mentee best]
        | None => []
        end
      else []
  | _ => []
  end.

(** An assignment built from one of the given mentees. *)
Definition from_mentee (students : list pydict) (a : assignment) : Prop :=
  exists mentee q, In mentee students /\ a = make_assignment mentee q.

Definition well_sourced (students : list pydict)
           (assigns : keyed (list assignment)) : Prop :=
  forall k l, In (k, l) assigns -> Forall (from_mentee students) l.

(** A text is space-normalised when its only white space is single spaces
    between words: no white-space character but the space, no two in a row,
    none at either end. *)
Definition head_space (s : Text.chars) : bool :=
  match s with
  | c :: _ => Text.is_space c
  | [] => false
  end.

Fixpoint single_spaced (s : Text.chars) : bool :=
  match s with
  | [] => true
  | c :: s' =>
      (if Text.is_space c then Ascii.eqb c " " && negb (head_space s') else true)
      && single_spaced s'
  end.

Definition space_normalized (text : string) : Prop :=
  let s := Text.of_string text in
  single_spaced s = true /\ head_space s = false /\ head_space (rev s) = false.

(** The fields the extractor reads. *)
Definition profile_fields : list string :=
  ["mentor_preference"; "skills"; "projects"; "aspirations"; "parsed_resume";
   "experiences"; "achievements"; "major"; "relevant_coursework"].

(** A character that survives normalisation unchanged in kind: neither
    one of the removed punctuation marks nor an upper-case letter. *)
Definition plain_char (c : ascii) : bool :=
  negb (Text.is_punct c) && negb (Text.is_upper c).

(** The similarity matrix has an entry for every (mentee, mentor) pair. *)
Definition well_shaped (sim : matrix) (n_mentees n_mentors : nat) : Prop :=
  forall i j, (i < n_mentees)%nat -> (j < n_mentors)%nat ->
              exists q, matrix_get sim i j = Ok q.

(** The two dictionaries of the matcher hold the same keys. *)
Definition same_keys (caps : keyed value) (assigns : keyed (list assignment))
  : Prop :=
  forall k, kd_mem caps k = kd_mem assigns k.

(** The text the extractor returns for a profile (the empty text stands
    in where it raises). *)
Definition profile_text (py_repr : value -> string)
           (json_loads : string -> json_outcome)
           (profile : pydict) (is_student : bool) : string :=
  match extract_text_from_profile py_repr json_loads profile is_student with
  | Ok text => text
  | Raise _ => ""
  end.

(** The joint corpus of lines 534-538: mentor texts, then mentee texts. *)
Definition corpus (py_repr : value -> string)
           (json_loads : string -> json_outcome)
           (mentors mentees : list pydict) : list string :=
  map (fun m => profile_text py_repr json_loads m false) mentors
  ++ map (fun m => profile_text py_repr json_loads m true) mentees.

(** The clean-up of lines 117-118: white-space runs collapsed, ends
    trimmed. *)
Definition tidy (text : string) : string :=
  Text.to_string (Text.strip (Text.collapse_ws (Text.of_string text))).

(** The exception [json.loads] raises on the profile's [parsed_resume],
    if that is a non-empty string on which it raises something that line
    63 does not catch. *)
Definition resume_error (json_loads : string -> json_outcome)
           (profile : pydict) : option exn :=
  match dict_get profile "parsed_resume" with
  | VStr s =>
      if str_nonempty s then
        match json_loads s with
        | JsonFails e => Some e
        | _ => None
        end
      else None
  | _ => None
  end.

(** The object whose summary fields the resume step reads: the resume
    itself, or what a resume given as a string decodes to. *)
Definition resume_object (json_loads : string -> json_outcome)
           (profile : pydict) : option pydict :=
  match dict_get profile "parsed_resume" with
  | VDict d => if nonempty d then Some d else None
  | VStr s =>
      if str_nonempty s then
        match json_loads s with
        | Decoded (VDict d) => Some d
        | _ => None
        end
      else None
  | _ => None
  end.

(** What the scalar step of lines 54-55 and 106-107 appends. *)
Definition scalar_fragment (py_repr : value -> string) (profile : pydict)
           (field : string) : list string :=
  if py_truthy (dict_get profile field)
  then [py_str py_repr (dict_get profile field)]
  else [].

(** What the preference step of lines 32-37 appends. *)
Definition preference_fragment (py_repr : value -> string) (profile : pydict)
           (is_student : bool) : list string :=
  if is_student then
    let preference := dict_get profile "mentor_preference" in
    if py_truthy preference
       && str_nonempty (str_strip (py_str py_repr preference))
    then [str_strip (py_str py_repr preference)]
    else []
  else [].


(** The first exception of that kind in a list of profiles. *)
Fixpoint first_resume_error (json_loads : string -> json_outcome)
         (profiles : list pydict) : option exn :=
  match profiles with
  | [] => None
  | profile :: rest =>
      match resume_error json_loads profile with
      | Some e => Some e
      | None => first_resume_error json_loads rest
      end
  end.

(** A text of ASCII characters, the texts on which the tables of [Text]
    are those of the interpreter. *)
Definition ascii_text (s : string) : bool :=
  forallb (fun c => (Text.code c <? 128)%nat) (Text.of_string s).

Definition ascii_value (v : value) : bool :=
  match v with
  | VStr s => ascii_text s
  | _ => true
  end.

(** The identity under which a mentee is reported (line 432). *)
Definition mentee_identity (mentee : pydict) : value :=
  py_or (dict_get mentee "student_id") (dict_get mentee "id").

(** The key under which a mentor is reported (line 445). *)
Definition mentor_key (py_repr : value -> string) (mentor : pydict) : string :=
  py_str py_repr (dict_get mentor "id").

(** * Properties *)

(** ** Location similarity *)

Section LocationFacts.

Lemma normalized_of_str (s : string) :
  normalized_of (VStr s) = normalize_location (VStr s).
Proof.
  unfold normalized_of, normalize_location.
  destruct (py_truthy (VStr s)); reflexivity.
Qed.

Lemma words_of_split (a : string) : words_of a = word_set (str_split a).
Proof.
  unfold words_of, str_nonempty.
  destruct (String.eqb_spec a ""); subst; reflexivity.
Qed.

Lemma str_nonempty_false (a : string) : str_nonempty a = false <-> a = "".
Proof.
  unfold str_nonempty. destruct (String.eqb_spec a ""); simpl; split;
    intros; congruence.
Qed.

Lemma nonempty_false {A : Type} (l : list A) : nonempty l = false <-> l = [].
Proof. destruct l; simpl; split; intros; congruence. Qed.

Lemma set_mem_In (w : string) (s : list string) : set_mem w s = true <-> In w s.
Proof.
  unfold set_mem. destruct (in_dec string_dec w s); split; intros;
    try assumption; try reflexivity; try discriminate; contradiction.
Qed.

Lemma NoDup_word_set (ws : list string) : NoDup (word_set ws).
Proof. apply NoDup_nodup. Qed.

Lemma NoDup_filter_keep {A : Type} (f : A -> bool) (l : list A) :
  NoDup l -> NoDup (filter f l).
Proof.
  induction 1 as [|x l Hx Hl IH]; simpl.
  - constructor.
  - destruct (f x).
    + constructor; [rewrite filter_In; tauto | exact IH].
    + exact IH.
Qed.

(** The stop-word-free common words are among the words of the union,
    and are counted once each. *)
Lemma common_le_union (a b : list string) :
  NoDup a ->
  (length (set_diff (set_inter a b) stop_words) <= length (set_union a b))%nat.
Proof.
  intros Ha. apply NoDup_incl_length.
  - unfold set_diff, set_inter. now do 2 apply NoDup_filter_keep.
  - intros w Hw. unfold set_diff, set_inter in Hw.
    apply filter_In in Hw. destruct Hw as [Hw _].
    apply filter_In in Hw. destruct Hw as [Hw _].
    unfold set_union. apply nodup_In, in_or_app. now left.
Qed.

Lemma ratio_pos (c u : nat) : (0 < c)%nat -> (0 < ratio c u)%Q.
Proof. intros H. unfold ratio, Qlt. simpl. lia. Qed.

Lemma ratio_le_1 (c u : nat) : (0 < c <= u)%nat -> (ratio c u <= 1)%Q.
Proof.
  intros H. unfold ratio, Qle. cbn [Qnum Qden].
  assert (Hu : Z.pos (Pos.of_nat u) = Z.of_nat u).
  { rewrite <- positive_nat_Z, Nat2Pos.id; [reflexivity | lia]. }
  rewrite Hu. lia.
Qed.

Lemma half_ratio_range (c u : nat) :
  (0 < c <= u)%nat ->
  (0 < ratio c u * (1 # 2) /\ ratio c u * (1 # 2) <= 1 # 2)%Q.
Proof.
  intros H. pose proof (ratio_pos c u (proj1 H)) as Hp.
  pose proof (ratio_le_1 c u H) as Hl. split.
  - apply Qmult_lt_0_compat; [exact Hp | reflexivity].
  - setoid_replace (1 # 2)%Q with (1 * (1 # 2))%Q at 2 by reflexivity.
    apply Qmult_le_compat_r; [exact Hl | discriminate].
Qed.

End LocationFacts.

Section LocationSimilarity.

Variables x y : string.

Let a := normalize_location (VStr x).
Let b := normalize_location (VStr y).
Let A := word_set (str_split a).
Let B := word_set (str_split b).
Let C := set_diff (set_inter A B) stop_words.
Let U := set_union A B.

Lemma location_similarity_eq :
  location_similarity (VStr x) (VStr y) =
  if negb (str_nonempty a) && negb (str_nonempty b) then 0%Q
  else if String.eqb a b && str_nonempty a then 1%Q
  else if nonempty A && nonempty B then
    if nonempty C then
      if nonempty U then (ratio (length C) (length U) * (1 # 2))%Q else 0%Q
    else 0%Q
  else 0%Q.
Proof.
  unfold location_similarity.
  rewrite !normalized_of_str, !words_of_split. reflexivity.
Qed.

Lemma common_nonempty_sides :
  C <> [] -> nonempty A = true /\ nonempty B = true /\ nonempty U = true
             /\ (0 < length C <= length U)%nat.
Proof.
  intros HC.
  assert (Hlen : (length C <= length U)%nat)
    by (apply common_le_union, NoDup_word_set).
  destruct C as [|w C'] eqn:EC; [congruence|].
  assert (Hw : In w C) by (rewrite EC; now left).
  unfold C, set_diff, set_inter in Hw.
  apply filter_In in Hw. destruct Hw as [Hw _].
  apply filter_In in Hw. destruct Hw as [HwA HwB].
  apply set_mem_In in HwB.
  repeat split.
  - destruct A; [contradiction | reflexivity].
  - destruct B; [contradiction | reflexivity].
  - destruct U; [simpl in Hlen; lia | reflexivity].
  - simpl; lia.
  - exact Hlen.
Qed.

(** Off the exact-match branch the score is at most one half. *)
Lemma location_similarity_partial_le_half :
  (String.eqb a b && str_nonempty a = false) ->
  (0 <= location_similarity (VStr x) (VStr y) <= 1 # 2)%Q.
Proof.
  intros Hne. rewrite location_similarity_eq, Hne.
  destruct (negb (str_nonempty a) && negb (str_nonempty b));
    [split; discriminate|].
  destruct (nonempty A && nonempty B); [|split; discriminate].
  destruct (nonempty C) eqn:HC; [|split; discriminate].
  destruct (nonempty U); [|split; discriminate].
  assert (HC' : C <> []) by (intros E; rewrite E in HC; discriminate).
  destruct common_nonempty_sides as (_ & _ & _ & Hr); [exact HC'|].
  destruct (half_ratio_range _ _ Hr) as [H1 H2].
  split; [apply Qlt_le_weak, H1 | exact H2].
Qed.

Lemma location_similarity_empty_side :
  a = "" \/ b = "" -> location_similarity (VStr x) (VStr y) = 0%Q.
Proof.
  intros H. rewrite location_similarity_eq. destruct H as [Ha | Hb].
  - assert (HA : A = []) by (unfold A; rewrite Ha; reflexivity).
    rewrite (proj2 (str_nonempty_false a) Ha), HA, andb_false_r.
    cbn [negb andb nonempty].
    destruct (negb (str_nonempty b)); reflexivity.
  - assert (HB : B = []) by (unfold B; rewrite Hb; reflexivity).
    rewrite (proj2 (str_nonempty_false b) Hb), HB, andb_false_r.
    cbn [negb andb nonempty].
    destruct (negb (str_nonempty a)); cbn [andb].
    + reflexivity.
    + destruct (String.eqb_spec a b) as [E|]; cbn [andb].
      * rewrite E, (proj2 (str_nonempty_false b) Hb). reflexivity.
      * reflexivity.
Qed.

Lemma location_similarity_no_common :
  a <> b -> C = [] -> location_similarity (VStr x) (VStr y) = 0%Q.
Proof.
  intros Hab HC. rewrite location_similarity_eq, HC.
  apply String.eqb_neq in Hab. rewrite Hab. cbn [andb nonempty].
  destruct (negb (str_nonempty a) && negb (str_nonempty b)); [reflexivity|].
  destruct (nonempty A && nonempty B); reflexivity.
Qed.

Lemma location_similarity_exact :
  a = b -> a <> "" -> location_similarity (VStr x) (VStr y) = 1%Q.
Proof.
  intros Hab Ha. rewrite location_similarity_eq.
  assert (Hn : str_nonempty a = true).
  { destruct (str_nonempty a) eqn:E; [reflexivity|].
    apply str_nonempty_false in E. contradiction. }
  apply String.eqb_eq in Hab. rewrite Hab, Hn. reflexivity.
Qed.

Lemma location_similarity_partial :
  a <> b -> C <> [] ->
  location_similarity (VStr x) (VStr y)
  = (ratio (length C) (length U) * (1 # 2))%Q.
Proof.
  intros Hab HC. rewrite location_similarity_eq.
  destruct (common_nonempty_sides HC) as (HA & HB & HU & _).
  assert (Hn : str_nonempty a = true).
  { destruct (str_nonempty a) eqn:E; [reflexivity|].
    apply str_nonempty_false in E.
    unfold A in HA. rewrite E in HA. discriminate. }
  assert (HCn : nonempty C = true) by (destruct C; [congruence | reflexivity]).
  apply String.eqb_neq in Hab.
  rewrite Hab, Hn, HA, HB, HU, HCn. reflexivity.
Qed.

End LocationSimilarity.

(** C2 (as amended). For location strings [x], [y] with normalised forms
    [a], [b] and word sets [A], [B]: the similarity is exactly 0 when [a]
    or [b] is empty, and when [a] and [b] differ and [A], [B] share no word
    outside the stop-word set; it is 1 iff [a] and [b] are equal and
    non-empty; in the remaining case it is one half of
    |(A ∩ B) \ stop words| / |A ∪ B| (the numerator counts the common words
    left after stop-word removal, the denominator the union of the original
    word sets) and lies in (0, 1/2]. *)
Theorem C2_location_similarity_cases (x y : string) :
  let a := normalize_location (VStr x) in
  let b := normalize_location (VStr y) in
  let A := word_set (str_split a) in
  let B := word_set (str_split b) in
  let C := set_diff (set_inter A B) stop_words in
  let sim := location_similarity (VStr x) (VStr y) in
  (a = "" \/ b = "" -> sim = 0%Q)
  /\ (a <> b -> C = [] -> sim = 0%Q)
  /\ ((sim == 1)%Q <-> a = b /\ a <> "")
  /\ (a <> b -> C <> [] ->
      sim = (ratio (length C) (length (set_union A B)) * (1 # 2))%Q
      /\ (0 < sim <= 1 # 2)%Q).
Proof.
  intros a b A B C sim. split; [|split; [|split]].
  - apply location_similarity_empty_side.
  - apply location_similarity_no_common.
  - split.
    + intros H1.
      destruct (String.eqb a b && str_nonempty a) eqn:E.
      * apply andb_prop in E. destruct E as [E1 E2].
        apply String.eqb_eq in E1. split; [exact E1|].
        intros Ha. apply str_nonempty_false in Ha. congruence.
      * exfalso.
        pose proof (location_similarity_partial_le_half x y E) as [_ Hle].
        fold sim in Hle. rewrite H1 in Hle. apply Hle. reflexivity.
    + intros [Hab Ha]. unfold sim.
      rewrite (location_similarity_exact x y Hab Ha). reflexivity.
  - intros Hab HC. split.
    + apply (location_similarity_partial x y Hab HC).
    + unfold sim. rewrite (location_similarity_partial x y Hab HC).
      destruct (common_nonempty_sides x y HC) as (_ & _ & _ & Hr).
      apply (half_ratio_range _ _ Hr).
Qed.

(** C2, as stated, fails twice.  "Isle of Man" against "Isle of Wight":
    the forms differ, the common words are isle and of, only isle survives
    stop-word removal, and the score is 1/8 = (1/4)/2, not one half of the
    Jaccard index 2/4 of the original word sets.  "The" against "the":
    the word sets share nothing outside the stop words, yet the score is 1,
    not 0. *)
Lemma C2_counterexample :
  (let a := normalize_location (VStr "Isle of Man") in
   let b := normalize_location (VStr "Isle of Wight") in
   let A := word_set (str_split a) in
   let B := word_set (str_split b) in
   a <> "" /\ b <> "" /\ a <> b
   /\ set_diff (set_inter A B) stop_words <> []
   /\ location_similarity (VStr "Isle of Man") (VStr "Isle of Wight") = (1 # 8)%Q
   /\ ~ (location_similarity (VStr "Isle of Man") (VStr "Isle of Wight")
         == ratio (length (set_inter A B)) (length (set_union A B)) * (1 # 2))%Q)
  /\ (let a := normalize_location (VStr "The") in
      let b := normalize_location (VStr "the") in
      set_diff (set_inter (word_set (str_split a)) (word_set (str_split b)))
               stop_words = []
      /\ location_similarity (VStr "The") (VStr "the") = 1%Q
      /\ ~ (location_similarity (VStr "The") (VStr "the") == 0)%Q).
Proof.
  cbv zeta.
  repeat match goal with |- _ /\ _ => split end;
    vm_compute; solve [reflexivity | discriminate].
Qed.

(** C7 (as amended). "NY" normalises to "new york" and "New York, NY" to
    "new york new york": the forms differ, the word sets coincide, and the
    location similarity is one half, the ceiling of a partial match. *)
Theorem C7_ny_new_york_similarity :
  normalize_location (VStr "NY") = "new york"
  /\ normalize_location (VStr "New York, NY") = "new york new york"
  /\ (location_similarity (VStr "NY") (VStr "New York, NY") == 1 # 2)%Q
  /\ compute_location_similarity [VStr "New York, NY"] [VStr "NY"] = [[(2 # 4)%Q]].
Proof.
  repeat match goal with |- _ /\ _ => split end; vm_compute; reflexivity.
Qed.

(** C7, as stated, fails: the score of "NY" against "New York, NY" is not
    1, because the two normalised forms are not equal. *)
Lemma C7_counterexample :
  normalize_location (VStr "NY") <> normalize_location (VStr "New York, NY")
  /\ ~ (location_similarity (VStr "NY") (VStr "New York, NY") == 1)%Q.
Proof. split; vm_compute; discriminate. Qed.


(** Entry (i, j) of the location matrix is the score of mentee [i] against
    mentor [j]. *)
Lemma compute_location_similarity_entry
      (mentor_locations mentee_locations : list value) (i j : nat) (u v : value) :
  nth_error mentee_locations i = Some u ->
  nth_error mentor_locations j = Some v ->
  matrix_get (compute_location_similarity mentor_locations mentee_locations) i j
  = Ok (location_similarity u v).
Proof.
  intros Hu Hv. unfold matrix_get, compute_location_similarity.
  rewrite nth_error_map, Hu. simpl. rewrite nth_error_map, Hv. reflexivity.
Qed.

(** ** Generic facts: the error monad, loops and dictionaries *)

Lemma bind_ok {A B : Type} (m : result A) (k : A -> result B) (b : B) :
  bind m k = Ok b -> exists a, m = Ok a /\ k a = Ok b.
Proof. destruct m as [a|e]; simpl; intros H; [eauto | discriminate]. Qed.

Ltac bind_inv H :=
  let a := fresh "v" in
  let Ha := fresh "Hv" in
  apply bind_ok in H; destruct H as (a & Ha & H).

Ltac splits := repeat match goal with |- _ /\ _ => split end.

Lemma for_each_app {A S : Type} (body : S -> A -> result S) (l1 l2 : list A) (s : S) :
  for_each body (l1 ++ l2) s = (s' <- for_each body l1 s ;; for_each body l2 s').
Proof.
  revert s. induction l1 as [|a l1 IH]; intros s; simpl; [reflexivity|].
  destruct (body s a); simpl; [apply IH | reflexivity].
Qed.

Lemma filter_result_sound {A : Type} (p : A -> result bool) (l kept : list A) :
  filter_result p l = Ok kept ->
  forall a, In a kept -> In a l /\ p a = Ok true.
Proof.
  revert kept. induction l as [|x l IH]; simpl; intros kept H a Ha.
  - inversion H; subst. contradiction.
  - bind_inv H. bind_inv H. inversion H; subst; clear H.
    destruct v.
    + destruct Ha as [<- | Ha]; [tauto|].
      destruct (IH _ Hv0 a Ha). tauto.
    + destruct (IH _ Hv0 a Ha). tauto.
Qed.

Lemma filter_result_all_false {A : Type} (p : A -> result bool) (l : list A) :
  filter_result p l = Ok [] <-> Forall (fun a => p a = Ok false) l.
Proof.
  induction l as [|x l IH]; simpl.
  - split; [constructor | reflexivity].
  - split.
    + intros H. bind_inv H. bind_inv H. inversion H; clear H.
      destruct v; [discriminate|]. subst.
      constructor; [assumption | now apply IH].
    + intros H. inversion H as [|? ? Hx Hl]; subst.
      rewrite Hx. simpl. apply IH in Hl. rewrite Hl. reflexivity.
Qed.

(** *** Scores *)

Lemma Qltb_lt (a b : Q) : Qltb a b = true <-> (a < b)%Q.
Proof.
  unfold Qltb. rewrite negb_true_iff. split.
  - intros H. apply Qnot_le_lt. intros Hle.
    apply Qle_bool_iff in Hle. congruence.
  - intros H. destruct (Qle_bool b a) eqn:E; [|reflexivity].
    apply Qle_bool_iff in E. exfalso. exact (Qlt_not_le _ _ H E).
Qed.

Lemma Qltb_ge (a b : Q) : Qltb a b = false <-> (b <= a)%Q.
Proof.
  unfold Qltb. rewrite negb_false_iff. apply Qle_bool_iff.
Qed.

(** *** Keys *)

Lemma py_eq_sym (a b : value) : py_eq a b = py_eq b a.
Proof.
  unfold py_eq.
  destruct (num_of a) as [p|] eqn:Ea, (num_of b) as [q|] eqn:Eb; try reflexivity.
  - destruct (Qeq_bool p q) eqn:E1, (Qeq_bool q p) eqn:E2; try reflexivity.
    + apply Qeq_bool_iff, Qeq_sym, Qeq_bool_iff in E1. congruence.
    + apply Qeq_bool_iff, Qeq_sym, Qeq_bool_iff in E2. congruence.
  - destruct a, b; try reflexivity. apply String.eqb_sym.
Qed.

Lemma py_eq_trans (a b c : value) :
  py_eq a b = true -> py_eq b c = true -> py_eq a c = true.
Proof.
  unfold py_eq.
  destruct (num_of a) as [p|] eqn:Ea, (num_of b) as [q|] eqn:Eb,
           (num_of c) as [r|] eqn:Ec; try discriminate.
  - rewrite !Qeq_bool_iff. apply Qeq_trans.
  - destruct a, b; try discriminate; destruct c; try discriminate; try reflexivity.
    rewrite !String.eqb_eq. congruence.
Qed.

Lemma py_eq_refl (a : value) : hashable a = true -> py_eq a a = true.
Proof.
  destruct a as [|b|z|q|s|l|d]; simpl; try discriminate; intros _;
    unfold py_eq; simpl.
  - reflexivity.
  - destruct b; reflexivity.
  - apply Qeq_bool_iff. reflexivity.
  - apply Qeq_bool_iff. reflexivity.
  - apply String.eqb_refl.
Qed.

(** Equal keys find the same entries. *)
Lemma py_eq_cong (k k' x : value) :
  py_eq k k' = true -> py_eq k x = py_eq k' x.
Proof.
  intros H. destruct (py_eq k x) eqn:E1, (py_eq k' x) eqn:E2; try reflexivity.
  - rewrite py_eq_sym in H. pose proof (py_eq_trans _ _ _ H E1). congruence.
  - pose proof (py_eq_trans _ _ _ H E2). congruence.
Qed.

Section KeyedFacts.

Context {A : Type}.
Implicit Types (d : keyed A) (k : value) (x : A).

Lemma kd_find_set d k x k' :
  kd_find (kd_set d k x) k' = if py_eq k k' then Some x else kd_find d k'.
Proof.
  induction d as [|[k0 y] d IH]; simpl.
  - reflexivity.
  - destruct (py_eq k0 k) eqn:E0; simpl.
    + rewrite (py_eq_cong _ _ k' E0). destruct (py_eq k k'); reflexivity.
    + rewrite IH. destruct (py_eq k0 k') eqn:E1; [|reflexivity].
      destruct (py_eq k k') eqn:E2; [|reflexivity].
      rewrite py_eq_sym in E2.
      pose proof (py_eq_trans _ _ _ E1 E2). congruence.
Qed.

Lemma kd_find_cong d k k' :
  py_eq k k' = true -> kd_find d k = kd_find d k'.
Proof.
  intros H. induction d as [|[k0 y] d IH]; simpl; [reflexivity|].
  rewrite py_eq_sym, (py_eq_cong _ _ k0 H), py_eq_sym, IH. reflexivity.
Qed.

Lemma kd_find_In d k x : kd_find d k = Some x -> exists k0, In (k0, x) d.
Proof.
  induction d as [|[k0 y] d IH]; simpl; [discriminate|].
  destruct (py_eq k0 k).
  - intros H; inversion H; subst. eauto.
  - intros H. destruct (IH H) as [k1 H1]. eauto.
Qed.

Lemma kd_set_In d k x k0 y :
  In (k0, y) (kd_set d k x) -> y = x \/ In (k0, y) d.
Proof.
  induction d as [|[k1 z] d IH]; simpl.
  - intros [H|[]]. inversion H. now left.
  - destruct (py_eq k1 k); simpl.
    + intros [H|H]; [inversion H; now left | right; now right].
    + intros [H|H]; [right; now left|].
      destruct (IH H); [now left | right; now right].
Qed.

End KeyedFacts.

Lemma sd_find_set {A : Type} (d : list (string * A)) (k k' : string) (x : A) :
  sd_find (sd_set d k x) k' = if String.eqb k k' then Some x else sd_find d k'.
Proof.
  induction d as [|[k0 y] d IH]; simpl.
  - reflexivity.
  - destruct (String.eqb_spec k0 k) as [->|N]; simpl.
    + destruct (String.eqb k k'); reflexivity.
    + rewrite IH. destruct (String.eqb_spec k0 k') as [->|N']; [|reflexivity].
      destruct (String.eqb_spec k k'); [congruence | reflexivity].
Qed.

Lemma sd_set_In {A : Type} (d : list (string * A)) (k k0 : string) (x y : A) :
  In (k0, y) (sd_set d k x) -> (k0 = k /\ y = x) \/ In (k0, y) d.
Proof.
  induction d as [|[k1 z] d IH]; simpl.
  - intros [H|[]]. inversion H. now left.
  - destruct (String.eqb_spec k1 k) as [->|N]; simpl.
    + intros [H|H]; [inversion H; now left | right; now right].
    + intros [H|H]; [right; now left|].
      destruct (IH H); [now left | right; now right].
Qed.

Lemma sd_find_In {A : Type} (d : list (string * A)) (k : string) (x : A) :
  sd_find d k = Some x -> In (k, x) d.
Proof.
  induction d as [|[k0 y] d IH]; simpl; [discriminate|].
  destruct (String.eqb_spec k0 k) as [->|N].
  - intros H; inversion H. now left.
  - intros H. right. now apply IH.
Qed.

(** ** The matcher *)

Section MatcherFacts.

Variable py_repr : value -> string.
Variable students : list pydict.
Variable sim : matrix.

(** *** The scan *)

Lemma scan_spec (j len s : nat) (bi bi' : option nat) (b b' : Q) :
  for_each (scan_step sim j) (seq s len) (bi, b) = Ok (bi', b') ->
  (forall i, (s <= i < s + len)%nat ->
             exists q, matrix_get sim i j = Ok q /\ (q <= b')%Q)
  /\ (b <= b')%Q
  /\ ((bi' = bi /\ b' = b)
      \/ exists i, bi' = Some i /\ (s <= i < s + len)%nat
                   /\ matrix_get sim i j = Ok b' /\ (b < b')%Q
                   /\ forall i', (s <= i' < i)%nat ->
                                 exists q, matrix_get sim i' j = Ok q /\ (q < b')%Q).
Proof.
  revert s bi b. induction len as [|len IH]; intros s bi b H; simpl in H.
  - inversion H; subst. split; [intros i Hi; lia|].
    split; [apply Qle_refl | now left].
  - bind_inv H. unfold scan_step in Hv. bind_inv Hv. rename v0 into q.
    destruct (Qltb b q) eqn:E; inversion Hv; subst; clear Hv.
    + apply Qltb_lt in E.
      destruct (IH _ _ _ H) as (Hall & Hle & Hcase).
      split; [|split].
      * intros i Hi. destruct (Nat.eq_dec i s) as [->|Hn].
        -- exists q. split; [assumption | assumption].
        -- apply Hall. lia.
      * apply Qlt_le_weak. eapply Qlt_le_trans; eassumption.
      * right. destruct Hcase as [[-> ->] | (i & -> & Hi & Hget & Hlt & Hbefore)].
        -- exists s.
           splits; first [reflexivity | assumption | lia | intros i' Hi'; lia].
        -- exists i.
           splits;
             first [reflexivity | assumption | lia
                   | eapply Qlt_trans; eassumption | idtac].
           intros i' Hi'. destruct (Nat.eq_dec i' s) as [->|Hn].
           ++ exists q. split; assumption.
           ++ apply Hbefore. lia.
    + apply Qltb_ge in E.
      destruct (IH _ _ _ H) as (Hall & Hle & Hcase).
      split; [|split].
      * intros i Hi. destruct (Nat.eq_dec i s) as [->|Hn].
        -- exists q. split; [assumption|]. eapply Qle_trans; eassumption.
        -- apply Hall. lia.
      * assumption.
      * destruct Hcase as [[-> ->] | (i & -> & Hi & Hget & Hlt & Hbefore)].
        -- now left.
        -- right. exists i.
           splits; first [reflexivity | assumption | lia | idtac].
           intros i' Hi'. destruct (Nat.eq_dec i' s) as [->|Hn].
           ++ exists q. split; [assumption|]. eapply Qle_lt_trans; eassumption.
           ++ apply Hbefore. lia.
Qed.

(** The scan returns the first index that attains the maximum of the
    mentor's column, when that maximum exceeds -1, and no index
    otherwise. *)
Lemma best_match_spec (n j : nat) (bi : option nat) (best : Q) :
  best_match sim n j = Ok (bi, best) ->
  (forall i, (i < n)%nat -> exists q, matrix_get sim i j = Ok q /\ (q <= best)%Q)
  /\ ((bi = None /\ best = (-1)%Q)
      \/ exists i, bi = Some i /\ (i < n)%nat /\ matrix_get sim i j = Ok best
                   /\ (-1 < best)%Q
                   /\ forall i', (i' < i)%nat ->
                                 exists q, matrix_get sim i' j = Ok q /\ (q < best)%Q).
Proof.
  unfold best_match. intros H.
  destruct (scan_spec _ _ _ _ _ _ _ H) as (Hall & _ & Hcase).
  split.
  - intros i Hi. apply Hall. lia.
  - destruct Hcase as [[-> ->] | (i & -> & Hi & Hget & Hlt & Hbefore)].
    + now left.
    + right. exists i.
      splits; first [reflexivity | assumption | lia | idtac].
      intros i' Hi'. apply Hbefore. lia.
Qed.

(** *** Where assignments come from *)

Lemma well_sourced_set (assigns : keyed (list assignment)) (k : value)
      (l : list assignment) :
  well_sourced students assigns -> Forall (from_mentee students) l ->
  well_sourced students (kd_set assigns k l).
Proof.
  intros Hw Hl k0 l0 Hin. apply kd_set_In in Hin.
  destruct Hin as [-> | Hin]; [assumption | eapply Hw; eassumption].
Qed.

Lemma init_loop_sourced (mentors : list pydict) caps assigns caps' assigns' :
  for_each init_mentor mentors (caps, assigns) = Ok (caps', assigns') ->
  well_sourced students assigns -> well_sourced students assigns'.
Proof.
  revert caps assigns. induction mentors as [|m mentors IH];
    intros caps assigns H Hw; simpl in H.
  - inversion H; subst. assumption.
  - bind_inv H. destruct v as [caps1 assigns1].
    apply (IH _ _ H). unfold init_mentor in Hv. bind_inv Hv.
    destruct v.
    + destruct (hashable (dict_get m "id")); [|discriminate].
      inversion Hv; subst. apply well_sourced_set; [assumption | constructor].
    + inversion Hv; subst. assumption.
Qed.

Lemma assign_mentor_sourced caps assigns assigns' (j : nat) (m : pydict) :
  assign_mentor students sim caps assigns j m = Ok assigns' ->
  well_sourced students assigns -> well_sourced students assigns'.
Proof.
  unfold assign_mentor. intros H Hw.
  destruct (negb (hashable (dict_get m "id"))); [discriminate|].
  destruct (negb (kd_mem caps (dict_get m "id")));
    [inversion H; subst; assumption|].
  bind_inv H. destruct v as [[idx|] best];
    [|inversion H; subst; assumption].
  destruct (Qltb 0 best); [|inversion H; subst; assumption].
  destruct (nth_error students idx) as [mentee|] eqn:En; [|discriminate].
  destruct (kd_find assigns (dict_get m "id")) as [assigned|] eqn:Ef;
    [|discriminate].
  inversion H; subst. apply well_sourced_set; [assumption|].
  apply Forall_app. split.
  - destruct (kd_find_In _ _ _ Ef) as [k0 Hin]. eapply Hw; eassumption.
  - constructor; [|constructor].
    exists mentee, best. split; [eapply nth_error_In; eassumption | reflexivity].
Qed.

Lemma assign_loop_sourced caps (mentors : list pydict) (j : nat) assigns assigns' :
  assign_loop students sim caps mentors j assigns = Ok assigns' ->
  well_sourced students assigns -> well_sourced students assigns'.
Proof.
  revert j assigns. induction mentors as [|m mentors IH];
    intros j assigns H Hw; simpl in H.
  - inversion H; subst. assumption.
  - bind_inv H. apply (IH _ _ H).
    eapply assign_mentor_sourced; eassumption.
Qed.

(** *** Where records come from *)

Lemma format_loop_sound assigns (mentors : list pydict)
      (res0 res : list (string * mentor_record)) :
  for_each (format_mentor py_repr assigns) mentors res0 = Ok res ->
  forall k r, In (k, r) res ->
    In (k, r) res0
    \/ exists mentor assigned,
         In mentor mentors /\ k = py_str py_repr (dict_get mentor "id")
         /\ kd_find assigns (dict_get mentor "id") = Some assigned
         /\ assigned <> [] /\ r = make_record mentor assigned.
Proof.
  revert res0. induction mentors as [|m mentors IH]; intros res0 H k r Hin;
    simpl in H.
  - inversion H; subst. now left.
  - bind_inv H. destruct (IH _ H k r Hin) as [Hin1 | (m' & a & Hm' & Hrest)].
    + unfold format_mentor in Hv.
      destruct (negb (hashable (dict_get m "id"))); [discriminate|].
      destruct (kd_find assigns (dict_get m "id")) as [assigned|] eqn:Ef;
        [|inversion Hv; subst; now left].
      destruct (0 <? length assigned)%nat eqn:El;
        [|inversion Hv; subst; now left].
      inversion Hv; subst. apply sd_set_In in Hin1.
      destruct Hin1 as [[-> ->] | Hin1]; [|now left].
      right. exists m, assigned.
      splits; first [now left | assumption | reflexivity | idtac].
      intros ->. discriminate.
    + right. exists m', a. split; [now right | assumption].
Qed.

(** Every record of the result is the record of one of the mentors that
    were passed in, and each of its assignments is built from one of the
    mentees that were passed in. *)
Lemma matcher_sound (mentors : list pydict) (res : list (string * mentor_record)) :
  match_mentees_to_mentors py_repr mentors students sim = Ok res ->
  forall k r, In (k, r) res ->
    exists mentor,
      In mentor mentors /\ k = py_str py_repr (dict_get mentor "id")
      /\ r = make_record mentor (mentees r)
      /\ mentees r <> []
      /\ Forall (from_mentee students) (mentees r).
Proof.
  unfold match_mentees_to_mentors. intros H k r Hin.
  bind_inv H. destruct v as [caps assigns1]. bind_inv H. rename v into assigns.
  assert (Hw : well_sourced students assigns).
  { eapply assign_loop_sourced; [eassumption|].
    eapply init_loop_sourced; [eassumption|].
    intros k0 l0 []. }
  destruct (format_loop_sound _ _ _ _ H k r Hin)
    as [[] | (m & a & Hm & -> & Hf & Hne & ->)].
  exists m. simpl.
  splits; first [assumption | reflexivity | idtac].
  destruct (kd_find_In _ _ _ Hf) as [k0 Hk0]. eapply Hw; eassumption.
Qed.

End MatcherFacts.

(** ** Eligibility *)

Lemma positive_is_truthy (v : value) (q : Q) :
  num_of v = Some q -> (0 < q)%Q -> py_truthy v = true.
Proof.
  destruct v as [|b|z|p|s|l|d]; simpl; try discriminate; intros H Hq;
    inversion H; subst; clear H.
  - destruct b; [reflexivity | discriminate].
  - apply negb_true_iff, Z.eqb_neq. intros ->. discriminate.
  - apply negb_true_iff. destruct (Qeq_bool q 0) eqn:E; [|reflexivity].
    apply Qeq_bool_iff in E. rewrite E in Hq. discriminate.
Qed.

(** The mentor filter of line 472 keeps exactly the mentors whose
    [willing_to_be_mentor] is truthy and whose [mentor_capacity] is a
    number above 0. *)
Lemma mentor_eligible_true_iff (mentor : pydict) :
  mentor_eligible mentor = Ok true
  <-> py_truthy (dict_get mentor "willing_to_be_mentor") = true
      /\ exists q, num_of (dict_get mentor "mentor_capacity") = Some q /\ (0 < q)%Q.
Proof.
  unfold mentor_eligible, py_or. split.
  - destruct (py_truthy (dict_get mentor "willing_to_be_mentor")); [|discriminate].
    destruct (py_truthy (dict_get mentor "mentor_capacity")) eqn:Ec.
    + unfold py_gt_zero.
      destruct (num_of (dict_get mentor "mentor_capacity")) as [q|]; [|discriminate].
      intros H. inversion H as [Hq]. apply Qltb_lt in Hq. eauto.
    + discriminate.
  - intros [-> (q & Hn & Hq)].
    rewrite (positive_is_truthy _ _ Hn Hq). unfold py_gt_zero. rewrite Hn.
    apply Qltb_lt in Hq. rewrite Hq. reflexivity.
Qed.

(** A mentor the filter keeps is registered by the matcher's first loop. *)
Lemma eligible_registers (mentor : pydict) :
  mentor_eligible mentor = Ok true -> registers mentor = Ok true.
Proof.
  intros H. apply mentor_eligible_true_iff in H. destruct H as [Hw (q & Hn & Hq)].
  unfold registers. rewrite Hw.
  destruct (dict_get mentor "mentor_capacity"); simpl in Hn; try discriminate;
    unfold py_gt_zero; simpl; inversion Hn; subst;
    apply Qltb_lt in Hq; rewrite Hq; reflexivity.
Qed.

(** The flag test of lines 482-493, case by case. *)
Lemma is_true_flag_cases (v : value) :
  is_true_flag v = true
  <-> v = VBool true
      \/ (exists s, v = VStr s /\ str_lower s = "true")
      \/ (exists z, v = VInt z /\ z = 1%Z)
      \/ (exists q, v = VFloat q /\ (q == 1)%Q).
Proof.
  unfold is_true_flag, py_eq.
  destruct v as [|b|z|q|s|l|d]; simpl.
  - split; [discriminate|].
    intros [H|[(s & H & _)|[(z & H & _)|(q & H & _)]]]; discriminate.
  - destruct b; simpl.
    + split; [now left | reflexivity].
    + split; [discriminate|].
      intros [H|[(s & H & _)|[(z & H & _)|(q & H & _)]]]; discriminate.
  - split.
    + intros H. right; right; left. exists z. split; [reflexivity|].
      apply Qeq_bool_iff in H. unfold Qeq in H. simpl in H. lia.
    + intros [H|[(s & H & _)|[(z' & H & ->)|(q & H & _)]]]; try discriminate.
      inversion H; subst. reflexivity.
  - split.
    + intros H. right; right; right. exists q. split; [reflexivity|].
      now apply Qeq_bool_iff.
    + intros [H|[(s & H & _)|[(z' & H & _)|(q' & H & Hq)]]]; try discriminate.
      inversion H; subst. now apply Qeq_bool_iff.
  - rewrite orb_false_r. split.
    + intros H. right; left. exists s. split; [reflexivity|].
      now apply String.eqb_eq.
    + intros [H|[(s' & H & Hs)|[(z' & H & _)|(q' & H & _)]]]; try discriminate.
      inversion H; subst. now apply String.eqb_eq.
  - split; [discriminate|].
    intros [H|[(s & H & _)|[(z & H & _)|(q & H & _)]]]; discriminate.
  - split; [discriminate|].
    intros [H|[(s & H & _)|[(z & H & _)|(q & H & _)]]]; discriminate.
Qed.

(** ** The pipeline *)

Section PipelineFacts.

Variable py_repr : value -> string.
Variable json_loads : string -> json_outcome.
Variable vec : Type.
Variable zero_vec : vec.
Variable tfidf_fit_transform : list string -> result (list vec).
Variable count_fit_transform : list string -> result (list vec).
Variable cosine : vec -> vec -> cell.

Let run := perform_matching py_repr json_loads vec zero_vec
                            tfidf_fit_transform count_fit_transform cosine.

(** The [matches] of a result are empty or are what the matcher returned
    on the filtered mentors and mentees. *)
Lemma perform_matching_matches (mentors_data mentees_data : list pydict)
      (out : output) :
  run mentors_data mentees_data = Ok out ->
  matches out = []
  \/ exists mentors sim,
       filter_result mentor_eligible mentors_data = Ok mentors
       /\ match_mentees_to_mentors py_repr mentors
             (filter mentee_eligible mentees_data) sim = Ok (matches out).
Proof.
  unfold run, perform_matching. intros H.
  bind_inv H. rename v into mentors.
  destruct (negb (nonempty mentors)); [inversion H; now left|].
  destruct (negb (nonempty (filter mentee_eligible mentees_data)));
    [inversion H; now left|].
  do 8 bind_inv H. inversion H; subst; clear H. simpl.
  right. eauto.
Qed.

Lemma no_mentors_result (mentors_data mentees_data : list pydict) :
  filter_result mentor_eligible mentors_data = Ok [] ->
  run mentors_data mentees_data = Ok (failure no_mentors_message).
Proof.
  unfold run, perform_matching. intros ->. reflexivity.
Qed.

Lemma no_mentees_result (mentors_data mentees_data mentors : list pydict) :
  filter_result mentor_eligible mentors_data = Ok mentors ->
  mentors <> [] ->
  filter mentee_eligible mentees_data = [] ->
  run mentors_data mentees_data = Ok (failure no_mentees_message).
Proof.
  unfold run, perform_matching. intros -> Hne ->. simpl.
  destruct mentors; [congruence | reflexivity].
Qed.

End PipelineFacts.

(** C3 (as amended).  In a run that returns, every key of [matches] is
    the key of a mentor of the input whose [willing_to_be_mentor] is truthy
    and whose [mentor_capacity] is a number above 0, and the record under
    the key is that mentor's.  So a mentor whose flag is falsy, or whose
    capacity is absent, null or not a number above 0, has no entry under
    its key, unless an eligible mentor of the same input has the same key
    (the string of its [id]). *)
Theorem C3_ineligible_mentors_hold_no_key
        (py_repr : value -> string) (json_loads : string -> json_outcome)
        (vec : Type) (zero_vec : vec)
        (tfidf_fit_transform count_fit_transform : list string -> result (list vec))
        (cosine : vec -> vec -> cell)
        (mentors_data mentees_data : list pydict) (out : output) :
  perform_matching py_repr json_loads vec zero_vec tfidf_fit_transform
                   count_fit_transform cosine mentors_data mentees_data = Ok out ->
  (forall k r, In (k, r) (matches out) ->
     exists mentor,
       In mentor mentors_data
       /\ k = mentor_key py_repr mentor
       /\ r = make_record mentor (mentees r)
       /\ py_truthy (dict_get mentor "willing_to_be_mentor") = true
       /\ dict_get mentor "willing_to_be_mentor" <> VBool false
       /\ dict_get mentor "mentor_capacity" <> VNone
       /\ exists q, num_of (dict_get mentor "mentor_capacity") = Some q /\ (0 < q)%Q)
  /\ (forall mentor,
        In mentor mentors_data ->
        py_truthy (dict_get mentor "willing_to_be_mentor") = false
        \/ ~ (exists q, num_of (dict_get mentor "mentor_capacity") = Some q
                        /\ (0 < q)%Q) ->
        (forall other,
            In other mentors_data -> mentor_eligible other = Ok true ->
            mentor_key py_repr other <> mentor_key py_repr mentor) ->
        sd_find (matches out) (mentor_key py_repr mentor) = None
        /\ forall r, ~ In (mentor_key py_repr mentor, r) (matches out)).
Proof.
  intros H.
  assert (Hkeys : forall k r, In (k, r) (matches out) ->
            exists mentor,
              In mentor mentors_data
              /\ k = mentor_key py_repr mentor
              /\ r = make_record mentor (mentees r)
              /\ py_truthy (dict_get mentor "willing_to_be_mentor") = true
              /\ dict_get mentor "willing_to_be_mentor" <> VBool false
              /\ dict_get mentor "mentor_capacity" <> VNone
              /\ exists q, num_of (dict_get mentor "mentor_capacity") = Some q
                           /\ (0 < q)%Q).
  { intros k r Hin.
    destruct (perform_matching_matches _ _ _ _ _ _ _ _ _ _ H)
      as [E | (mentors & sim & Hf & Hm)]; [rewrite E in Hin; contradiction|].
    destruct (matcher_sound _ _ _ _ _ Hm k r Hin) as (m & Hmin & Hk & Hr & _).
    destruct (filter_result_sound _ _ _ Hf m Hmin) as [Hdata Hel].
    apply mentor_eligible_true_iff in Hel. destruct Hel as [Hw (q & Hn & Hq)].
    exists m. splits; try assumption.
    - intros E. rewrite E in Hw. discriminate.
    - intros E. rewrite E in Hn. discriminate.
    - eauto. }
  split; [exact Hkeys|].
  intros mentor Hin Hno Hdistinct.
  assert (Habsent : forall r, ~ In (mentor_key py_repr mentor, r) (matches out)).
  { intros r Hr.
    destruct (Hkeys _ _ Hr) as (m & Hm & Hk & _ & Hw & _ & _ & Hq).
    apply (Hdistinct m Hm); [|symmetry; exact Hk].
    apply mentor_eligible_true_iff. split; assumption. }
  split; [|exact Habsent].
  destruct (sd_find (matches out) (mentor_key py_repr mentor)) as [r|] eqn:E;
    [|reflexivity].
  destruct (Habsent r). eapply sd_find_In. exact E.
Qed.

(** C3 at work: beside mentor 1 the input holds an unwilling mentor, whose
    key "4" is not in [matches]. *)
Lemma C3_witness :
  (forall k r, In (k, r) (matches Cases.mixed_run) ->
     exists mentor,
       In mentor [Demo.mentor_1; Cases.mentor_unwilling]
       /\ k = mentor_key Demo.repr mentor
       /\ r = make_record mentor (mentees r)
       /\ py_truthy (dict_get mentor "willing_to_be_mentor") = true
       /\ dict_get mentor "willing_to_be_mentor" <> VBool false
       /\ dict_get mentor "mentor_capacity" <> VNone
       /\ exists q, num_of (dict_get mentor "mentor_capacity") = Some q /\ (0 < q)%Q)
  /\ (forall mentor,
        In mentor [Demo.mentor_1; Cases.mentor_unwilling] ->
        py_truthy (dict_get mentor "willing_to_be_mentor") = false
        \/ ~ (exists q, num_of (dict_get mentor "mentor_capacity") = Some q
                        /\ (0 < q)%Q) ->
        (forall other,
            In other [Demo.mentor_1; Cases.mentor_unwilling] ->
            mentor_eligible other = Ok true ->
            mentor_key Demo.repr other <> mentor_key Demo.repr mentor) ->
        sd_find (matches Cases.mixed_run) (mentor_key Demo.repr mentor) = None
        /\ forall r, ~ In (mentor_key Demo.repr mentor, r)
                          (matches Cases.mixed_run)).
Proof.
  apply (C3_ineligible_mentors_hold_no_key
           Demo.repr Demo.loads unit tt Demo.fit_transform Demo.fit_transform
           Demo.cos [Demo.mentor_1; Cases.mentor_unwilling]
           [Demo.mentee_10; Cases.mentee_paired] Cases.mixed_run).
  vm_compute. reflexivity.
Defined.

(** C3, as stated, fails: the key of an unwilling mentor is in [matches]
    when a willing mentor carries the same [id]. *)
Lemma C3_counterexample :
  dict_get Cases.mentor_unwilling_1 "willing_to_be_mentor" = VBool false
  /\ mentor_eligible Cases.mentor_unwilling_1 = Ok false
  /\ exists out r,
       Demo.run [Demo.mentor_1; Cases.mentor_unwilling_1] [Demo.mentee_10] = Ok out
       /\ sd_find (matches out) (mentor_key Demo.repr Cases.mentor_unwilling_1)
          = Some r
       /\ In (mentor_key Demo.repr Cases.mentor_unwilling_1, r) (matches out).
Proof.
  split; [reflexivity|]. split; [reflexivity|].
  exists (Demo.out_of
            (Demo.run [Demo.mentor_1; Cases.mentor_unwilling_1] [Demo.mentee_10])).
  exists (Demo.first_record
            (Demo.out_of
               (Demo.run [Demo.mentor_1; Cases.mentor_unwilling_1]
                         [Demo.mentee_10]))).
  splits; vm_compute; [reflexivity | reflexivity | left; reflexivity].
Qed.

Lemma not_true_flag (v : value) :
  is_true_flag v = false ->
  v <> VBool true
  /\ (forall s, v = VStr s -> str_lower s <> "true")
  /\ v <> VInt 1.
Proof.
  intros H. splits.
  - intros ->. discriminate.
  - intros s -> E. unfold is_true_flag in H. simpl in H.
    rewrite E in H. discriminate.
  - intros ->. discriminate.
Qed.

(** C4 (as amended).  The flag test holds of the boolean true, of a string
    that lowers to "true" and of a number equal to 1, the integer 1 or the
    float 1.0.  In a run that returns, every assignment in every mentor's
    record is built from a mentee of the input whose
    [mentorship_interest] passes the test and whose [mentor_paired] does
    not.  So a mentee that is paired, or that shows no interest, is named
    by no assignment, whatever its score, unless an eligible mentee of the
    same input carries the same identity ([student_id], else [id]). *)
Theorem C4_ineligible_mentees_are_not_assigned
        (py_repr : value -> string) (json_loads : string -> json_outcome)
        (vec : Type) (zero_vec : vec)
        (tfidf_fit_transform count_fit_transform : list string -> result (list vec))
        (cosine : vec -> vec -> cell)
        (mentors_data mentees_data : list pydict) (out : output) :
  perform_matching py_repr json_loads vec zero_vec tfidf_fit_transform
                   count_fit_transform cosine mentors_data mentees_data = Ok out ->
  (forall v,
      is_true_flag v = true
      <-> v = VBool true
          \/ (exists s, v = VStr s /\ str_lower s = "true")
          \/ (exists z, v = VInt z /\ z = 1%Z)
          \/ (exists x, v = VFloat x /\ (x == 1)%Q))
  /\ (forall k r a, In (k, r) (matches out) -> In a (mentees r) ->
        exists mentee q,
          In mentee mentees_data
          /\ a = make_assignment mentee q
          /\ is_true_flag (dict_get mentee "mentorship_interest") = true
          /\ is_true_flag (dict_get mentee "mentor_paired") = false
          /\ (let paired := dict_get mentee "mentor_paired" in
              paired <> VBool true
              /\ (forall s, paired = VStr s -> str_lower s <> "true")
              /\ paired <> VInt 1
              /\ forall x, paired = VFloat x -> ~ (x == 1)%Q))
  /\ (forall mentee,
        In mentee mentees_data ->
        is_true_flag (dict_get mentee "mentor_paired") = true
        \/ is_true_flag (dict_get mentee "mentorship_interest") = false ->
        (forall other,
            In other mentees_data -> mentee_eligible other = true ->
            mentee_identity other <> mentee_identity mentee) ->
        forall k r a, In (k, r) (matches out) -> In a (mentees r) ->
                      mentee_id a <> mentee_identity mentee).
Proof.
  intros H.
  assert (Hsrc : forall k r a, In (k, r) (matches out) -> In a (mentees r) ->
            exists mentee q,
              In mentee mentees_data /\ a = make_assignment mentee q
              /\ mentee_eligible mentee = true).
  { intros k r a Hin Ha.
    destruct (perform_matching_matches _ _ _ _ _ _ _ _ _ _ H)
      as [E | (mentors & sim & Hf & Hm)]; [rewrite E in Hin; contradiction|].
    destruct (matcher_sound _ _ _ _ _ Hm k r Hin) as (m & _ & _ & _ & _ & Hsrc).
    rewrite Forall_forall in Hsrc.
    destruct (Hsrc a Ha) as (mentee & q & Hmentee & ->).
    apply filter_In in Hmentee. destruct Hmentee as [Hdata Hel].
    exists mentee, q. splits; [assumption | reflexivity | assumption]. }
  split; [apply is_true_flag_cases|]. split.
  - intros k r a Hin Ha.
    destruct (Hsrc k r a Hin Ha) as (mentee & q & Hdata & -> & Hel).
    unfold mentee_eligible, has_interest, is_paired in Hel.
    apply andb_prop in Hel. destruct Hel as [Hi Hp].
    apply negb_true_iff in Hp.
    exists mentee, q. cbv zeta. splits; try assumption; try reflexivity;
      try (apply not_true_flag; exact Hp).
    intros x Ex Hx.
    assert (Ht : is_true_flag (dict_get mentee "mentor_paired") = true).
    { apply is_true_flag_cases. right; right; right. eauto. }
    congruence.
  - intros mentee Hin Hno Hdistinct k r a Hk Ha Eid.
    destruct (Hsrc k r a Hk Ha) as (other & q & Hdata & -> & Hel).
    apply (Hdistinct other Hdata Hel). exact Eid.
Qed.

(** C4 at work: beside mentee 10 the input holds a paired mentee, whose
    identity 12 is in no assignment. *)
Lemma C4_witness :
  (forall v,
      is_true_flag v = true
      <-> v = VBool true
          \/ (exists s, v = VStr s /\ str_lower s = "true")
          \/ (exists z, v = VInt z /\ z = 1%Z)
          \/ (exists x, v = VFloat x /\ (x == 1)%Q))
  /\ (forall k r a, In (k, r) (matches Cases.mixed_run) -> In a (mentees r) ->
        exists mentee q,
          In mentee [Demo.mentee_10; Cases.mentee_paired]
          /\ a = make_assignment mentee q
          /\ is_true_flag (dict_get mentee "mentorship_interest") = true
          /\ is_true_flag (dict_get mentee "mentor_paired") = false
          /\ (let paired := dict_get mentee "mentor_paired" in
              paired <> VBool true
              /\ (forall s, paired = VStr s -> str_lower s <> "true")
              /\ paired <> VInt 1
              /\ forall x, paired = VFloat x -> ~ (x == 1)%Q))
  /\ (forall mentee,
        In mentee [Demo.mentee_10; Cases.mentee_paired] ->
        is_true_flag (dict_get mentee "mentor_paired") = true
        \/ is_true_flag (dict_get mentee "mentorship_interest") = false ->
        (forall other,
            In other [Demo.mentee_10; Cases.mentee_paired] ->
            mentee_eligible other = true ->
            mentee_identity other <> mentee_identity mentee) ->
        forall k r a, In (k, r) (matches Cases.mixed_run) -> In a (mentees r) ->
                      mentee_id a <> mentee_identity mentee).
Proof.
  apply (C4_ineligible_mentees_are_not_assigned
           Demo.repr Demo.loads unit tt Demo.fit_transform Demo.fit_transform
           Demo.cos [Demo.mentor_1; Cases.mentor_unwilling]
           [Demo.mentee_10; Cases.mentee_paired] Cases.mixed_run).
  vm_compute. reflexivity.
Defined.

(** C4, as stated, fails: a mentee whose [mentorship_interest] is the
    number 1.0 (not the boolean true, not a string, not the integer 1) is
    assigned. *)
Lemma C4_counterexample :
  (let interest := dict_get Cases.mentee_float_interest "mentorship_interest" in
   interest <> VBool true
   /\ (forall s, interest <> VStr s)
   /\ (forall z, interest <> VInt z))
  /\ exists out,
       Demo.run [Demo.mentor_1] [Cases.mentee_float_interest] = Ok out
       /\ mentee_id (Demo.first_assignment out)
          = mentee_identity Cases.mentee_float_interest
       /\ In (Demo.first_assignment out) (mentees (Demo.first_record out))
       /\ In ("1", Demo.first_record out) (matches out).
Proof.
  split.
  { cbv zeta.
    splits; [|intros s|intros z]; intros E; vm_compute in E; discriminate. }
  exists (Demo.out_of (Demo.run [Demo.mentor_1] [Cases.mentee_float_interest])).
  splits; vm_compute; [reflexivity | reflexivity | left; reflexivity
                      | left; reflexivity].
Qed.

(** The mentor filter returns on a mentor unless its flag is truthy and
    its capacity is truthy without being a number. *)
Lemma mentor_eligible_returns (mentor : pydict) :
  (exists keep, mentor_eligible mentor = Ok keep)
  <-> py_truthy (dict_get mentor "willing_to_be_mentor") = false
      \/ py_truthy (dict_get mentor "mentor_capacity") = false
      \/ num_of (dict_get mentor "mentor_capacity") <> None.
Proof.
  unfold mentor_eligible, py_or, py_gt_zero.
  destruct (py_truthy (dict_get mentor "willing_to_be_mentor"));
    [|split; [now left | eauto]].
  destruct (py_truthy (dict_get mentor "mentor_capacity")).
  - destruct (num_of (dict_get mentor "mentor_capacity")) as [q|].
    + split; [intros _; right; right; discriminate | eauto].
    + split.
      * intros [keep Hk]. discriminate.
      * intros [Hf|[Hf|Hf]]; try discriminate. congruence.
  - simpl. split; [intros _; right; now left | eauto].
Qed.

Lemma filter_result_returns {A : Type} (p : A -> result bool) (l : list A) :
  (exists kept, filter_result p l = Ok kept)
  <-> Forall (fun a => exists keep, p a = Ok keep) l.
Proof.
  induction l as [|a l IH]; simpl.
  - split; [constructor | eauto].
  - split.
    + intros [kept H]. bind_inv H. bind_inv H.
      constructor; [eauto | apply IH; eauto].
    + intros H. inversion H as [|? ? [keep Hk] Hl]; subst.
      apply IH in Hl. destruct Hl as [kept Hkept].
      rewrite Hk, Hkept. simpl. eauto.
Qed.

Lemma mentor_eligible_raises (mentor : pydict) (e : exn) :
  mentor_eligible mentor = Raise e -> e = TypeError.
Proof.
  unfold mentor_eligible, py_gt_zero.
  destruct (py_truthy (dict_get mentor "willing_to_be_mentor")); [|discriminate].
  destruct (num_of (py_or (dict_get mentor "mentor_capacity") (VInt 0)));
    [discriminate|]. intros H. inversion H. reflexivity.
Qed.

Lemma filter_result_raises {A : Type} (p : A -> result bool) (l : list A)
      (e0 : exn) (a : A) :
  (forall x e, p x = Raise e -> e = e0) ->
  In a l -> p a = Raise e0 -> filter_result p l = Raise e0.
Proof.
  intros Hall. induction l as [|x l IH]; intros Hin Ha; [contradiction|].
  simpl. destruct (p x) as [keep|e] eqn:Ex; simpl.
  - destruct Hin as [->|Hin]; [congruence|].
    rewrite (IH Hin Ha). reflexivity.
  - rewrite (Hall _ _ Ex). reflexivity.
Qed.

(** C8 (as amended).  The mentor filter returns exactly when no mentor
    with a truthy [willing_to_be_mentor] carries a truthy capacity that is
    not a number.  When it returns and keeps nobody, and when it keeps
    somebody but the mentee filter keeps nobody, the pipeline returns (it
    does not raise) the failure record: [success] false, the message
    naming the missing side, [matches] empty, and no similarity matrix is
    computed.  When the mentor filter does not return, the pipeline raises
    [TypeError], whoever the mentees are. *)
Theorem C8_nobody_eligible
        (py_repr : value -> string) (json_loads : string -> json_outcome)
        (vec : Type) (zero_vec : vec)
        (tfidf_fit_transform count_fit_transform : list string -> result (list vec))
        (cosine : vec -> vec -> cell)
        (mentors_data mentees_data : list pydict) :
  let run := perform_matching py_repr json_loads vec zero_vec tfidf_fit_transform
                              count_fit_transform cosine in
  let filter_returns :=
    Forall (fun m =>
              py_truthy (dict_get m "willing_to_be_mentor") = false
              \/ py_truthy (dict_get m "mentor_capacity") = false
              \/ num_of (dict_get m "mentor_capacity") <> None)
           mentors_data in
  ((exists mentors, filter_result mentor_eligible mentors_data = Ok mentors)
   <-> filter_returns)
  /\ (filter_result mentor_eligible mentors_data = Ok [] ->
      run mentors_data mentees_data
      = Ok {| success := false; message := no_mentors_message;
              stats := None; matches := [] |})
  /\ (forall mentors,
        filter_result mentor_eligible mentors_data = Ok mentors ->
        mentors <> [] ->
        filter mentee_eligible mentees_data = [] ->
        run mentors_data mentees_data
        = Ok {| success := false; message := no_mentees_message;
                stats := None; matches := [] |})
  /\ (Forall (fun m => mentor_eligible m = Ok false) mentors_data ->
      filter_result mentor_eligible mentors_data = Ok [])
  /\ (~ filter_returns -> run mentors_data mentees_data = Raise TypeError)
  /\ no_mentors_message <> "" /\ no_mentees_message <> "".
Proof.
  intros run filter_returns.
  assert (Hret : (exists mentors,
                     filter_result mentor_eligible mentors_data = Ok mentors)
                 <-> filter_returns).
  { rewrite filter_result_returns. unfold filter_returns.
    rewrite !Forall_forall. split; intros H m Hm.
    - apply mentor_eligible_returns. now apply H.
    - apply mentor_eligible_returns. now apply H. }
  splits.
  - exact Hret.
  - apply no_mentors_result.
  - apply no_mentees_result.
  - apply filter_result_all_false.
  - intros Hno. unfold run, perform_matching.
    destruct (filter_result mentor_eligible mentors_data) as [kept|e] eqn:E.
    + destruct Hno. apply Hret. eauto.
    + cbn [bind]. f_equal.
      clear Hret Hno. revert e E.
      induction mentors_data as [|m l IH]; simpl; intros e E; [discriminate|].
      destruct (mentor_eligible m) as [keep|e'] eqn:Em; simpl in E.
      * destruct (filter_result mentor_eligible l) as [rest|e''] eqn:El;
          simpl in E; [discriminate|].
        inversion E; subst. now apply IH.
      * inversion E; subst. eapply mentor_eligible_raises. exact Em.
  - discriminate.
  - discriminate.
Qed.

(** C8, as stated, fails: with no eligible mentee the pipeline still
    raises when a willing mentor carries its capacity as text. *)
Lemma C8_counterexample :
  filter mentee_eligible [Cases.mentee_paired] = []
  /\ Demo.run [Cases.mentor_text_capacity] [Cases.mentee_paired] = Raise TypeError.
Proof. split; reflexivity. Qed.

(** C10.  The mentor filter reads [willing_to_be_mentor] by plain
    truthiness and by nothing else: it keeps a mentor exactly when the
    flag is truthy and the capacity is a number above 0, and it drops a
    mentor whose flag is falsy without looking at the capacity.
    Non-empty strings (the string "false" among them), non-zero numbers
    and non-empty containers are truthy; every value that passes the
    mentee flag test is truthy, while the test rejects the string
    "false".  In the demo run the mentor whose flag is the string "false"
    is a key of [matches]. *)
Theorem C10_willing_by_truthiness :
  (forall mentor,
      mentor_eligible mentor = Ok true
      <-> py_truthy (dict_get mentor "willing_to_be_mentor") = true
          /\ exists q, num_of (dict_get mentor "mentor_capacity") = Some q
                       /\ (0 < q)%Q)
  /\ (forall mentor,
        py_truthy (dict_get mentor "willing_to_be_mentor") = false ->
        mentor_eligible mentor = Ok false /\ registers mentor = Ok false)
  /\ (forall mentor,
        mentor_eligible mentor = Ok true -> registers mentor = Ok true)
  /\ (forall s, py_truthy (VStr s) = true <-> s <> "")
  /\ (forall z, py_truthy (VInt z) = true <-> z <> 0%Z)
  /\ (forall q, py_truthy (VFloat q) = true <-> ~ (q == 0)%Q)
  /\ (forall l, py_truthy (VList l) = true <-> l <> [])
  /\ (forall d, py_truthy (VDict d) = true <-> d <> [])
  /\ (forall v, is_true_flag v = true -> py_truthy v = true)
  /\ py_truthy (VStr "false") = true
  /\ is_true_flag (VStr "false") = false
  /\ mentor_eligible Demo.mentor_says_false = Ok true
  /\ exists out r,
       Demo.run [Demo.mentor_says_false] [Demo.mentee_10] = Ok out
       /\ success out = true
       /\ sd_find (matches out) "1" = Some r
       /\ mentor_id r = VInt 1.
Proof.
  splits.
  - apply mentor_eligible_true_iff.
  - intros mentor Hw. unfold mentor_eligible, registers. rewrite Hw.
    split; reflexivity.
  - apply eligible_registers.
  - intros s. simpl. rewrite negb_true_iff. apply String.eqb_neq.
  - intros z. simpl. rewrite negb_true_iff. apply Z.eqb_neq.
  - intros q. simpl. rewrite negb_true_iff. split.
    + intros H Hq. apply Qeq_bool_iff in Hq. congruence.
    + intros H. destruct (Qeq_bool q 0) eqn:E; [|reflexivity].
      apply Qeq_bool_iff in E. contradiction.
  - intros l. destruct l; simpl; split; congruence.
  - intros d. destruct d; simpl; split; congruence.
  - intros v Hv. apply is_true_flag_cases in Hv.
    destruct Hv as [->|[(s & -> & Hs)|[(z & -> & ->)|(x & -> & Hx)]]].
    + reflexivity.
    + simpl. apply negb_true_iff, String.eqb_neq. intros ->. discriminate.
    + reflexivity.
    + simpl. apply negb_true_iff.
      destruct (Qeq_bool x 0) eqn:E; [|reflexivity].
      apply Qeq_bool_iff in E. rewrite E in Hx. discriminate.
  - reflexivity.
  - reflexivity.
  - reflexivity.
  - exists (Demo.out_of (Demo.run [Demo.mentor_says_false] [Demo.mentee_10])).
    exists (Demo.first_record
              (Demo.out_of (Demo.run [Demo.mentor_says_false] [Demo.mentee_10]))).
    splits; vm_compute; reflexivity.
Qed.

(** ** One mentor among mentors of different identities *)

Section OneMentor.

Variable py_repr : value -> string.
Variable students : list pydict.
Variable sim : matrix.

Let ident (m : pydict) : value := dict_get m "id".

(** Mentors whose identity is another key leave the entry of [k] alone. *)
Lemma init_loop_other (k : value) (l : list pydict) st st' :
  for_each init_mentor l st = Ok st' ->
  Forall (fun m' => py_eq (ident m') k = false) l ->
  kd_find (fst st') k = kd_find (fst st) k
  /\ kd_find (snd st') k = kd_find (snd st) k.
Proof.
  revert st. induction l as [|m l IH]; intros st H Hk; simpl in H.
  - inversion H; subst. split; reflexivity.
  - bind_inv H. inversion Hk as [|? ? Hm Hl]; subst.
    destruct (IH _ H Hl) as [E1 E2]. rewrite E1, E2. clear IH H E1 E2.
    unfold init_mentor in Hv. destruct st as [caps assigns].
    bind_inv Hv. destruct v0.
    + destruct (hashable (dict_get m "id")); [|discriminate].
      inversion Hv; subst; simpl. rewrite !kd_find_set.
      unfold ident in Hm. rewrite Hm. split; reflexivity.
    + inversion Hv; subst. split; reflexivity.
Qed.

Lemma assign_mentor_other (k : value) caps assigns assigns' (idx : nat) (m : pydict) :
  assign_mentor students sim caps assigns idx m = Ok assigns' ->
  py_eq (ident m) k = false ->
  kd_find assigns' k = kd_find assigns k.
Proof.
  unfold assign_mentor, ident. intros H Hk.
  destruct (negb (hashable (dict_get m "id"))); [discriminate|].
  destruct (negb (kd_mem caps (dict_get m "id")));
    [inversion H; subst; reflexivity|].
  bind_inv H. destruct v as [[i|] best]; [|inversion H; subst; reflexivity].
  destruct (Qltb 0 best); [|inversion H; subst; reflexivity].
  destruct (nth_error students i); [|discriminate].
  destruct (kd_find assigns (dict_get m "id")); [|discriminate].
  inversion H; subst. rewrite kd_find_set, Hk. reflexivity.
Qed.

Lemma assign_loop_other (k : value) caps (l : list pydict) (idx : nat)
      assigns assigns' :
  assign_loop students sim caps l idx assigns = Ok assigns' ->
  Forall (fun m' => py_eq (ident m') k = false) l ->
  kd_find assigns' k = kd_find assigns k.
Proof.
  revert idx assigns. induction l as [|m l IH]; intros idx assigns H Hk;
    simpl in H.
  - inversion H; subst. reflexivity.
  - bind_inv H. inversion Hk as [|? ? Hm Hl]; subst.
    rewrite (IH _ _ H Hl). eapply assign_mentor_other; eassumption.
Qed.

Lemma assign_loop_app caps (l1 l2 : list pydict) (idx : nat) assigns :
  assign_loop students sim caps (l1 ++ l2) idx assigns
  = (mid <- assign_loop students sim caps l1 idx assigns ;;
     assign_loop students sim caps l2 (idx + length l1) mid).
Proof.
  revert idx assigns. induction l1 as [|m l1 IH]; intros idx assigns; simpl.
  - rewrite Nat.add_0_r. reflexivity.
  - destruct (assign_mentor students sim caps assigns idx m); simpl;
      [|reflexivity].
    rewrite IH. replace (S idx + length l1)%nat with (idx + S (length l1))%nat by lia.
    reflexivity.
Qed.

Lemma format_loop_other (s : string) assigns (l : list pydict)
      (res0 res : list (string * mentor_record)) :
  for_each (format_mentor py_repr assigns) l res0 = Ok res ->
  Forall (fun m' => py_str py_repr (ident m') <> s) l ->
  sd_find res s = sd_find res0 s.
Proof.
  revert res0. induction l as [|m l IH]; intros res0 H Hs; simpl in H.
  - inversion H; subst. reflexivity.
  - bind_inv H. inversion Hs as [|? ? Hm Hl]; subst.
    rewrite (IH _ H Hl). clear IH H.
    unfold format_mentor in Hv.
    destruct (negb (hashable (dict_get m "id"))); [discriminate|].
    destruct (kd_find assigns (dict_get m "id")) as [assigned|];
      [|inversion Hv; subst; reflexivity].
    destruct (0 <? length assigned)%nat; [|inversion Hv; subst; reflexivity].
    inversion Hv; subst. rewrite sd_find_set.
    apply String.eqb_neq in Hm. unfold ident in Hm. rewrite Hm. reflexivity.
Qed.

Lemma assign_mentor_self caps assigns assigns' (j : nat) (m : pydict)
      (old : list assignment) :
  assign_mentor students sim caps assigns j m = Ok assigns' ->
  kd_mem caps (ident m) = true ->
  kd_find assigns (ident m) = Some old ->
  (exists st, best_match sim (length students) j = Ok st)
  /\ kd_find assigns' (ident m) = Some (old ++ contribution students sim j).
Proof.
  unfold assign_mentor, contribution, ident. intros H Hc Ho.
  destruct (hashable (dict_get m "id")) eqn:Eh; [|discriminate]. simpl in H.
  rewrite Hc in H. simpl in H. bind_inv H. rewrite Hv.
  split; [eauto|].
  destruct v as [[i|] best].
  - destruct (Qltb 0 best).
    + destruct (nth_error students i); [|discriminate].
      rewrite Ho in H. inversion H; subst.
      rewrite kd_find_set, py_eq_refl by assumption. reflexivity.
    + inversion H; subst. rewrite Ho, app_nil_r. reflexivity.
  - inversion H; subst. rewrite Ho, app_nil_r. reflexivity.
Qed.

Lemma distinct_split (pre post : list pydict) (m : pydict) :
  distinct_identities py_repr (pre ++ m :: post) ->
  Forall (fun m' => py_eq (ident m') (ident m) = false
                    /\ py_str py_repr (ident m') <> py_str py_repr (ident m))
         (pre ++ post).
Proof.
  induction pre as [|p pre IH]; simpl; intros [Hhd Htl].
  - eapply Forall_impl; [|exact Hhd]. simpl. intros m' [H1 H2].
    unfold ident. rewrite py_eq_sym. split; [assumption | congruence].
  - constructor.
    + apply Forall_app in Hhd. destruct Hhd as [_ Hhd].
      inversion Hhd as [|? ? [H1 H2] _]; subst. split; assumption.
    + apply IH. assumption.
Qed.

(** After the first two loops the list of a registered mentor at position
    [j], all identities being different, is what the scan of column [j]
    contributes. *)
Lemma assigns_entry (mentors : list pydict) caps assigns1 assigns
      (j : nat) (m : pydict) :
  for_each init_mentor mentors ([], []) = Ok (caps, assigns1) ->
  assign_loop students sim caps mentors 0 assigns1 = Ok assigns ->
  distinct_identities py_repr mentors ->
  nth_error mentors j = Some m ->
  registers m = Ok true ->
  hashable (ident m) = true
  /\ (exists st, best_match sim (length students) j = Ok st)
  /\ kd_find assigns (ident m) = Some (contribution students sim j).
Proof.
  intros Hv Hv0 Hd Hj Hreg.
  destruct (nth_error_split _ _ Hj) as (pre & post & -> & Hlen).
  pose proof (distinct_split _ _ _ Hd) as Hother.
  apply Forall_app in Hother. destruct Hother as [Hpre Hpost].
  assert (Hpre1 : Forall (fun m' => py_eq (ident m') (ident m) = false) pre)
    by (eapply Forall_impl; [|exact Hpre]; simpl; tauto).
  assert (Hpost1 : Forall (fun m' => py_eq (ident m') (ident m) = false) post)
    by (eapply Forall_impl; [|exact Hpost]; simpl; tauto).
  (* first loop *)
  rewrite for_each_app in Hv. bind_inv Hv. simpl in Hv. bind_inv Hv.
  destruct (init_loop_other (ident m) _ _ _ Hv Hpost1) as [Ec Ea].
  simpl in Ec, Ea.
  assert (Hinit : hashable (ident m) = true
                  /\ kd_mem caps (ident m) = true
                  /\ kd_find assigns1 (ident m) = Some []).
  { unfold init_mentor in Hv2. destruct v as [c0 a0].
    rewrite Hreg in Hv2. simpl in Hv2. fold (ident m) in Hv2.
    destruct (hashable (ident m)) eqn:Eh; [|discriminate].
    inversion Hv2; subst. simpl in Ec, Ea.
    rewrite kd_find_set, py_eq_refl in Ec by assumption.
    rewrite kd_find_set, py_eq_refl in Ea by assumption.
    unfold kd_mem. rewrite Ec. splits; first [reflexivity | assumption]. }
  destruct Hinit as (Hh & Hmem & Hfind1).
  (* second loop *)
  rewrite assign_loop_app in Hv0. bind_inv Hv0. simpl in Hv0. bind_inv Hv0.
  rewrite Hlen in Hv4.
  pose proof (assign_loop_other (ident m) _ _ _ _ _ Hv3 Hpre1) as E3.
  rewrite Hfind1 in E3.
  destruct (assign_mentor_self _ _ _ _ _ _ Hv4 Hmem E3) as [Hbest E4].
  pose proof (assign_loop_other (ident m) _ _ _ _ _ Hv0 Hpost1) as E5.
  rewrite E4 in E5. simpl in E5.
  splits; assumption.
Qed.

(** The entry of a registered mentor at position [j], all identities being
    different: its key is in the result iff the scan of column [j]
    contributes an assignment, and the record holds just that one. *)
Lemma matcher_entry (mentors : list pydict) (res : list (string * mentor_record))
      (j : nat) (m : pydict) :
  match_mentees_to_mentors py_repr mentors students sim = Ok res ->
  distinct_identities py_repr mentors ->
  nth_error mentors j = Some m ->
  registers m = Ok true ->
  (exists st, best_match sim (length students) j = Ok st)
  /\ sd_find res (py_str py_repr (ident m))
     = match contribution students sim j with
       | [] => None
       | l => Some (make_record m l)
       end.
Proof.
  intros H Hd Hj Hreg.
  unfold match_mentees_to_mentors in H.
  bind_inv H. destruct v as [caps assigns1]. bind_inv H. rename v into assigns.
  destruct (assigns_entry _ _ _ _ _ _ Hv Hv0 Hd Hj Hreg) as (Hh & Hbest & E5).
  split; [exact Hbest|].
  destruct (nth_error_split _ _ Hj) as (pre & post & -> & Hlen).
  pose proof (distinct_split _ _ _ Hd) as Hother.
  apply Forall_app in Hother. destruct Hother as [Hpre Hpost].
  assert (Hpre2 : Forall (fun m' => py_str py_repr (ident m')
                                    <> py_str py_repr (ident m)) pre)
    by (eapply Forall_impl; [|exact Hpre]; simpl; tauto).
  assert (Hpost2 : Forall (fun m' => py_str py_repr (ident m')
                                     <> py_str py_repr (ident m)) post)
    by (eapply Forall_impl; [|exact Hpost]; simpl; tauto).
  rewrite for_each_app in H. bind_inv H. simpl in H. bind_inv H.
  rewrite (format_loop_other _ _ _ _ _ H Hpost2).
  pose proof (format_loop_other _ _ _ _ _ Hv1 Hpre2) as E6. simpl in E6.
  unfold format_mentor in Hv2. fold (ident m) in Hv2.
  rewrite Hh, E5 in Hv2. simpl in Hv2.
  destruct (contribution students sim j) as [|a l] eqn:Ecn; simpl in Hv2.
  - inversion Hv2; subst. exact E6.
  - inversion Hv2; subst. rewrite sd_find_set, String.eqb_refl. reflexivity.
Qed.

Lemma contribution_short (j : nat) : (length (contribution students sim j) <= 1)%nat.
Proof.
  unfold contribution.
  destruct (best_match sim (length students) j) as [[[i|] best]|]; simpl; try lia.
  destruct (Qltb 0 best); simpl; try lia.
  destruct (nth_error students i); simpl; lia.
Qed.

(** With registered mentors of pairwise different identities, every record
    of the result holds exactly one mentee. *)
Lemma distinct_records_hold_one (mentors : list pydict)
      (res : list (string * mentor_record)) :
  match_mentees_to_mentors py_repr mentors students sim = Ok res ->
  distinct_identities py_repr mentors ->
  Forall (fun m => registers m = Ok true) mentors ->
  forall k r, In (k, r) res ->
    assigned_count r = 1%nat /\ length (mentees r) = 1%nat.
Proof.
  intros H Hd Hall k r Hin.
  unfold match_mentees_to_mentors in H.
  bind_inv H. destruct v as [caps assigns1]. bind_inv H. rename v into assigns.
  destruct (format_loop_sound _ _ _ _ _ H k r Hin)
    as [[] | (m & assigned & Hm & _ & Hf & Hne & ->)].
  destruct (In_nth_error _ _ Hm) as [j Hj].
  rewrite Forall_forall in Hall.
  destruct (assigns_entry _ _ _ _ _ _ Hv Hv0 Hd Hj (Hall m Hm)) as (_ & _ & E).
  unfold ident in E. rewrite E in Hf. inversion Hf; subst.
  pose proof (contribution_short j) as Hs. simpl.
  destruct (contribution students sim j) as [|a [|b l]];
    [congruence | split; reflexivity | simpl in Hs; lia].
Qed.

End OneMentor.

(** The same for the pipeline: when the mentors that pass the filter carry
    pairwise different identities, every record of [matches] holds exactly
    one mentee. *)
Lemma pipeline_records_hold_one
      (py_repr : value -> string) (json_loads : string -> json_outcome)
      (vec : Type) (zero_vec : vec)
      (tfidf_fit_transform count_fit_transform : list string -> result (list vec))
      (cosine : vec -> vec -> cell)
      (mentors_data mentees_data mentors : list pydict) (out : output) :
  perform_matching py_repr json_loads vec zero_vec tfidf_fit_transform
                   count_fit_transform cosine mentors_data mentees_data = Ok out ->
  filter_result mentor_eligible mentors_data = Ok mentors ->
  distinct_identities py_repr mentors ->
  forall k r, In (k, r) (matches out) ->
    assigned_count r = 1%nat /\ length (mentees r) = 1%nat.
Proof.
  intros H Hf Hd k r Hin.
  destruct (perform_matching_matches _ _ _ _ _ _ _ _ _ _ H)
    as [E | (mentors' & sim & Hf' & Hm)]; [rewrite E in Hin; contradiction|].
  rewrite Hf in Hf'. inversion Hf'; subst mentors'.
  eapply distinct_records_hold_one; try eassumption.
  apply Forall_forall. intros m Hmin.
  apply eligible_registers. eapply filter_result_sound; eassumption.
Qed.

(** C1 (as amended). Let the mentors passed to the matcher carry pairwise
    different identities, and take one that is willing and has capacity, at
    column [j].  The scan of that column returns the highest score [best]
    and, when it exceeds -1, the first mentee index that attains it.  If
    [best > 0], the mentor's key maps to a record with exactly one
    assignment: its mentee identity is [student_id] if that is truthy and
    [id] otherwise, its name and email are the mentee's, defaulting to
    "Unknown" and the empty string when the key is absent, and its score is
    [best].  If [best <= 0], the mentor's key is not in the result. *)
Theorem C1_best_mentee_of_each_mentor
        (py_repr : value -> string) (mentors students : list pydict)
        (sim : matrix) (res : list (string * mentor_record))
        (j : nat) (mentor : pydict) :
  match_mentees_to_mentors py_repr mentors students sim = Ok res ->
  distinct_identities py_repr mentors ->
  nth_error mentors j = Some mentor ->
  registers mentor = Ok true ->
  exists bi best,
    best_match sim (length students) j = Ok (bi, best)
    /\ (forall i, (i < length students)%nat ->
                  exists q, matrix_get sim i j = Ok q /\ (q <= best)%Q)
    /\ ((0 < best)%Q ->
        exists i mentee,
          bi = Some i /\ nth_error students i = Some mentee
          /\ matrix_get sim i j = Ok best
          /\ (forall i', (i' < i)%nat ->
                         exists q, matrix_get sim i' j = Ok q /\ (q < best)%Q)
          /\ sd_find res (py_str py_repr (dict_get mentor "id"))
             = Some
                 {| mentor_id := dict_get mentor "id";
                    mentor_name := dict_get_default mentor "name" (VStr "Unknown");
                    mentor_email := dict_get_default mentor "email" (VStr "");
                    capacity := py_or (dict_get mentor "mentor_capacity") (VInt 0);
                    assigned_count := 1;
                    mentees :=
                      [ {| mentee_id :=
                             if py_truthy (dict_get mentee "student_id")
                             then dict_get mentee "student_id"
                             else dict_get mentee "id";
                           mentee_name :=
                             dict_get_default mentee "name" (VStr "Unknown");
                           mentee_email :=
                             dict_get_default mentee "email" (VStr "");
                           similarity_score := best |} ] |})
    /\ ((best <= 0)%Q ->
        sd_find res (py_str py_repr (dict_get mentor "id")) = None).
Proof.
  intros H Hd Hj Hreg.
  destruct (matcher_entry _ _ _ _ _ _ _ H Hd Hj Hreg) as [[[bi best] Hbest] Hres].
  exists bi, best.
  destruct (best_match_spec _ _ _ _ _ Hbest) as [Hmax Hcase].
  unfold contribution in Hres. rewrite Hbest in Hres.
  splits.
  - exact Hbest.
  - exact Hmax.
  - intros Hpos.
    destruct Hcase as [[-> ->] | (i & -> & Hi & Hget & _ & Hfirst)];
      [exfalso; revert Hpos; apply Qle_not_lt; discriminate|].
    apply Qltb_lt in Hpos. rewrite Hpos in Hres.
    destruct (nth_error students i) as [mentee|] eqn:En;
      [|apply nth_error_None in En; lia].
    exists i, mentee. splits; first [reflexivity | assumption].
  - intros Hle. rewrite Hres.
    destruct bi as [i|]; [|reflexivity].
    apply Qltb_ge in Hle. rewrite Hle. reflexivity.
Qed.

(** C1 at work: mentees 10 and 11 tie at 1/2 for mentor 1, and mentee 10,
    seen first, is the one assigned. *)
Lemma C1_witness :
  exists bi best,
    best_match Demo.tie_matrix 2 0 = Ok (bi, best)
    /\ (forall i, (i < 2)%nat ->
                  exists q, matrix_get Demo.tie_matrix i 0 = Ok q /\ (q <= best)%Q)
    /\ ((0 < best)%Q ->
        exists i mentee,
          bi = Some i /\ nth_error [Demo.mentee_10; Demo.mentee_11] i = Some mentee
          /\ matrix_get Demo.tie_matrix i 0 = Ok best
          /\ (forall i', (i' < i)%nat ->
                         exists q, matrix_get Demo.tie_matrix i' 0 = Ok q
                                   /\ (q < best)%Q)
          /\ sd_find Demo.tie_result "1"
             = Some
                 {| mentor_id := VInt 1;
                    mentor_name := VStr "Unknown";
                    mentor_email := VStr "";
                    capacity := VInt 1;
                    assigned_count := 1;
                    mentees :=
                      [ {| mentee_id :=
                             if py_truthy (dict_get mentee "student_id")
                             then dict_get mentee "student_id"
                             else dict_get mentee "id";
                           mentee_name :=
                             dict_get_default mentee "name" (VStr "Unknown");
                           mentee_email :=
                             dict_get_default mentee "email" (VStr "");
                           similarity_score := best |} ] |})
    /\ ((best <= 0)%Q -> sd_find Demo.tie_result "1" = None).
Proof.
  apply (C1_best_mentee_of_each_mentor
           Demo.repr [Demo.mentor_1; Demo.mentor_2]
           [Demo.mentee_10; Demo.mentee_11] Demo.tie_matrix Demo.tie_result
           0 Demo.mentor_1).
  - vm_compute. reflexivity.
  - simpl. splits; try exact I; repeat constructor; vm_compute; discriminate.
  - reflexivity.
  - vm_compute. reflexivity.
Defined.

(** C1, as stated, fails twice.  A mentee whose [student_id] is present
    and is 0 is assigned under its [id]; and two mentors that carry no
    [id] share one record, which holds two assignments. *)
Lemma C1_counterexample :
  (exists r a,
      match_mentees_to_mentors Demo.repr [Demo.mentor_1] [Demo.mentee_zero_sid]
                               [[(1 # 2)%Q]] = Ok [("1", r)]
      /\ mentees r = [a]
      /\ dict_find Demo.mentee_zero_sid "student_id" = Some (VInt 0)
      /\ mentee_id a = VInt 7
      /\ mentee_id a <> VInt 0)
  /\ (exists r,
        registers Demo.anonymous_a = Ok true
        /\ registers Demo.anonymous_b = Ok true
        /\ match_mentees_to_mentors Demo.repr [Demo.anonymous_a; Demo.anonymous_b]
                                    [Demo.mentee_10] [[(1 # 2)%Q; (1 # 2)%Q]]
           = Ok [("None", r)]
        /\ length (mentees r) = 2%nat).
Proof.
  split.
  - eexists. eexists. splits; try (vm_compute; reflexivity).
    vm_compute. discriminate.
  - eexists. splits; vm_compute; reflexivity.
Qed.

(** C5 at the failing input: two willing mentors with capacity and no [id]
    are both keyed by [None]; each appends its top student to the one
    shared list, and the record under "None" (the second mentor's) reports
    two assigned mentees. *)
Theorem C5_two_mentees_in_one_record (py_repr : value -> string) :
  match_mentees_to_mentors py_repr [Demo.anonymous_a; Demo.anonymous_b]
                           [Demo.mentee_10] [[(7 # 10)%Q; (7 # 10)%Q]]
  = Ok [("None",
         {| mentor_id := VNone;
            mentor_name := VStr "B";
            mentor_email := VStr "";
            capacity := VInt 1;
            assigned_count := 2;
            mentees :=
              [ make_assignment Demo.mentee_10 (7 # 10)%Q;
                make_assignment Demo.mentee_10 (7 # 10)%Q ] |})]
  /\ exists out r,
       Demo.run [Demo.anonymous_a; Demo.anonymous_b] [Demo.mentee_10] = Ok out
       /\ matches out = [("None", r)]
       /\ assigned_count r = 2%nat
       /\ length (mentees r) = 2%nat.
Proof.
  split.
  - vm_compute. reflexivity.
  - exists (Demo.out_of
              (Demo.run [Demo.anonymous_a; Demo.anonymous_b] [Demo.mentee_10])).
    eexists. splits; vm_compute; reflexivity.
Qed.

(** ** The score combiner *)

Lemma NoDup_words_of (a : string) : NoDup (words_of a).
Proof.
  unfold words_of. destruct (str_nonempty a);
    [apply NoDup_word_set | constructor].
Qed.



Lemma map_result_nth {A B : Type} (f : A -> result B) (l : list A) (r : list B)
      (i : nat) (a : A) :
  map_result f l = Ok r -> nth_error l i = Some a ->
  exists b, nth_error r i = Some b /\ f a = Ok b.
Proof.
  revert r i. induction l as [|x l IH]; intros r i H Ha; simpl in H.
  - destruct i; discriminate.
  - bind_inv H. bind_inv H. inversion H; subst; clear H.
    destruct i as [|i]; simpl in *.
    + inversion Ha; subst. eauto.
    + eapply IH; eassumption.
Qed.



Lemma zip_same_total {A B C : Type} (f : A -> B -> result C)
      (l1 : list A) (l2 : list B) :
  length l1 = length l2 ->
  (forall a b, In a l1 -> In b l2 -> exists c, f a b = Ok c) ->
  exists l, zip_same f l1 l2 = Ok l.
Proof.
  revert l2. induction l1 as [|a l1 IH]; intros [|b l2] Hlen Hf;
    simpl in Hlen; try discriminate.
  - exists []. reflexivity.
  - destruct (Hf a b) as [c Hc]; try now left.
    destruct (IH l2) as [l Hl]; [lia | intros; apply Hf; now right|].
    exists (c :: l). simpl. rewrite Hc. simpl. rewrite Hl. reflexivity.
Qed.

Lemma zip_with_total {A B C : Type} (f : A -> B -> result C)
      (l1 : list A) (l2 : list B) :
  length l1 = length l2 ->
  (forall a b, In a l1 -> In b l2 -> exists c, f a b = Ok c) ->
  exists l, zip_with f l1 l2 = Ok l.
Proof.
  intros Hlen Hf. unfold zip_with.
  rewrite (proj2 (Nat.eqb_eq _ _) Hlen). now apply zip_same_total.
Qed.


Section CombinerFacts.

Variable vec : Type.
Variable cosine : vec -> vec -> cell.





Lemma weighted_sum_total (wp wl : Q) (P L : matrix) :
  length P = length L ->
  (forall rp rl, In rp P -> In rl L -> length rp = length rl) ->
  exists m, weighted_sum wp wl P L = Ok m.
Proof.
  intros Hlen Hrows. unfold weighted_sum.
  apply zip_with_total; [assumption|].
  intros rp rl Hp Hl. apply zip_with_total; [now apply Hrows|].
  intros p l _ _. eauto.
Qed.

End CombinerFacts.

(** Entry (i, j) of the cleaned cosine matrix. *)
Lemma profile_similarity_get (vec : Type) (cosine : vec -> vec -> cell)
      (X Y : list vec) (i j : nat) (x y : vec) :
  nth_error X i = Some x -> nth_error Y j = Some y ->
  matrix_get (nan_to_num 0 1 0 (cosine_similarity vec cosine X Y)) i j
  = Ok (nan_to_num_cell 0 1 0 (cosine x y)).
Proof.
  intros Hx Hy. unfold matrix_get, nan_to_num, cosine_similarity.
  rewrite map_map, nth_error_map, Hx. simpl.
  rewrite map_map, nth_error_map, Hy. reflexivity.
Qed.




(** ** The profile text extractor *)

Section TextFacts.

Import Text.

Lemma head_space_collapse (s : chars) :
  head_space (collapse_ws s) = head_space s.
Proof.
  induction s as [|c s IH]; simpl; [reflexivity|].
  destruct (is_space c) eqn:Ec; simpl; [|exact Ec].
  destruct s as [|d s]; [reflexivity|].
  destruct (is_space d) eqn:Ed.
  - rewrite IH. simpl. exact Ed.
  - reflexivity.
Qed.

Lemma single_spaced_collapse (s : chars) : single_spaced (collapse_ws s) = true.
Proof.
  induction s as [|c s IH]; simpl; [reflexivity|].
  destruct (is_space c) eqn:Ec.
  - destruct s as [|d s]; [reflexivity|].
    destruct (is_space d) eqn:Ed; [exact IH|].
    cbn [single_spaced]. rewrite IH, head_space_collapse. simpl. rewrite Ed.
    reflexivity.
  - cbn [single_spaced]. rewrite Ec, IH. reflexivity.
Qed.

Lemma single_spaced_tail (c : ascii) (s : chars) :
  single_spaced (c :: s) = true -> single_spaced s = true.
Proof. simpl. intros H. apply andb_prop in H. tauto. Qed.

Lemma single_spaced_lstrip (s : chars) :
  single_spaced s = true -> single_spaced (lstrip s) = true.
Proof.
  induction s as [|c s IH]; [reflexivity|]. intros H. cbn [lstrip].
  destruct (is_space c) eqn:Ec; [|exact H].
  apply IH. eapply single_spaced_tail. exact H.
Qed.

Lemma head_space_lstrip (s : chars) : head_space (lstrip s) = false.
Proof.
  induction s as [|c s IH]; simpl; [reflexivity|].
  destruct (is_space c) eqn:Ec; [exact IH | exact Ec].
Qed.

Lemma lstrip_suffix (s : chars) : exists w, s = w ++ lstrip s.
Proof.
  induction s as [|c s [w IH]]; simpl; [exists []; reflexivity|].
  destruct (is_space c).
  - exists (c :: w). simpl. now f_equal.
  - exists []. reflexivity.
Qed.

Lemma rstrip_prefix (s : chars) : exists w, s = rstrip s ++ w.
Proof.
  unfold rstrip. destruct (lstrip_suffix (rev s)) as [w Hw].
  exists (rev w). rewrite <- rev_app_distr, <- Hw, rev_involutive. reflexivity.
Qed.

Lemma single_spaced_prefix (p w : chars) :
  single_spaced (p ++ w) = true -> single_spaced p = true.
Proof.
  induction p as [|c p IH]; simpl; [reflexivity|]. intros H.
  apply andb_prop in H. destruct H as [Hc Hp]. rewrite (IH Hp), andb_true_r.
  destruct (is_space c); [|reflexivity].
  apply andb_prop in Hc. destruct Hc as [-> Hh]. simpl.
  destruct p; [reflexivity | exact Hh].
Qed.

Lemma strip_normalized (s : chars) :
  single_spaced s = true ->
  single_spaced (strip s) = true
  /\ head_space (strip s) = false
  /\ head_space (rev (strip s)) = false.
Proof.
  intros H. unfold strip.
  pose proof (single_spaced_lstrip _ H) as H1.
  pose proof (head_space_lstrip s) as H2.
  destruct (rstrip_prefix (lstrip s)) as [w Hw].
  splits.
  - rewrite Hw in H1. eapply single_spaced_prefix; exact H1.
  - destruct (rstrip (lstrip s)) as [|c r] eqn:E; [reflexivity|].
    rewrite Hw in H2. exact H2.
  - unfold rstrip. rewrite rev_involutive. apply head_space_lstrip.
Qed.

(** The clean-up of lines 117-120 yields a space-normalised text. *)
Lemma cleanup_normalized (t : string) :
  space_normalized (to_string (strip (collapse_ws (of_string t)))).
Proof.
  unfold space_normalized, to_string, of_string. cbv zeta.
  rewrite list_ascii_of_string_of_list_ascii.
  apply strip_normalized, single_spaced_collapse.
Qed.

End TextFacts.

Lemma space_normalized_empty : space_normalized "".
Proof. unfold space_normalized. simpl. tauto. Qed.

Lemma truthy_index (d : pydict) (k : string) :
  py_truthy (dict_get d k) = true -> dict_index d k = Ok (dict_get d k).
Proof.
  unfold dict_get, dict_get_default, dict_index.
  destruct (dict_find d k); [reflexivity | discriminate].
Qed.


Section ExtractorFacts.

Variable py_repr : value -> string.
Variable json_loads : string -> json_outcome.
Variable profile : pydict.

Lemma mentor_preference_total (is_student : bool) (parts : list string) :
  exists parts', extract_mentor_preference py_repr profile is_student parts = Ok parts'.
Proof.
  unfold extract_mentor_preference. destruct is_student; [|eauto].
  destruct (py_truthy (dict_get profile "mentor_preference")) eqn:E; [|eauto].
  rewrite (truthy_index _ _ E). simpl.
  destruct (str_nonempty _); eauto.
Qed.

Lemma list_field_total (field : string) (parts : list string) :
  exists parts', extract_list_field py_repr profile field parts = Ok parts'.
Proof.
  unfold extract_list_field.
  destruct (py_truthy (dict_get profile field)) eqn:E; [|eauto].
  rewrite (truthy_index _ _ E). simpl.
  destruct (dict_get profile field); eauto.
Qed.

Lemma records_field_total (field : string) (parts : list string) :
  exists parts', extract_records_field py_repr profile field parts = Ok parts'.
Proof.
  unfold extract_records_field.
  destruct (py_truthy (dict_get profile field)) eqn:E; [|eauto].
  rewrite (truthy_index _ _ E). simpl.
  destruct (dict_get profile field); eauto.
Qed.

Lemma scalar_field_total (field : string) (parts : list string) :
  exists parts', extract_scalar_field py_repr profile field parts = Ok parts'.
Proof.
  unfold extract_scalar_field.
  destruct (py_truthy (dict_get profile field)) eqn:E; [|eauto].
  rewrite (truthy_index _ _ E). simpl. eauto.
Qed.

Lemma summaries_total (d : pydict) (fields : list string) (parts : list string) :
  exists parts',
    fold_left
      (fun acc field =>
         parts <- acc ;;
         if dict_mem d field then
           v <- dict_index d field ;;
           Ok (parts ++ [py_str py_repr v])
         else Ok parts)
      fields (Ok parts) = Ok parts'.
Proof.
  revert parts. induction fields as [|f fields IH]; intros parts; simpl; [eauto|].
  unfold dict_mem, dict_index. destruct (dict_find d f); simpl; apply IH.
Qed.

(** The resume step raises exactly what [json.loads] raises beyond
    [JSONDecodeError], and returns otherwise. *)
Lemma parsed_resume_outcome (parts : list string) :
  match resume_error json_loads profile with
  | Some e => extract_parsed_resume py_repr json_loads profile parts = Raise e
  | None =>
      exists parts',
        extract_parsed_resume py_repr json_loads profile parts = Ok parts'
  end.
Proof.
  unfold extract_parsed_resume, resume_error.
  assert (Hd : forall d,
             exists parts',
               (summaries <-
                  fold_left
                    (fun acc field =>
                       parts <- acc ;;
                       if dict_mem d field then
                         v <- dict_index d field ;;
                         Ok (parts ++ [py_str py_repr v])
                       else Ok parts)
                    resume_text_fields (Ok parts) ;;
                Ok (summaries ++ extract_dict_values (VDict d) 3 0)) = Ok parts').
  { intros d. destruct (summaries_total d resume_text_fields parts) as [p Hp].
    rewrite Hp. cbn [bind]. eauto. }
  destruct (py_truthy (dict_get profile "parsed_resume")) eqn:E.
  - rewrite (truthy_index _ _ E). cbn [bind].
    destruct (dict_get profile "parsed_resume") as [| | | |s|l|d];
      cbn [bind]; eauto.
    change (py_truthy (VStr s)) with (str_nonempty s) in E. rewrite E.
    destruct (json_loads s) as [[| | | | | |d]| |e]; cbn [bind]; eauto.
  - destruct (dict_get profile "parsed_resume") as [| | | |s|l|d]; eauto.
    change (py_truthy (VStr s)) with (str_nonempty s) in E. rewrite E. eauto.
Qed.

(** The extractor raises exactly when the resume step does; otherwise it
    returns, and what it returns is space-normalised. *)
Lemma extract_text_outcome (is_student : bool) :
  match resume_error json_loads profile with
  | Some e =>
      extract_text_from_profile py_repr json_loads profile is_student = Raise e
  | None =>
      exists text,
        extract_text_from_profile py_repr json_loads profile is_student = Ok text
        /\ space_normalized text
  end.
Proof.
  unfold extract_text_from_profile.
  destruct (mentor_preference_total is_student []) as [p1 ->]. cbn [bind].
  destruct (list_field_total "skills" p1) as [p2 ->]. cbn [bind].
  destruct (records_field_total "projects" p2) as [p3 ->]. cbn [bind].
  destruct (scalar_field_total "aspirations" p3) as [p4 ->]. cbn [bind].
  pose proof (parsed_resume_outcome p4) as Hr.
  destruct (resume_error json_loads profile) as [e|].
  { rewrite Hr. reflexivity. }
  destruct Hr as [p5 ->]. cbn [bind].
  destruct (records_field_total "experiences" p5) as [p6 ->]. cbn [bind].
  destruct (list_field_total "achievements" p6) as [p7 ->]. cbn [bind].
  destruct (scalar_field_total "major" p7) as [p8 ->]. cbn [bind].
  destruct (list_field_total "relevant_coursework" p8) as [p9 ->]. cbn [bind].
  eexists. split; [reflexivity|].
  destruct (str_nonempty _);
    [apply cleanup_normalized | apply space_normalized_empty].
Qed.

Lemma extract_text_total (is_student : bool) :
  resume_error json_loads profile = None ->
  exists text,
    extract_text_from_profile py_repr json_loads profile is_student = Ok text
    /\ space_normalized text.
Proof.
  intros H. pose proof (extract_text_outcome is_student) as Ho.
  rewrite H in Ho. exact Ho.
Qed.

Lemma extract_text_raises (is_student : bool) (e : exn) :
  extract_text_from_profile py_repr json_loads profile is_student = Raise e
  <-> resume_error json_loads profile = Some e.
Proof.
  pose proof (extract_text_outcome is_student) as Ho.
  destruct (resume_error json_loads profile) as [e'|].
  - rewrite Ho. split; intros H; inversion H; reflexivity.
  - destruct Ho as (text & -> & _). split; discriminate.
Qed.

End ExtractorFacts.

Section SkippedFields.

Variable py_repr : value -> string.
Variable json_loads : string -> json_outcome.
Variable profile : pydict.







End SkippedFields.

Lemma tidy_or_empty (t : string) :
  (if str_nonempty (tidy t) then tidy t else "") = tidy t.
Proof.
  destruct (str_nonempty (tidy t)) eqn:E; [reflexivity|].
  apply str_nonempty_false in E. now rewrite E.
Qed.

(** ** The extractor: what each step appends *)

Section FragmentFacts.

Variable py_repr : value -> string.
Variable json_loads : string -> json_outcome.
Variable profile : pydict.

Lemma list_field_appends (field : string) :
  exists frag, forall parts,
      extract_list_field py_repr profile field parts = Ok (parts ++ frag).
Proof.
  unfold extract_list_field.
  destruct (py_truthy (dict_get profile field)) eqn:E.
  - rewrite (truthy_index _ _ E). cbn [bind].
    destruct (dict_get profile field);
      try (exists []; intros; rewrite app_nil_r; reflexivity).
    eexists. intros parts. reflexivity.
  - exists []. intros. rewrite app_nil_r. reflexivity.
Qed.

Lemma records_field_appends (field : string) :
  exists frag, forall parts,
      extract_records_field py_repr profile field parts = Ok (parts ++ frag).
Proof.
  unfold extract_records_field.
  destruct (py_truthy (dict_get profile field)) eqn:E.
  - rewrite (truthy_index _ _ E). cbn [bind].
    destruct (dict_get profile field);
      try (exists []; intros; rewrite app_nil_r; reflexivity).
    eexists. intros parts. reflexivity.
  - exists []. intros. rewrite app_nil_r. reflexivity.
Qed.

Lemma scalar_field_appends (field : string) (parts : list string) :
  extract_scalar_field py_repr profile field parts
  = Ok (parts ++ scalar_fragment py_repr profile field).
Proof.
  unfold extract_scalar_field, scalar_fragment.
  destruct (py_truthy (dict_get profile field)) eqn:E.
  - rewrite (truthy_index _ _ E). reflexivity.
  - rewrite app_nil_r. reflexivity.
Qed.

Lemma mentor_preference_appends (is_student : bool) (parts : list string) :
  extract_mentor_preference py_repr profile is_student parts
  = Ok (parts ++ preference_fragment py_repr profile is_student).
Proof.
  unfold extract_mentor_preference, preference_fragment.
  destruct is_student; [|rewrite app_nil_r; reflexivity].
  destruct (py_truthy (dict_get profile "mentor_preference")) eqn:E;
    [|rewrite app_nil_r; reflexivity].
  rewrite (truthy_index _ _ E). cbn [bind andb].
  destruct (str_nonempty _); [reflexivity | rewrite app_nil_r; reflexivity].
Qed.

Lemma summaries_append (d : pydict) (fields : list string) :
  exists frag,
    (forall parts,
        fold_left
          (fun acc field =>
             parts <- acc ;;
             if dict_mem d field then
               v <- dict_index d field ;;
               Ok (parts ++ [py_str py_repr v])
             else Ok parts)
          fields (Ok parts) = Ok (parts ++ frag))
    /\ (forall field v,
           In field fields -> dict_find d field = Some v ->
           In (py_str py_repr v) frag).
Proof.
  induction fields as [|f fields (frag & IH & Hin)]; simpl.
  - exists []. split; [|intros field v []].
    intros. rewrite app_nil_r. reflexivity.
  - unfold dict_mem, dict_index. destruct (dict_find d f) as [v|] eqn:Ef; simpl.
    + exists (py_str py_repr v :: frag). split.
      * intros parts. rewrite IH, <- app_assoc. reflexivity.
      * intros field v' [<-|Hf] Hv.
        -- rewrite Ef in Hv. inversion Hv; subst. now left.
        -- right. eapply Hin; eassumption.
    + exists frag. split; [exact IH|].
      intros field v' [<-|Hf] Hv; [congruence|]. eapply Hin; eassumption.
Qed.

Lemma parsed_resume_appends :
  resume_error json_loads profile = None ->
  exists frag,
    (forall parts,
        extract_parsed_resume py_repr json_loads profile parts
        = Ok (parts ++ frag))
    /\ (forall d field v,
           resume_object json_loads profile = Some d ->
           In field resume_text_fields -> dict_find d field = Some v ->
           In (py_str py_repr v) frag).
Proof.
  unfold extract_parsed_resume, resume_error, resume_object.
  assert (Hd : forall d,
             exists frag,
               (forall parts,
                   (summaries <-
                      fold_left
                        (fun acc field =>
                           parts <- acc ;;
                           if dict_mem d field then
                             v <- dict_index d field ;;
                             Ok (parts ++ [py_str py_repr v])
                           else Ok parts)
                        resume_text_fields (Ok parts) ;;
                    Ok (summaries ++ extract_dict_values (VDict d) 3 0))
                   = Ok (parts ++ frag))
               /\ (forall field v,
                      In field resume_text_fields -> dict_find d field = Some v ->
                      In (py_str py_repr v) frag)).
  { intros d. destruct (summaries_append d resume_text_fields) as (frag & Hf & Hin).
    exists (frag ++ extract_dict_values (VDict d) 3 0). split.
    - intros parts. rewrite Hf. cbn [bind]. rewrite app_assoc. reflexivity.
    - intros field v Hfield Hv. apply in_or_app. left. eapply Hin; eassumption. }
  assert (Hnone : exists frag : list string,
             (forall parts : list string, Ok parts = Ok (parts ++ frag))
             /\ (forall (d : pydict) (field : string) (v : value),
                    @None pydict = Some d ->
                    In field resume_text_fields -> dict_find d field = Some v ->
                    In (py_str py_repr v) frag)).
  { exists []. split; [intros; rewrite app_nil_r; reflexivity|]. discriminate. }
  intros Herr.
  destruct (py_truthy (dict_get profile "parsed_resume")) eqn:E.
  - rewrite (truthy_index _ _ E). cbn [bind].
    destruct (dict_get profile "parsed_resume") as [| | | |s|l|d];
      cbn [bind]; try exact Hnone.
    + change (py_truthy (VStr s)) with (str_nonempty s) in E.
      rewrite E in *.
      destruct (json_loads s) as [[| | | | | |d]| |e]; cbn [bind];
        try exact Hnone; [|discriminate].
      destruct (Hd d) as (frag & Hf & Hin). exists frag. split; [exact Hf|].
      intros d' field v Hd'. inversion Hd'; subst. apply Hin.
    + change (py_truthy (VDict d)) with (nonempty d) in E. rewrite E.
      destruct (Hd d) as (frag & Hf & Hin). exists frag. split; [exact Hf|].
      intros d' field v Hd'. inversion Hd'; subst. apply Hin.
  - destruct (dict_get profile "parsed_resume") as [| | | |s|l|d];
      try exact Hnone.
    + change (py_truthy (VStr s)) with (str_nonempty s) in E. rewrite E.
      exact Hnone.
    + change (py_truthy (VDict d)) with (nonempty d) in E. rewrite E.
      exact Hnone.
Qed.

(** The text is the clean-up of the fragments of the nine steps, joined in
    the order of the steps; the role changes the first fragment only. *)
Lemma extract_fragments :
  resume_error json_loads profile = None ->
  exists skills projects resume experiences achievements coursework,
    (forall d field v,
        resume_object json_loads profile = Some d ->
        In field resume_text_fields -> dict_find d field = Some v ->
        In (py_str py_repr v) resume)
    /\ forall is_student,
        extract_text_from_profile py_repr json_loads profile is_student
        = Ok (tidy (Text.join " "
                      (preference_fragment py_repr profile is_student
                       ++ skills ++ projects
                       ++ scalar_fragment py_repr profile "aspirations"
                       ++ resume ++ experiences ++ achievements
                       ++ scalar_fragment py_repr profile "major"
                       ++ coursework))).
Proof.
  intros Herr.
  destruct (list_field_appends "skills") as [f1 H1].
  destruct (records_field_appends "projects") as [f2 H2].
  destruct (parsed_resume_appends Herr) as (f4 & H4 & Hin).
  destruct (records_field_appends "experiences") as [f5 H5].
  destruct (list_field_appends "achievements") as [f6 H6].
  destruct (list_field_appends "relevant_coursework") as [f8 H8].
  exists f1, f2, f4, f5, f6, f8. split; [exact Hin|].
  intros is_student. unfold extract_text_from_profile.
  rewrite mentor_preference_appends. cbn [bind].
  rewrite H1. cbn [bind]. rewrite H2. cbn [bind].
  rewrite scalar_field_appends. cbn [bind]. rewrite H4. cbn [bind].
  rewrite H5. cbn [bind]. rewrite H6. cbn [bind].
  rewrite scalar_field_appends. cbn [bind]. rewrite H8. cbn [bind].
  match goal with
  | |- Ok (if str_nonempty ?t then ?t else "") = _ =>
      change t with (tidy (Text.join " " ltac:(
        match t with context [Text.join " " ?l] => exact l end)))
  end.
  rewrite tidy_or_empty. cbn [app]. rewrite <- !app_assoc. reflexivity.
Qed.

End FragmentFacts.



(** * Further properties *)

(** ** Location normaliser and scorer *)

Lemma same_members_same_length {A : Type} (l1 l2 : list A) :
  NoDup l1 -> NoDup l2 -> (forall x, In x l1 <-> In x l2) ->
  length l1 = length l2.
Proof.
  intros H1 H2 H. apply Nat.le_antisymm.
  - apply NoDup_incl_length; [assumption | intros x; apply H].
  - apply NoDup_incl_length; [assumption | intros x; apply H].
Qed.

Lemma common_length_sym (A B : list string) :
  NoDup A -> NoDup B ->
  length (set_diff (set_inter A B) stop_words)
  = length (set_diff (set_inter B A) stop_words).
Proof.
  intros HA HB. apply same_members_same_length.
  - unfold set_diff, set_inter. now do 2 apply NoDup_filter_keep.
  - unfold set_diff, set_inter. now do 2 apply NoDup_filter_keep.
  - intros w. unfold set_diff, set_inter. rewrite !filter_In, !set_mem_In. tauto.
Qed.

Lemma union_length_sym (A B : list string) :
  length (set_union A B) = length (set_union B A).
Proof.
  apply same_members_same_length; try apply NoDup_nodup.
  intros w. unfold set_union. rewrite !nodup_In, !in_app_iff. tauto.
Qed.

Lemma nonempty_length {A : Type} (l : list A) :
  nonempty l = (0 <? length l)%nat.
Proof. destruct l; reflexivity. Qed.

(** Swapping the two locations gives the same score. *)
Lemma location_similarity_swap (u v : value) :
  location_similarity u v = location_similarity v u.
Proof.
  unfold location_similarity.
  set (a := normalized_of u). set (b := normalized_of v).
  rewrite (andb_comm (negb (str_nonempty b))).
  destruct (negb (str_nonempty a) && negb (str_nonempty b)); [reflexivity|].
  destruct (String.eqb_spec a b) as [E|N].
  - rewrite E, ?String.eqb_refl. reflexivity.
  - assert (N' : String.eqb b a = false) by (apply String.eqb_neq; congruence).
    rewrite N'. cbn [andb].
    rewrite (andb_comm (nonempty (words_of b))).
    destruct (nonempty (words_of a) && nonempty (words_of b)); [|reflexivity].
    rewrite !nonempty_length.
    rewrite (common_length_sym (words_of b) (words_of a))
      by apply NoDup_words_of.
    rewrite (union_length_sym (words_of b) (words_of a)).
    reflexivity.
Qed.

(** X1. The location score does not depend on which side is the mentee:
    swapping the two locations gives the same number, and the location
    matrix of the swapped lists is the transpose, entry (i, j) of one
    being entry (j, i) of the other (both out of range together). *)
Theorem location_similarity_sym :
  (forall u v, location_similarity u v = location_similarity v u)
  /\ (forall xs ys i j,
        matrix_get (compute_location_similarity ys xs) i j
        = matrix_get (compute_location_similarity xs ys) j i).
Proof.
  split; [apply location_similarity_swap|].
  intros xs ys i j. unfold matrix_get, compute_location_similarity.
  rewrite !nth_error_map.
  destruct (nth_error xs i) as [u|] eqn:Eu, (nth_error ys j) as [v|] eqn:Ev;
    simpl; rewrite ?nth_error_map, ?Eu, ?Ev; simpl; try reflexivity.
  rewrite (location_similarity_swap u v). reflexivity.
Qed.

Lemma normalized_of_not_text (u : value) :
  py_truthy u = false \/ is_str u = false -> normalized_of u = "".
Proof.
  unfold normalized_of. intros [H|H].
  - rewrite H. reflexivity.
  - destruct (py_truthy u); [|reflexivity].
    destruct u; try reflexivity. discriminate.
Qed.

(** X2. A location that is absent, null, empty, or not a string scores 0
    against every other location, on either side. *)
Theorem location_not_text_scores_zero (u v : value) :
  py_truthy u = false \/ is_str u = false ->
  location_similarity u v = 0%Q /\ location_similarity v u = 0%Q.
Proof.
  intros H. rewrite (location_similarity_swap v u).
  assert (E : location_similarity u v = 0%Q); [|split; exact E].
  unfold location_similarity. rewrite (normalized_of_not_text u H).
  change (str_nonempty "") with false.
  change (words_of "") with (@nil string).
  rewrite andb_false_r. cbn [negb andb nonempty].
  destruct (negb (str_nonempty (normalized_of v))); reflexivity.
Qed.

Lemma location_not_text_witness :
  location_similarity (VInt 5) (VStr "Boston") = 0%Q
  /\ location_similarity (VStr "Boston") (VInt 5) = 0%Q.
Proof.
  apply (location_not_text_scores_zero (VInt 5) (VStr "Boston")).
  right. reflexivity.
Defined.

Section NormalizerFacts.

Import Text.

Variable P : ascii -> Prop.

Lemma Forall_lstrip (s : chars) : Forall P s -> Forall P (lstrip s).
Proof.
  induction 1 as [|c s Hc Hs IH]; simpl; [constructor|].
  destruct (is_space c); [exact IH | now constructor].
Qed.

Lemma Forall_strip (s : chars) : Forall P s -> Forall P (strip s).
Proof.
  intros H. unfold strip, rstrip.
  apply Forall_rev, Forall_lstrip, Forall_rev, Forall_lstrip, H.
Qed.

Lemma Forall_collapse_ws (s : chars) :
  P " "%char -> Forall P s -> Forall P (collapse_ws s).
Proof.
  intros Hsp. induction 1 as [|c s Hc Hs IH]; simpl; [constructor|].
  destruct (is_space c).
  - destruct s as [|d s]; [repeat constructor; exact Hsp|].
    destruct (is_space d); [exact IH | constructor; [exact Hsp | exact IH]].
  - constructor; assumption.
Qed.

Lemma Forall_sub_word_from (pat repl : chars) (prev : option ascii) (skip : nat)
      (s : chars) :
  Forall P repl -> Forall P s -> Forall P (sub_word_from pat repl prev skip s).
Proof.
  intros Hr Hs. revert prev skip.
  induction Hs as [|c s Hc Hs IH]; intros prev skip; simpl; [constructor|].
  destruct skip as [|k]; [|apply IH].
  destruct (word_match_at pat prev (c :: s)).
  - apply Forall_app. split; [exact Hr | apply IH].
  - constructor; [exact Hc | apply IH].
Qed.

Lemma Forall_expand (table : list (string * string)) (s : chars) :
  Forall (fun entry => Forall P (of_string (snd entry))) table ->
  Forall P s ->
  Forall P (fold_left
              (fun normalized '(abbr, full) =>
                 sub_word (of_string abbr) (of_string full) normalized)
              table s).
Proof.
  intros Ht. revert s. induction Ht as [|[abbr full] table Hf Ht IH];
    intros s Hs; simpl; [exact Hs|].
  apply IH. unfold sub_word. apply Forall_sub_word_from; assumption.
Qed.

End NormalizerFacts.

Lemma lower_char_not_upper (c : ascii) : Text.is_upper (Text.lower_char c) = false.
Proof.
  destruct c as [[] [] [] [] [] [] [] []]; reflexivity.
Qed.

Lemma full_names_plain :
  Forall (fun entry =>
            Forall (fun c => plain_char c = true) (Text.of_string (snd entry)))
         abbreviations.
Proof.
  assert (H : forallb (fun entry => forallb plain_char (Text.of_string (snd entry)))
                      abbreviations = true) by reflexivity.
  rewrite forallb_forall in H. apply Forall_forall. intros entry Hin.
  apply Forall_forall. intros c Hc.
  specialize (H entry Hin). rewrite forallb_forall in H. now apply H.
Qed.

(** The shape of a normalised location. *)
Lemma normalized_shape (location : value) :
  space_normalized (normalize_location location)
  /\ Forall (fun c => Text.is_punct c = false /\ Text.is_upper c = false)
            (Text.of_string (normalize_location location))
  /\ (is_str location = false \/ py_truthy location = false ->
      normalize_location location = "").
Proof.
  assert (Hempty : space_normalized ""
                   /\ Forall (fun c => Text.is_punct c = false
                                       /\ Text.is_upper c = false)
                             (Text.of_string "")).
  { split; [apply space_normalized_empty | constructor]. }
  unfold normalize_location.
  destruct location as [| | | |s| |];
    try (split; [apply Hempty | split; [apply Hempty | reflexivity]]).
  destruct (negb (py_truthy (VStr s))) eqn:Et;
    [split; [apply Hempty | split; [apply Hempty | reflexivity]]|].
  split; [|split].
  - unfold space_normalized, Text.to_string, Text.of_string. cbv zeta.
    rewrite list_ascii_of_string_of_list_ascii.
    apply strip_normalized, single_spaced_collapse.
  - unfold Text.to_string. unfold Text.of_string at 1.
    rewrite list_ascii_of_string_of_list_ascii.
    assert (Hplain : Forall (fun c => plain_char c = true)
                            (Text.strip
                               (Text.collapse_ws
                                  (expand_abbreviations
                                     (Text.remove_punct
                                        (Text.strip
                                           (Text.lower (Text.of_string s)))))))).
    { apply Forall_strip, Forall_collapse_ws; [reflexivity|].
      apply Forall_expand; [apply full_names_plain|].
      unfold Text.remove_punct.
      apply Forall_forall. intros c Hc. apply filter_In in Hc.
      destruct Hc as [Hin Hp]. unfold plain_char. rewrite Hp. simpl.
      assert (Hl : Forall (fun c => Text.is_upper c = false)
                          (Text.strip (Text.lower (Text.of_string s)))).
      { apply Forall_strip. unfold Text.lower. apply Forall_forall.
        intros x Hx. apply in_map_iff in Hx. destruct Hx as (y & <- & _).
        apply lower_char_not_upper. }
      rewrite Forall_forall in Hl. rewrite (Hl c Hin). reflexivity. }
    eapply Forall_impl; [|exact Hplain]. simpl. intros c Hc.
    unfold plain_char in Hc. apply andb_prop in Hc.
    rewrite !negb_true_iff in Hc. exact Hc.
  - intros [H|H]; [discriminate|]. rewrite H in Et. discriminate.
Qed.

Lemma lower_char_ascii (c : ascii) :
  (Text.code c <? 128)%nat = true ->
  (Text.code (Text.lower_char c) <? 128)%nat = true.
Proof.
  destruct c as [[] [] [] [] [] [] [] []]; intros H;
    solve [reflexivity | discriminate H].
Qed.

Lemma full_names_ascii :
  Forall (fun entry =>
            Forall (fun c => (Text.code c <? 128)%nat = true)
                   (Text.of_string (snd entry)))
         abbreviations.
Proof.
  assert (H : forallb (fun entry =>
                         forallb (fun c => (Text.code c <? 128)%nat)
                                 (Text.of_string (snd entry)))
                      abbreviations = true) by reflexivity.
  rewrite forallb_forall in H. apply Forall_forall. intros entry Hin.
  apply Forall_forall. intros c Hc.
  specialize (H entry Hin). rewrite forallb_forall in H. now apply H.
Qed.

(** Normalisation keeps an ASCII text ASCII. *)
Lemma normalized_ascii (location : value) :
  ascii_value location = true ->
  ascii_text (normalize_location location) = true.
Proof.
  unfold normalize_location.
  destruct location as [| | | |s| |]; try reflexivity.
  destruct (negb (py_truthy (VStr s))); [reflexivity|].
  cbn [ascii_value]. unfold ascii_text, Text.to_string.
  unfold Text.of_string at 1.
  rewrite list_ascii_of_string_of_list_ascii. intros H.
  rewrite forallb_forall in H.
  apply forallb_forall, Forall_forall.
  apply Forall_strip, Forall_collapse_ws; [reflexivity|].
  apply Forall_expand; [apply full_names_ascii|].
  unfold Text.remove_punct.
  apply Forall_forall. intros c Hc. apply filter_In in Hc.
  destruct Hc as [Hin _]. revert c Hin. apply Forall_forall.
  apply Forall_strip. unfold Text.lower. apply Forall_forall.
  intros x Hx. apply in_map_iff in Hx. destruct Hx as (y & <- & Hy).
  apply lower_char_ascii. now apply H.
Qed.

(** X3. For an ASCII location string, and for any input that is not a
    string, the normalised location is space-normalised (single spaces
    between words, none at the ends), is ASCII again, and contains no
    full stop, comma or semicolon and no upper-case letter; and an input
    that is not a string, or is empty, normalises to the empty string. *)
Theorem normalize_location_shape (location : value) :
  ascii_value location = true ->
  space_normalized (normalize_location location)
  /\ Forall (fun c => Text.is_punct c = false /\ Text.is_upper c = false)
            (Text.of_string (normalize_location location))
  /\ ascii_text (normalize_location location) = true
  /\ (is_str location = false \/ py_truthy location = false ->
      normalize_location location = "").
Proof.
  intros Hascii.
  destruct (normalized_shape location) as (H1 & H2 & H3).
  splits; try assumption. now apply normalized_ascii.
Qed.

Lemma normalize_location_witness :
  space_normalized (normalize_location (VStr "  St. Louis,  MO "))
  /\ Forall (fun c => Text.is_punct c = false /\ Text.is_upper c = false)
            (Text.of_string (normalize_location (VStr "  St. Louis,  MO ")))
  /\ ascii_text (normalize_location (VStr "  St. Louis,  MO ")) = true
  /\ (is_str (VStr "  St. Louis,  MO ") = false
      \/ py_truthy (VStr "  St. Louis,  MO ") = false ->
      normalize_location (VStr "  St. Louis,  MO ") = "").
Proof.
  apply (normalize_location_shape (VStr "  St. Louis,  MO ")). reflexivity.
Defined.

(** ** The matcher: what is assigned *)

Section AssignedFacts.

Variable py_repr : value -> string.
Variable students : list pydict.
Variable sim : matrix.

(** A property of assignments that every append of the second loop
    establishes holds of every assignment of the result. *)
Variable Phi : assignment -> Prop.

Hypothesis Phi_step :
  forall j i best mentee,
    best_match sim (length students) j = Ok (Some i, best) ->
    Qltb 0 best = true ->
    nth_error students i = Some mentee ->
    Phi (make_assignment mentee best).

Let all_phi (assigns : keyed (list assignment)) : Prop :=
  forall k l, In (k, l) assigns -> Forall Phi l.

Lemma all_phi_set (assigns : keyed (list assignment)) (k : value)
      (l : list assignment) :
  all_phi assigns -> Forall Phi l -> all_phi (kd_set assigns k l).
Proof.
  intros Hw Hl k0 l0 Hin. apply kd_set_In in Hin.
  destruct Hin as [-> | Hin]; [assumption | eapply Hw; eassumption].
Qed.

Lemma init_loop_phi (mentors : list pydict) caps assigns caps' assigns' :
  for_each init_mentor mentors (caps, assigns) = Ok (caps', assigns') ->
  all_phi assigns -> all_phi assigns'.
Proof.
  revert caps assigns. induction mentors as [|m mentors IH];
    intros caps assigns H Hw; simpl in H.
  - inversion H; subst. assumption.
  - bind_inv H. destruct v as [caps1 assigns1].
    apply (IH _ _ H). unfold init_mentor in Hv. bind_inv Hv.
    destruct v.
    + destruct (hashable (dict_get m "id")); [|discriminate].
      inversion Hv; subst. apply all_phi_set; [assumption | constructor].
    + inversion Hv; subst. assumption.
Qed.

Lemma assign_mentor_phi caps assigns assigns' (j : nat) (m : pydict) :
  assign_mentor students sim caps assigns j m = Ok assigns' ->
  all_phi assigns -> all_phi assigns'.
Proof.
  unfold assign_mentor. intros H Hw.
  destruct (negb (hashable (dict_get m "id"))); [discriminate|].
  destruct (negb (kd_mem caps (dict_get m "id")));
    [inversion H; subst; assumption|].
  bind_inv H. destruct v as [[idx|] best];
    [|inversion H; subst; assumption].
  destruct (Qltb 0 best) eqn:Eb; [|inversion H; subst; assumption].
  destruct (nth_error students idx) as [mentee|] eqn:En; [|discriminate].
  destruct (kd_find assigns (dict_get m "id")) as [assigned|] eqn:Ef;
    [|discriminate].
  inversion H; subst. apply all_phi_set; [assumption|].
  apply Forall_app. split.
  - destruct (kd_find_In _ _ _ Ef) as [k0 Hin]. eapply Hw; eassumption.
  - constructor; [|constructor]. eapply Phi_step; eassumption.
Qed.

Lemma assign_loop_phi caps (mentors : list pydict) (j : nat) assigns assigns' :
  assign_loop students sim caps mentors j assigns = Ok assigns' ->
  all_phi assigns -> all_phi assigns'.
Proof.
  revert j assigns. induction mentors as [|m mentors IH];
    intros j assigns H Hw; simpl in H.
  - inversion H; subst. assumption.
  - bind_inv H. apply (IH _ _ H).
    eapply assign_mentor_phi; eassumption.
Qed.

Lemma matcher_all_phi (mentors : list pydict) (res : list (string * mentor_record)) :
  match_mentees_to_mentors py_repr mentors students sim = Ok res ->
  forall k r a, In (k, r) res -> In a (mentees r) -> Phi a.
Proof.
  unfold match_mentees_to_mentors. intros H k r a Hin Ha.
  bind_inv H. destruct v as [caps assigns1]. bind_inv H. rename v into assigns.
  assert (Hw : all_phi assigns).
  { eapply assign_loop_phi; [eassumption|].
    eapply init_loop_phi; [eassumption|].
    intros k0 l0 []. }
  destruct (format_loop_sound _ _ _ _ _ H k r Hin)
    as [[] | (m & l & Hm & -> & Hf & Hne & ->)].
  simpl in Ha. destruct (kd_find_In _ _ _ Hf) as [k0 Hk0].
  specialize (Hw _ _ Hk0). rewrite Forall_forall in Hw. now apply Hw.
Qed.

End AssignedFacts.

(** X4. Every assignment of the result carries a score above 0 that is an
    entry of the similarity matrix, namely the largest entry of some
    mentor's column, in the row of the mentee it names. *)
Theorem assigned_score_is_positive_column_maximum
        (py_repr : value -> string) (mentors students : list pydict)
        (sim : matrix) (res : list (string * mentor_record)) :
  match_mentees_to_mentors py_repr mentors students sim = Ok res ->
  forall k r a, In (k, r) res -> In a (mentees r) ->
    (0 < similarity_score a)%Q
    /\ exists i j mentee,
         nth_error students i = Some mentee
         /\ a = make_assignment mentee (similarity_score a)
         /\ matrix_get sim i j = Ok (similarity_score a)
         /\ forall i', (i' < length students)%nat ->
                       exists q, matrix_get sim i' j = Ok q
                                 /\ (q <= similarity_score a)%Q.
Proof.
  intros H. apply (matcher_all_phi py_repr students sim) with (mentors := mentors).
  - intros j i best mentee Hb Hpos Hn. simpl.
    split; [now apply Qltb_lt|].
    destruct (best_match_spec _ _ _ _ _ Hb) as [Hmax Hcase].
    destruct Hcase as [[E _] | (i0 & E & _ & Hget & _)]; [discriminate|].
    inversion E; subst i0.
    exists i, j, mentee. splits; first [assumption | reflexivity].
  - exact H.
Qed.

Lemma assigned_score_witness :
  (0 < similarity_score (Demo.first_assignment Demo.basic_run))%Q
  /\ exists i j mentee,
       nth_error [Demo.mentee_10] i = Some mentee
       /\ Demo.first_assignment Demo.basic_run
          = make_assignment mentee
              (similarity_score (Demo.first_assignment Demo.basic_run))
       /\ matrix_get [[similarity_score (Demo.first_assignment Demo.basic_run)]] i j
          = Ok (similarity_score (Demo.first_assignment Demo.basic_run))
       /\ forall i', (i' < length [Demo.mentee_10])%nat ->
                     exists q,
                       matrix_get
                         [[similarity_score (Demo.first_assignment Demo.basic_run)]]
                         i' j = Ok q
                       /\ (q <= similarity_score
                                  (Demo.first_assignment Demo.basic_run))%Q.
Proof.
  apply (assigned_score_is_positive_column_maximum
           Demo.repr [Demo.mentor_1] [Demo.mentee_10]
           [[similarity_score (Demo.first_assignment Demo.basic_run)]]
           (matches Demo.basic_run)
           eq_refl "1" (Demo.first_record Demo.basic_run)).
  - vm_compute. left. reflexivity.
  - vm_compute. left. reflexivity.
Defined.

(** X5. With no mentees to choose from, no mentor is given a record: the
    result is empty. *)
Theorem matcher_without_mentees
        (py_repr : value -> string) (mentors : list pydict) (sim : matrix)
        (res : list (string * mentor_record)) :
  match_mentees_to_mentors py_repr mentors [] sim = Ok res -> res = [].
Proof.
  intros H. destruct res as [|[k r] res]; [reflexivity|]. exfalso.
  destruct (matcher_sound _ _ _ _ _ H k r (or_introl eq_refl))
    as (m & _ & _ & _ & Hne & Hsrc).
  destruct (mentees r) as [|a l]; [congruence|].
  inversion Hsrc as [|? ? (mentee & q & [] & _) _].
Qed.

Lemma matcher_without_mentees_witness :
  match match_mentees_to_mentors Demo.repr [Demo.mentor_1; Demo.mentor_2] [] [] with
  | Ok res => res
  | Raise _ => []
  end = [].
Proof.
  apply (matcher_without_mentees Demo.repr [Demo.mentor_1; Demo.mentor_2] []).
  reflexivity.
Defined.

(** ** The matcher: mentors are served independently *)





(** ** The matcher: when it returns *)

Lemma kd_mem_set {A : Type} (d : keyed A) (k k' : value) (x : A) :
  kd_mem (kd_set d k x) k' = py_eq k k' || kd_mem d k'.
Proof.
  unfold kd_mem. rewrite kd_find_set. destruct (py_eq k k'); reflexivity.
Qed.

Section MatcherReturns.

Variable py_repr : value -> string.
Variable students : list pydict.
Variable sim : matrix.

Let usable (m : pydict) : Prop :=
  hashable (dict_get m "id") = true /\ exists b, registers m = Ok b.

Lemma init_loop_total (mentors : list pydict) caps assigns :
  Forall usable mentors -> same_keys caps assigns ->
  exists caps' assigns',
    for_each init_mentor mentors (caps, assigns) = Ok (caps', assigns')
    /\ same_keys caps' assigns'.
Proof.
  intros Hall. revert caps assigns.
  induction Hall as [|m mentors [Hh [b Hb]] _ IH]; intros caps assigns Hk; simpl.
  - eauto.
  - unfold init_mentor. rewrite Hb. simpl. destruct b.
    + rewrite Hh. simpl. apply IH.
      intros k. rewrite !kd_mem_set, Hk. reflexivity.
    + simpl. apply IH. exact Hk.
Qed.

Lemma scan_total (j len s : nat) (st : option nat * Q) :
  (forall i, (s <= i < s + len)%nat -> exists q, matrix_get sim i j = Ok q) ->
  exists st', for_each (scan_step sim j) (seq s len) st = Ok st'.
Proof.
  revert s st. induction len as [|len IH]; intros s [bi b] H; simpl; [eauto|].
  destruct (H s) as [q Hq]; [lia|]. rewrite Hq. simpl.
  destruct (Qltb b q); apply IH; intros i Hi; apply H; lia.
Qed.

Lemma assign_mentor_total caps assigns (j : nat) (m : pydict) :
  hashable (dict_get m "id") = true ->
  same_keys caps assigns ->
  (forall i, (i < length students)%nat -> exists q, matrix_get sim i j = Ok q) ->
  exists assigns',
    assign_mentor students sim caps assigns j m = Ok assigns'
    /\ same_keys caps assigns'.
Proof.
  intros Hh Hk Hcol. unfold assign_mentor. rewrite Hh. simpl.
  destruct (kd_mem caps (dict_get m "id")) eqn:Em; simpl; [|eauto].
  destruct (scan_total j (length students) 0 (None, (-1)%Q)) as [[bi best] Hb];
    [intros i Hi; apply Hcol; lia|].
  unfold best_match. rewrite Hb. simpl.
  destruct bi as [idx|]; [|eauto].
  destruct (Qltb 0 best); [|eauto].
  destruct (best_match_spec sim _ _ _ _ Hb) as [_ Hcase].
  destruct Hcase as [[E _] | (i & E & Hi & _)]; [discriminate|].
  inversion E; subst i.
  destruct (nth_error students idx) as [mentee|] eqn:En;
    [|apply nth_error_None in En; lia].
  rewrite Hk in Em. unfold kd_mem in Em.
  destruct (kd_find assigns (dict_get m "id")) as [assigned|] eqn:Ef;
    [|discriminate].
  eexists. split; [reflexivity|].
  intros k. rewrite kd_mem_set, <- Hk.
  destruct (py_eq (dict_get m "id") k) eqn:Ek; [|reflexivity]. simpl.
  unfold kd_mem. rewrite <- (kd_find_cong caps _ _ Ek).
  specialize (Hk (dict_get m "id")). unfold kd_mem in Hk. rewrite Ef in Hk.
  destruct (kd_find caps (dict_get m "id")); [reflexivity | discriminate].
Qed.

Lemma assign_loop_total caps (mentors : list pydict) (j0 : nat) assigns :
  Forall usable mentors -> same_keys caps assigns ->
  (forall i j, (i < length students)%nat -> (j < j0 + length mentors)%nat ->
               exists q, matrix_get sim i j = Ok q) ->
  exists assigns', assign_loop students sim caps mentors j0 assigns = Ok assigns'.
Proof.
  intros Hall. revert j0 assigns.
  induction Hall as [|m mentors [Hh _] _ IH]; intros j0 assigns Hk Hs; simpl.
  - eauto.
  - destruct (assign_mentor_total caps assigns j0 m Hh Hk) as (a' & -> & Hk').
    + intros i Hi. apply Hs; [assumption | simpl; lia].
    + simpl. apply IH; [assumption|].
      intros i j Hi Hj. apply Hs; [assumption | simpl; lia].
Qed.

Lemma format_loop_total assigns (mentors : list pydict)
      (res0 : list (string * mentor_record)) :
  Forall usable mentors ->
  exists res, for_each (format_mentor py_repr assigns) mentors res0 = Ok res.
Proof.
  intros Hall. revert res0.
  induction Hall as [|m mentors [Hh _] _ IH]; intros res0; simpl; [eauto|].
  unfold format_mentor. rewrite Hh. simpl.
  destruct (kd_find assigns (dict_get m "id")) as [assigned|]; simpl; [|apply IH].
  destruct (0 <? length assigned)%nat; simpl; apply IH.
Qed.

(** The matcher returns when every mentor's identity is hashable, every
    willing mentor's capacity is a number (or null), and the matrix has an
    entry for every pair. *)
Lemma matcher_total (mentors : list pydict) :
  Forall usable mentors ->
  well_shaped sim (length students) (length mentors) ->
  exists res, match_mentees_to_mentors py_repr mentors students sim = Ok res.
Proof.
  intros Hall Hs. unfold match_mentees_to_mentors.
  destruct (init_loop_total mentors [] [] Hall) as (caps & a1 & Hinit & Hk);
    [intros k; reflexivity|].
  unfold keyed in *. rewrite Hinit. simpl.
  destruct (assign_loop_total caps mentors 0 a1 Hall Hk) as (a2 & ->);
    [intros i j Hi Hj; apply Hs; assumption|].
  simpl. apply format_loop_total. exact Hall.
Qed.

End MatcherReturns.

(** X7. The matcher returns a result, raising nothing, whenever every
    mentor's [id] is hashable (not a list or an object), the capacity of
    every willing mentor is a number or null, and the similarity matrix
    has an entry for every (mentee, mentor) pair. *)
Theorem matcher_returns
        (py_repr : value -> string) (mentors students : list pydict)
        (sim : matrix) :
  Forall (fun m => hashable (dict_get m "id") = true
                   /\ exists b, registers m = Ok b) mentors ->
  well_shaped sim (length students) (length mentors) ->
  exists res, match_mentees_to_mentors py_repr mentors students sim = Ok res.
Proof. apply matcher_total. Qed.

Lemma matcher_returns_witness :
  exists res,
    match_mentees_to_mentors Demo.repr [Demo.mentor_1; Cases.mentor_unwilling]
                             [Demo.mentee_10; Demo.mentee_11]
                             Cases.shared_matrix = Ok res.
Proof.
  apply (matcher_returns Demo.repr [Demo.mentor_1; Cases.mentor_unwilling]
                         [Demo.mentee_10; Demo.mentee_11] Cases.shared_matrix).
  - repeat constructor; eexists; vm_compute; reflexivity.
  - intros i j Hi Hj. simpl in Hi, Hj.
    destruct i as [|[|i]]; destruct j as [|[|j]]; try lia;
      eexists; reflexivity.
Defined.

(** ** The score combiner: entries *)

Lemma zip_same_nth {A B C : Type} (f : A -> B -> result C)
      (l1 : list A) (l2 : list B) (l : list C) (i : nat) (a : A) (b : B) :
  zip_same f l1 l2 = Ok l ->
  nth_error l1 i = Some a -> nth_error l2 i = Some b ->
  exists c, nth_error l i = Some c /\ f a b = Ok c.
Proof.
  revert l2 l i. induction l1 as [|x l1 IH]; intros [|y l2] l i H Ha Hb;
    simpl in H; try discriminate.
  - destruct i; discriminate.
  - bind_inv H. bind_inv H. inversion H; subst; clear H.
    destruct i as [|i]; simpl in *.
    + inversion Ha; inversion Hb; subst. eauto.
    + eapply IH; eassumption.
Qed.

(** Where both arrays have an element at [i], the combination has the
    combination of the two (also when one of them was broadcast, which
    leaves [i = 0] only). *)
Lemma zip_with_nth {A B C : Type} (f : A -> B -> result C)
      (l1 : list A) (l2 : list B) (l : list C) (i : nat) (a : A) (b : B) :
  zip_with f l1 l2 = Ok l ->
  nth_error l1 i = Some a -> nth_error l2 i = Some b ->
  exists c, nth_error l i = Some c /\ f a b = Ok c.
Proof.
  unfold zip_with. intros H Ha Hb.
  destruct (length l1 =? length l2)%nat; [eapply zip_same_nth; eassumption|].
  destruct l1 as [|x [|x' l1]].
  - destruct i; discriminate.
  - destruct i as [|[|i]]; try discriminate. simpl in Ha.
    inversion Ha; subst x.
    exact (map_result_nth _ _ _ _ _ H Hb).
  - destruct l2 as [|y [|y' l2]]; try discriminate.
    destruct i as [|[|i]]; try discriminate. simpl in Hb.
    inversion Hb; subst y.
    exact (map_result_nth (fun x0 => f x0 b) _ _ _ _ H Ha).
Qed.

Lemma weighted_sum_get (wp wl : Q) (P L m : matrix) (i j : nat) (p l : Q) :
  weighted_sum wp wl P L = Ok m ->
  matrix_get P i j = Ok p -> matrix_get L i j = Ok l ->
  matrix_get m i j = Ok (wp * p + wl * l)%Q.
Proof.
  unfold weighted_sum, matrix_get. intros H HP HL.
  destruct (nth_error P i) as [rp|] eqn:Erp; [|discriminate].
  destruct (nth_error L i) as [rl|] eqn:Erl; [|discriminate].
  destruct (nth_error rp j) as [p'|] eqn:Ep; [|discriminate].
  destruct (nth_error rl j) as [l'|] eqn:El; [|discriminate].
  inversion HP; inversion HL; subst.
  destruct (zip_with_nth _ _ _ _ _ _ _ H Erp Erl) as (row & -> & Hrow).
  destruct (zip_with_nth _ _ _ _ _ _ _ Hrow Ep El) as (c & -> & Hc).
  inversion Hc. reflexivity.
Qed.

(** X8. With both location lists given and a positive total weight, entry
    (i, j) of the combined matrix is the weighted mean of the cleaned
    cosine of mentee [i] and mentor [j] and of their location score, the
    weights being the two given weights divided by their sum; without
    locations it is the cleaned cosine alone. *)
Theorem combined_entry
        (vec : Type) (cosine : vec -> vec -> cell)
        (mentor_vectors mentee_vectors : list vec)
        (mentor_locs mentee_locs : list value)
        (profile_weight location_weight : Q) (m : matrix)
        (i j : nat) (x y : vec) (u v : value) :
  nth_error mentee_vectors i = Some x -> nth_error mentor_vectors j = Some y ->
  nth_error mentee_locs i = Some u -> nth_error mentor_locs j = Some v ->
  (0 < profile_weight + location_weight)%Q ->
  (compute_similarity_scores vec cosine mentor_vectors mentee_vectors
                             (Some mentor_locs) (Some mentee_locs)
                             profile_weight location_weight = Ok m ->
   matrix_get m i j
   = Ok (profile_weight / (profile_weight + location_weight)
         * nan_to_num_cell 0 1 0 (cosine x y)
         + location_weight / (profile_weight + location_weight)
           * location_similarity u v)%Q)
  /\ (forall w1 w2,
        compute_similarity_scores vec cosine mentor_vectors mentee_vectors
                                  None None w1 w2
        = Ok (nan_to_num 0 1 0 (cosine_similarity vec cosine mentee_vectors
                                                  mentor_vectors))
        /\ matrix_get (nan_to_num 0 1 0
                         (cosine_similarity vec cosine mentee_vectors
                                            mentor_vectors)) i j
           = Ok (nan_to_num_cell 0 1 0 (cosine x y))).
Proof.
  intros Hx Hy Hu Hv Ht. split.
  - unfold compute_similarity_scores.
    assert (Hn : nonempty mentor_locs && nonempty mentee_locs = true).
    { destruct mentor_locs; [destruct j; discriminate|].
      destruct mentee_locs; [destruct i; discriminate|]. reflexivity. }
    rewrite Hn. apply Qltb_lt in Ht. rewrite Ht. intros H.
    eapply weighted_sum_get; [exact H | |].
    + apply profile_similarity_get; assumption.
    + apply compute_location_similarity_entry; assumption.
  - intros w1 w2. split; [reflexivity|].
    apply profile_similarity_get; assumption.
Qed.

Lemma combined_entry_witness :
  (compute_similarity_scores unit Demo.cos [tt] [tt]
                             (Some [VStr "NY"]) (Some [VStr "New York"])
                             (7 # 10) (3 # 10) = Ok [[((7 # 10) / ((7 # 10) + (3 # 10))
         * nan_to_num_cell 0 1 0 (Demo.cos tt tt)
         + (3 # 10) / ((7 # 10) + (3 # 10))
           * location_similarity (VStr "New York") (VStr "NY"))%Q]] ->
   matrix_get [[((7 # 10) / ((7 # 10) + (3 # 10))
         * nan_to_num_cell 0 1 0 (Demo.cos tt tt)
         + (3 # 10) / ((7 # 10) + (3 # 10))
           * location_similarity (VStr "New York") (VStr "NY"))%Q]] 0 0
   = Ok ((7 # 10) / ((7 # 10) + (3 # 10))
         * nan_to_num_cell 0 1 0 (Demo.cos tt tt)
         + (3 # 10) / ((7 # 10) + (3 # 10))
           * location_similarity (VStr "New York") (VStr "NY"))%Q)
  /\ (forall w1 w2,
        compute_similarity_scores unit Demo.cos [tt] [tt] None None w1 w2
        = Ok (nan_to_num 0 1 0 (cosine_similarity unit Demo.cos [tt] [tt]))
        /\ matrix_get (nan_to_num 0 1 0
                         (cosine_similarity unit Demo.cos [tt] [tt])) 0 0
           = Ok (nan_to_num_cell 0 1 0 (Demo.cos tt tt))).
Proof.
  apply (combined_entry unit Demo.cos [tt] [tt] [VStr "NY"] [VStr "New York"]
                        (7 # 10)%Q (3 # 10)%Q _ 0 0 tt tt
                        (VStr "New York") (VStr "NY"));
    reflexivity.
Defined.

(** ** The pipeline: what makes it raise, what it depends on *)

Lemma filter_result_fixed {A : Type} (p : A -> result bool) (l kept : list A) :
  filter_result p l = Ok kept -> filter_result p kept = Ok kept.
Proof.
  revert kept. induction l as [|x l IH]; simpl; intros kept H.
  - inversion H; subst. reflexivity.
  - bind_inv H. bind_inv H. inversion H; subst; clear H.
    destruct v; [|now apply IH].
    simpl. rewrite Hv. simpl. rewrite (IH _ Hv0). reflexivity.
Qed.

Lemma filter_fixed {A : Type} (f : A -> bool) (l : list A) :
  filter f (filter f l) = filter f l.
Proof.
  induction l as [|x l IH]; simpl; [reflexivity|].
  destruct (f x) eqn:E; simpl; [rewrite E, IH; reflexivity | exact IH].
Qed.

(** X9. A willing mentor whose capacity is a non-empty string, list or
    object (anything truthy that is not a number) makes the whole run
    raise [TypeError], whoever else is in the input. *)
Theorem capacity_not_a_number_raises
        (py_repr : value -> string) (json_loads : string -> json_outcome)
        (vec : Type) (zero_vec : vec)
        (tfidf_fit_transform count_fit_transform : list string -> result (list vec))
        (cosine : vec -> vec -> cell)
        (mentors_data mentees_data : list pydict) (mentor : pydict) :
  In mentor mentors_data ->
  py_truthy (dict_get mentor "willing_to_be_mentor") = true ->
  py_truthy (dict_get mentor "mentor_capacity") = true ->
  num_of (dict_get mentor "mentor_capacity") = None ->
  perform_matching py_repr json_loads vec zero_vec tfidf_fit_transform
                   count_fit_transform cosine mentors_data mentees_data
  = Raise TypeError.
Proof.
  intros Hin Hw Hc Hn. unfold perform_matching.
  rewrite (filter_result_raises mentor_eligible mentors_data TypeError mentor).
  - reflexivity.
  - apply mentor_eligible_raises.
  - exact Hin.
  - unfold mentor_eligible, py_or, py_gt_zero. rewrite Hw, Hc, Hn. reflexivity.
Qed.

Lemma capacity_not_a_number_witness :
  Demo.run [Demo.mentor_1; Cases.mentor_text_capacity] [Demo.mentee_10]
  = Raise TypeError.
Proof.
  apply (capacity_not_a_number_raises
           Demo.repr Demo.loads unit tt Demo.fit_transform Demo.fit_transform
           Demo.cos [Demo.mentor_1; Cases.mentor_text_capacity] [Demo.mentee_10]
           Cases.mentor_text_capacity).
  - right. left. reflexivity.
  - reflexivity.
  - reflexivity.
  - reflexivity.
Defined.

(** X10. The run depends on the eligible profiles only: dropping every
    ineligible mentor and mentee from the input beforehand changes
    nothing in what is returned. *)
Theorem ineligible_profiles_have_no_effect
        (py_repr : value -> string) (json_loads : string -> json_outcome)
        (vec : Type) (zero_vec : vec)
        (tfidf_fit_transform count_fit_transform : list string -> result (list vec))
        (cosine : vec -> vec -> cell)
        (mentors_data mentees_data mentors : list pydict) :
  let run := perform_matching py_repr json_loads vec zero_vec tfidf_fit_transform
                              count_fit_transform cosine in
  filter_result mentor_eligible mentors_data = Ok mentors ->
  run mentors_data mentees_data
  = run mentors (filter mentee_eligible mentees_data).
Proof.
  intros run H. unfold run, perform_matching.
  rewrite H, (filter_result_fixed _ _ _ H), filter_fixed. reflexivity.
Qed.

Lemma ineligible_profiles_witness :
  Demo.run [Cases.mentor_unwilling; Demo.mentor_1]
           [Cases.mentee_paired; Demo.mentee_10]
  = Demo.run [Demo.mentor_1]
             (filter mentee_eligible [Cases.mentee_paired; Demo.mentee_10]).
Proof.
  apply (ineligible_profiles_have_no_effect
           Demo.repr Demo.loads unit tt Demo.fit_transform Demo.fit_transform
           Demo.cos [Cases.mentor_unwilling; Demo.mentor_1]
           [Cases.mentee_paired; Demo.mentee_10] [Demo.mentor_1]).
  reflexivity.
Defined.

(** ** The pipeline: the shape of what it returns *)

Lemma sd_set_length {A : Type} (d : list (string * A)) (k : string) (x : A) :
  (length (sd_set d k x) <= S (length d))%nat.
Proof.
  induction d as [|[k0 y] d IH]; simpl; [lia|].
  destruct (String.eqb k0 k); simpl; lia.
Qed.

Lemma format_loop_length (py_repr : value -> string) assigns
      (mentors : list pydict) (res0 res : list (string * mentor_record)) :
  for_each (format_mentor py_repr assigns) mentors res0 = Ok res ->
  (length res <= length res0 + length mentors)%nat.
Proof.
  revert res0. induction mentors as [|m mentors IH]; intros res0 H; simpl in H.
  - inversion H; subst. simpl. lia.
  - bind_inv H. specialize (IH _ H). simpl.
    assert (Hv' : (length v <= S (length res0))%nat); [|lia].
    unfold format_mentor in Hv.
    destruct (negb (hashable (dict_get m "id"))); [discriminate|].
    destruct (kd_find assigns (dict_get m "id")) as [assigned|];
      [|inversion Hv; subst; lia].
    destruct (0 <? length assigned)%nat; inversion Hv; subst;
      [apply sd_set_length | lia].
Qed.

Lemma matcher_result_length (py_repr : value -> string)
      (mentors students : list pydict) (sim : matrix)
      (res : list (string * mentor_record)) :
  match_mentees_to_mentors py_repr mentors students sim = Ok res ->
  (length res <= length mentors)%nat.
Proof.
  unfold match_mentees_to_mentors. intros H.
  bind_inv H. destruct v as [caps a1]. bind_inv H.
  apply format_loop_length in H. simpl in H. exact H.
Qed.

(** The shape of a returned result, by the two filters. *)
Lemma run_shape
        (py_repr : value -> string) (json_loads : string -> json_outcome)
        (vec : Type) (zero_vec : vec)
        (tfidf_fit_transform count_fit_transform : list string -> result (list vec))
        (cosine : vec -> vec -> cell)
        (mentors_data mentees_data : list pydict) (out : output) :
  perform_matching py_repr json_loads vec zero_vec tfidf_fit_transform
                   count_fit_transform cosine mentors_data mentees_data = Ok out ->
  exists mentors,
    filter_result mentor_eligible mentors_data = Ok mentors
    /\ (success out = true
        <-> mentors <> [] /\ filter mentee_eligible mentees_data <> [])
    /\ (success out = false -> matches out = [] /\ stats out = None)
    /\ (success out = true ->
        (exists total,
            capacity_sum mentors = Ok total
            /\ stats out
               = Some {| total_mentors := length mentors;
                         total_mentees :=
                           length (filter mentee_eligible mentees_data);
                         total_mentees_assigned :=
                           list_sum (map (fun kr => assigned_total (snd kr))
                                         (matches out));
                         total_capacity := total |})
        /\ (1 <= length mentors)%nat
        /\ (1 <= length (filter mentee_eligible mentees_data))%nat
        /\ (length (matches out) <= length mentors)%nat).
Proof.
  unfold perform_matching. intros H. bind_inv H. rename v into mentors.
  exists mentors. split; [exact Hv|].
  destruct mentors as [|m0 mentors]; simpl in H.
  { inversion H; subst; simpl. splits; try tauto; try discriminate.
    split; [discriminate | tauto]. }
  destruct (filter mentee_eligible mentees_data) as [|e0 students] eqn:Ef;
    simpl in H.
  { inversion H; subst; simpl. splits; try tauto; try discriminate.
    split; [discriminate | tauto]. }
  do 8 bind_inv H. inversion H; subst; clear H. simpl.
  splits.
  - split; [intros _; split; discriminate | reflexivity].
  - discriminate.
  - intros _. splits; try (simpl; lia).
    + eexists. split; [eassumption | reflexivity].
    + match goal with
      | Hm : match_mentees_to_mentors _ _ _ _ = Ok _ |- _ =>
          apply matcher_result_length in Hm; exact Hm
      end.
Qed.

(** X11. Whenever the run returns, [success] is true exactly when at least
    one mentor and at least one mentee are eligible.  A failure carries no
    match and no statistics.  A success carries the statistics: the
    numbers of eligible mentors and mentees (both at least 1), the number
    of assignments summed over the records, and the summed capacity; and
    it has at most one record per eligible mentor. *)
Theorem result_shape
        (py_repr : value -> string) (json_loads : string -> json_outcome)
        (vec : Type) (zero_vec : vec)
        (tfidf_fit_transform count_fit_transform : list string -> result (list vec))
        (cosine : vec -> vec -> cell)
        (mentors_data mentees_data : list pydict) (out : output) :
  perform_matching py_repr json_loads vec zero_vec tfidf_fit_transform
                   count_fit_transform cosine mentors_data mentees_data = Ok out ->
  exists mentors,
    filter_result mentor_eligible mentors_data = Ok mentors
    /\ (success out = true
        <-> mentors <> [] /\ filter mentee_eligible mentees_data <> [])
    /\ (success out = false -> matches out = [] /\ stats out = None)
    /\ (success out = true ->
        (exists total,
            capacity_sum mentors = Ok total
            /\ stats out
               = Some {| total_mentors := length mentors;
                         total_mentees :=
                           length (filter mentee_eligible mentees_data);
                         total_mentees_assigned :=
                           list_sum (map (fun kr => assigned_total (snd kr))
                                         (matches out));
                         total_capacity := total |})
        /\ (1 <= length mentors)%nat
        /\ (1 <= length (filter mentee_eligible mentees_data))%nat
        /\ (length (matches out) <= length mentors)%nat).
Proof. apply run_shape. Qed.

Lemma result_shape_witness :
  exists mentors,
    filter_result mentor_eligible [Demo.mentor_1] = Ok mentors
    /\ (success Demo.basic_run = true
        <-> mentors <> [] /\ filter mentee_eligible [Demo.mentee_10] <> [])
    /\ (success Demo.basic_run = false ->
        matches Demo.basic_run = [] /\ stats Demo.basic_run = None)
    /\ (success Demo.basic_run = true ->
        (exists total,
            capacity_sum mentors = Ok total
            /\ stats Demo.basic_run
               = Some {| total_mentors := length mentors;
                         total_mentees :=
                           length (filter mentee_eligible [Demo.mentee_10]);
                         total_mentees_assigned :=
                           list_sum (map (fun kr => assigned_total (snd kr))
                                         (matches Demo.basic_run));
                         total_capacity := total |})
        /\ (1 <= length mentors)%nat
        /\ (1 <= length (filter mentee_eligible [Demo.mentee_10]))%nat
        /\ (length (matches Demo.basic_run) <= length mentors)%nat).
Proof.
  apply (result_shape Demo.repr Demo.loads unit tt Demo.fit_transform
                      Demo.fit_transform Demo.cos [Demo.mentor_1] [Demo.mentee_10]
                      Demo.basic_run).
  reflexivity.
Defined.

Lemma sum_of_ones (res : list (string * mentor_record)) :
  (forall k r, In (k, r) res -> length (mentees r) = 1%nat) ->
  list_sum (map (fun kr => assigned_total (snd kr)) res) = length res.
Proof.
  induction res as [|[k r] res IH]; intros H; simpl; [reflexivity|].
  unfold assigned_total at 1. simpl.
  rewrite (H k r (or_introl eq_refl)), IH; [reflexivity|].
  intros k' r' Hin. apply (H k' r'). now right.
Qed.

(** X12. When the eligible mentors carry pairwise different identities,
    the reported number of assigned mentees is the number of records in
    [matches], and it does not exceed the number of eligible mentors. *)
Theorem assigned_total_counts_records
        (py_repr : value -> string) (json_loads : string -> json_outcome)
        (vec : Type) (zero_vec : vec)
        (tfidf_fit_transform count_fit_transform : list string -> result (list vec))
        (cosine : vec -> vec -> cell)
        (mentors_data mentees_data mentors : list pydict) (out : output)
        (st : statistics) :
  perform_matching py_repr json_loads vec zero_vec tfidf_fit_transform
                   count_fit_transform cosine mentors_data mentees_data = Ok out ->
  filter_result mentor_eligible mentors_data = Ok mentors ->
  distinct_identities py_repr mentors ->
  stats out = Some st ->
  total_mentees_assigned st = length (matches out)
  /\ (total_mentees_assigned st <= total_mentors st)%nat.
Proof.
  intros H Hf Hd Hst.
  destruct (run_shape _ _ _ _ _ _ _ _ _ _ H) as (mentors' & Hf' & _ & Hfail & Hok).
  rewrite Hf in Hf'. inversion Hf'; subst mentors'.
  destruct (success out) eqn:Es;
    [|destruct (Hfail eq_refl) as [_ E]; congruence].
  destruct (Hok eq_refl) as ((total & _ & E) & _ & _ & Hlen).
  rewrite E in Hst. inversion Hst; subst st; simpl.
  rewrite sum_of_ones; [split; [reflexivity | exact Hlen]|].
  intros k r Hin.
  eapply (pipeline_records_hold_one py_repr json_loads vec zero_vec
            tfidf_fit_transform count_fit_transform cosine);
    eassumption.
Qed.

Lemma assigned_total_witness :
  total_mentees_assigned
    (match stats Demo.basic_run with
     | Some st => st
     | None => {| total_mentors := 0; total_mentees := 0;
                  total_mentees_assigned := 0; total_capacity := VInt 0 |}
     end)
  = length (matches Demo.basic_run)
  /\ (total_mentees_assigned
        (match stats Demo.basic_run with
         | Some st => st
         | None => {| total_mentors := 0; total_mentees := 0;
                      total_mentees_assigned := 0; total_capacity := VInt 0 |}
         end)
      <= total_mentors
           (match stats Demo.basic_run with
            | Some st => st
            | None => {| total_mentors := 0; total_mentees := 0;
                         total_mentees_assigned := 0; total_capacity := VInt 0 |}
            end))%nat.
Proof.
  apply (assigned_total_counts_records
           Demo.repr Demo.loads unit tt Demo.fit_transform Demo.fit_transform
           Demo.cos [Demo.mentor_1] [Demo.mentee_10] [Demo.mentor_1]
           Demo.basic_run).
  - reflexivity.
  - reflexivity.
  - simpl. split; [constructor | exact I].
  - reflexivity.
Defined.

(** ** The pipeline: when it returns *)

Lemma map_result_extract (py_repr : value -> string)
      (json_loads : string -> json_outcome) (is_student : bool)
      (l : list pydict) :
  Forall (fun m => resume_error json_loads m = None) l ->
  map_result (fun m => extract_text_from_profile py_repr json_loads m is_student) l
  = Ok (map (fun m => profile_text py_repr json_loads m is_student) l).
Proof.
  induction 1 as [|m l Hm _ IH]; simpl; [reflexivity|].
  unfold profile_text at 1.
  destruct (extract_text_total py_repr json_loads m is_student Hm) as (t & -> & _).
  simpl. rewrite IH. reflexivity.
Qed.

(** Capacities that are all ints (or bools) add up without error. *)
Lemma capacity_sum_of_ints (mentors : list pydict) :
  Forall (fun m => int_of (py_or (dict_get m "mentor_capacity") (VInt 0)) <> None)
         mentors ->
  exists z, capacity_sum mentors = Ok (VInt z).
Proof.
  unfold capacity_sum. intros H.
  assert (G : forall z0,
             exists z,
               for_each
                 (fun total m =>
                    num_add total (py_or (dict_get m "mentor_capacity") (VInt 0)))
                 mentors (VInt z0) = Ok (VInt z)); [|apply G].
  induction H as [|m l Hm _ IH]; intros z0; cbn [for_each]; [eauto|].
  destruct (int_of (py_or (dict_get m "mentor_capacity") (VInt 0))) as [y|] eqn:E;
    [|congruence].
  assert (Hadd : num_add (VInt z0) (py_or (dict_get m "mentor_capacity") (VInt 0))
                 = Ok (VInt (z0 + y))).
  { destruct (py_or (dict_get m "mentor_capacity") (VInt 0));
      simpl in E; try discriminate; inversion E; subst; reflexivity. }
  rewrite Hadd. cbn [bind]. apply IH.
Qed.

Lemma map_result_check_strip (l : list value) :
  Forall (fun v => is_str v = true) l ->
  map_result check_strip l = Ok (map (fun _ => tt) l).
Proof.
  induction 1 as [|v l Hv _ IH]; simpl; [reflexivity|].
  unfold check_strip at 1. rewrite Hv. simpl. rewrite IH. reflexivity.
Qed.

Lemma nonempty_map {A B : Type} (f : A -> B) (l : list A) :
  nonempty (map f l) = nonempty l.
Proof. destruct l; reflexivity. Qed.

Lemma nth_error_lt {A : Type} (l : list A) (i : nat) :
  (i < length l)%nat -> exists a, nth_error l i = Some a.
Proof.
  intros H. destruct (nth_error l i) as [a|] eqn:E; [eauto|].
  apply nth_error_None in E. lia.
Qed.

(** With default weights and one location per vector the combiner returns
    a matrix with an entry for every pair. *)
Lemma default_scores_well_shaped (vec : Type) (cosine : vec -> vec -> cell)
      (mentor_vectors mentee_vectors : list vec)
      (mentor_locs mentee_locs : list value) :
  length mentor_locs = length mentor_vectors ->
  length mentee_locs = length mentee_vectors ->
  exists m,
    compute_similarity_scores vec cosine mentor_vectors mentee_vectors
                              (Some mentor_locs) (Some mentee_locs)
                              (7 # 10) (3 # 10) = Ok m
    /\ well_shaped m (length mentee_vectors) (length mentor_vectors).
Proof.
  intros Hm He. unfold compute_similarity_scores.
  destruct (nonempty mentor_locs && nonempty mentee_locs) eqn:En.
  - change (Qltb 0 ((7 # 10) + (3 # 10))) with true. cbv iota.
    destruct (weighted_sum_total
                ((7 # 10) / ((7 # 10) + (3 # 10)))%Q
                ((3 # 10) / ((7 # 10) + (3 # 10)))%Q
                (nan_to_num 0 1 0
                   (cosine_similarity vec cosine mentee_vectors mentor_vectors))
                (compute_location_similarity mentor_locs mentee_locs))
      as [m Hw].
    + unfold nan_to_num, cosine_similarity, compute_location_similarity.
      rewrite !length_map. congruence.
    + intros rp rl Hrp Hrl.
      unfold nan_to_num, cosine_similarity in Hrp. rewrite map_map in Hrp.
      apply in_map_iff in Hrp. destruct Hrp as (x & <- & _).
      unfold compute_location_similarity in Hrl.
      apply in_map_iff in Hrl. destruct Hrl as (u & <- & _).
      rewrite !length_map. congruence.
    + exists m. split; [exact Hw|]. intros i j Hi Hj.
      destruct (nth_error_lt mentee_vectors i Hi) as [x Hx].
      destruct (nth_error_lt mentor_vectors j Hj) as [y Hy].
      destruct (nth_error_lt mentee_locs i) as [u Hu]; [lia|].
      destruct (nth_error_lt mentor_locs j) as [v Hv]; [lia|].
      eexists. eapply weighted_sum_get; [exact Hw | |].
      * apply profile_similarity_get; eassumption.
      * apply compute_location_similarity_entry; eassumption.
  - eexists. split; [reflexivity|]. intros i j Hi Hj.
    destruct (nth_error_lt mentee_vectors i Hi) as [x Hx].
    destruct (nth_error_lt mentor_vectors j Hj) as [y Hy].
    eexists. apply profile_similarity_get; eassumption.
Qed.

(** X13. Take a run whose mentor filter returns, whose eligible mentors
    carry hashable [id]s, whose eligible profiles have a location that is a
    string (or absent, null or empty) and a resume on which [json.loads]
    raises nothing beyond [JSONDecodeError], and whose vectoriser answers
    one vector per text of the joint corpus.  It returns a result when
    the capacities of the eligible mentors add up without error (as they
    do when none of them is a float) or when no mentee is eligible; and
    when the sum raises (an int beyond the range of a float meeting a
    float) and some mentee is eligible, it raises the same. *)
Theorem pipeline_returns
        (py_repr : value -> string) (json_loads : string -> json_outcome)
        (vec : Type) (zero_vec : vec)
        (tfidf_fit_transform count_fit_transform : list string -> result (list vec))
        (cosine : vec -> vec -> cell)
        (mentors_data mentees_data mentors : list pydict) :
  let run := perform_matching py_repr json_loads vec zero_vec tfidf_fit_transform
                              count_fit_transform cosine in
  filter_result mentor_eligible mentors_data = Ok mentors ->
  Forall (fun m => hashable (dict_get m "id") = true) mentors ->
  Forall (fun p => is_str (location_of p) = true
                   /\ resume_error json_loads p = None)
         (mentors ++ filter mentee_eligible mentees_data) ->
  (exists vectors,
      vectorize vec zero_vec tfidf_fit_transform count_fit_transform
                (corpus py_repr json_loads mentors
                        (filter mentee_eligible mentees_data)) = Ok vectors
      /\ length vectors
         = (length mentors + length (filter mentee_eligible mentees_data))%nat) ->
  ((exists total, capacity_sum mentors = Ok total)
   \/ Forall (fun m => int_of (py_or (dict_get m "mentor_capacity") (VInt 0))
                       <> None) mentors
   \/ filter mentee_eligible mentees_data = [] ->
   exists out, run mentors_data mentees_data = Ok out)
  /\ (forall e,
        capacity_sum mentors = Raise e ->
        mentors <> [] -> filter mentee_eligible mentees_data <> [] ->
        run mentors_data mentees_data = Raise e).
Proof.
  intros run Hf Hh Hloc (vectors & Hvec & Hlen).
  set (students := filter mentee_eligible mentees_data) in *.
  assert (Hrun : exists k : value -> output,
             run mentors_data mentees_data
             = if negb (nonempty mentors) then Ok (failure no_mentors_message)
               else if negb (nonempty students)
                    then Ok (failure no_mentees_message)
                    else total <- capacity_sum mentors ;; Ok (k total)).
  { unfold run, perform_matching. rewrite Hf. cbn [bind]. fold students.
    destruct (negb (nonempty mentors)); [exists (fun _ => failure ""); reflexivity|].
    destruct (negb (nonempty students));
      [exists (fun _ => failure ""); reflexivity|].
    apply Forall_app in Hloc. destruct Hloc as [Hlm Hle].
    rewrite !map_result_extract
      by (eapply Forall_impl; [|eassumption]; cbv beta; tauto).
    cbn [bind].
    unfold corpus in Hvec. rewrite Hvec. cbn [bind].
    rewrite (map_result_check_strip (map location_of mentors))
      by (apply Forall_map; eapply Forall_impl; [|exact Hlm]; cbv beta; tauto).
    cbn [bind].
    rewrite (map_result_check_strip (map location_of students))
      by (apply Forall_map; eapply Forall_impl; [|exact Hle]; cbv beta; tauto).
    cbn [bind].
    assert (Hfn : length (firstn (length mentors) vectors) = length mentors)
      by (rewrite length_firstn; lia).
    assert (Hsn : length (skipn (length mentors) vectors) = length students)
      by (rewrite length_skipn; lia).
    destruct (default_scores_well_shaped
                vec cosine (firstn (length mentors) vectors)
                (skipn (length mentors) vectors)
                (map location_of mentors) (map location_of students))
      as (m & Hm & Hshape).
    { rewrite length_map. congruence. }
    { rewrite length_map. congruence. }
    rewrite Hm. cbn [bind].
    destruct (matcher_total py_repr students m mentors) as [res Hres].
    - apply Forall_forall. intros x Hx. rewrite Forall_forall in Hh.
      split; [now apply Hh|]. exists true.
      apply eligible_registers. eapply filter_result_sound; eassumption.
    - rewrite Hsn, Hfn in Hshape. exact Hshape.
    - rewrite Hres. cbn [bind]. eexists (fun total => _). reflexivity. }
  destruct Hrun as [k Hrun]. split.
  - intros Hsum. rewrite Hrun.
    destruct (negb (nonempty mentors)); [eauto|].
    destruct (nonempty students) eqn:En; cbn [negb]; [|eauto].
    assert (Htotal : exists total, capacity_sum mentors = Ok total).
    { destruct Hsum as [Ht|[Hi|He]]; [exact Ht| |].
      - destruct (capacity_sum_of_ints mentors Hi) as [z Hz]. eauto.
      - rewrite He in En. discriminate. }
    destruct Htotal as [total ->]. cbn [bind]. eauto.
  - intros e He Hm Hs. rewrite Hrun, He.
    destruct mentors; [congruence|]. destruct students; [congruence|].
    reflexivity.
Qed.

Lemma pipeline_returns_witness :
  ((exists total, capacity_sum [Demo.mentor_1; Demo.mentor_2] = Ok total)
   \/ Forall (fun m => int_of (py_or (dict_get m "mentor_capacity") (VInt 0))
                       <> None) [Demo.mentor_1; Demo.mentor_2]
   \/ filter mentee_eligible
             [Cases.mentee_paired; Demo.mentee_10; Demo.mentee_11] = [] ->
   exists out,
     Demo.run [Cases.mentor_unwilling; Demo.mentor_1; Demo.mentor_2]
              [Cases.mentee_paired; Demo.mentee_10; Demo.mentee_11] = Ok out)
  /\ (forall e,
        capacity_sum [Demo.mentor_1; Demo.mentor_2] = Raise e ->
        [Demo.mentor_1; Demo.mentor_2] <> [] ->
        filter mentee_eligible
               [Cases.mentee_paired; Demo.mentee_10; Demo.mentee_11] <> [] ->
        Demo.run [Cases.mentor_unwilling; Demo.mentor_1; Demo.mentor_2]
                 [Cases.mentee_paired; Demo.mentee_10; Demo.mentee_11] = Raise e).
Proof.
  apply (pipeline_returns
           Demo.repr Demo.loads unit tt Demo.fit_transform Demo.fit_transform
           Demo.cos [Cases.mentor_unwilling; Demo.mentor_1; Demo.mentor_2]
           [Cases.mentee_paired; Demo.mentee_10; Demo.mentee_11]
           [Demo.mentor_1; Demo.mentor_2]).
  - reflexivity.
  - repeat constructor.
  - vm_compute. repeat constructor.
  - eexists. split; vm_compute; reflexivity.
Defined.

Lemma check_strip_dichotomy (l : list value) :
  map_result check_strip l = Ok (map (fun _ => tt) l)
  \/ map_result check_strip l = Raise AttributeError.
Proof.
  induction l as [|v l IH]; simpl; [now left|].
  unfold check_strip at 1 3. destruct (is_str v); simpl; [|now right].
  destruct IH as [-> | ->]; simpl; [now left | now right].
Qed.

Lemma check_strip_raises (l : list value) (v : value) :
  In v l -> is_str v = false -> map_result check_strip l = Raise AttributeError.
Proof.
  induction l as [|x l IH]; intros Hin Hv; [contradiction|]. simpl.
  unfold check_strip at 1. destruct (is_str x) eqn:Ex; simpl; [|reflexivity].
  destruct Hin as [->|Hin]; [congruence|].
  rewrite (IH Hin Hv). reflexivity.
Qed.

(** X14. When both sides have eligible profiles, their texts have been
    extracted ([json.loads] raising nothing beyond [JSONDecodeError] on
    their resumes) and the vectoriser has answered, an eligible profile
    whose location is truthy but not a string (a number, say) makes the
    run raise [AttributeError]. *)
Theorem location_not_a_string_raises
        (py_repr : value -> string) (json_loads : string -> json_outcome)
        (vec : Type) (zero_vec : vec)
        (tfidf_fit_transform count_fit_transform : list string -> result (list vec))
        (cosine : vec -> vec -> cell)
        (mentors_data mentees_data mentors : list pydict)
        (vectors : list vec) (profile : pydict) :
  filter_result mentor_eligible mentors_data = Ok mentors ->
  mentors <> [] -> filter mentee_eligible mentees_data <> [] ->
  Forall (fun p => resume_error json_loads p = None)
         (mentors ++ filter mentee_eligible mentees_data) ->
  vectorize vec zero_vec tfidf_fit_transform count_fit_transform
            (corpus py_repr json_loads mentors
                    (filter mentee_eligible mentees_data)) = Ok vectors ->
  In profile (mentors ++ filter mentee_eligible mentees_data) ->
  py_truthy (dict_get profile "location") = true ->
  is_str (dict_get profile "location") = false ->
  perform_matching py_repr json_loads vec zero_vec tfidf_fit_transform
                   count_fit_transform cosine mentors_data mentees_data
  = Raise AttributeError.
Proof.
  intros Hf Hm He Hres Hvec Hin Ht Hs.
  set (students := filter mentee_eligible mentees_data) in *.
  apply Forall_app in Hres. destruct Hres as [Hrm Hre].
  assert (Hloc : is_str (location_of profile) = false).
  { unfold location_of, py_or, dict_get_default.
    unfold dict_get, dict_get_default in Ht, Hs.
    destruct (dict_find profile "location") as [v|]; [|discriminate].
    rewrite Ht. exact Hs. }
  unfold perform_matching. rewrite Hf. cbn [bind]. fold students.
  destruct mentors as [|m0 ms]; [congruence|].
  destruct students as [|e0 es] eqn:Est; [congruence|].
  cbn [nonempty negb]. cbv iota.
  rewrite !map_result_extract by assumption. cbn [bind].
  unfold corpus in Hvec. rewrite Hvec. cbn [bind].
  apply in_app_or in Hin.
  destruct (check_strip_dichotomy (map location_of (m0 :: ms))) as [E|E];
    rewrite E; cbn [bind]; [|reflexivity].
  destruct Hin as [Hin|Hin].
  - rewrite (check_strip_raises (map location_of (m0 :: ms)) (location_of profile))
      in E; [discriminate | now apply in_map | exact Hloc].
  - rewrite (check_strip_raises (map location_of (e0 :: es)) (location_of profile));
      [reflexivity | now apply in_map | exact Hloc].
Qed.

Lemma location_not_a_string_witness :
  Demo.run [Demo.mentor_1] [Demo.mentee_10; Cases.mentee_numeric_location]
  = Raise AttributeError.
Proof.
  apply (location_not_a_string_raises
           Demo.repr Demo.loads unit tt Demo.fit_transform Demo.fit_transform
           Demo.cos [Demo.mentor_1]
           [Demo.mentee_10; Cases.mentee_numeric_location] [Demo.mentor_1]
           [tt; tt; tt] Cases.mentee_numeric_location).
  - reflexivity.
  - discriminate.
  - vm_compute. discriminate.
  - vm_compute. repeat constructor.
  - vm_compute. reflexivity.
  - vm_compute. right. right. left. reflexivity.
  - reflexivity.
  - reflexivity.
Defined.

(** ** The extractor: order of the fragments *)

(** X15. The role does not change whether the extractor raises.  When
    it returns, the text of a student is built from the same fragments as
    the text of a mentor with the same profile, in the same order,
    preceded by the stripped [mentor_preference] when that is truthy and
    not blank: the preference is read for students only and always comes
    first. *)
Theorem preference_comes_first
        (py_repr : value -> string) (json_loads : string -> json_outcome)
        (profile : pydict) :
  let text_of := extract_text_from_profile py_repr json_loads profile in
  (forall e, text_of false = Raise e <-> text_of true = Raise e)
  /\ (forall mentor_text,
        text_of false = Ok mentor_text ->
        exists pref common,
          mentor_text = tidy (Text.join " " common)
          /\ text_of true = Ok (tidy (Text.join " " (pref ++ common)))
          /\ pref
             = (let preference := dict_get profile "mentor_preference" in
                if py_truthy preference
                   && str_nonempty (str_strip (py_str py_repr preference))
                then [str_strip (py_str py_repr preference)]
                else [])).
Proof.
  intros text_of. unfold text_of. split.
  - intros e. rewrite !extract_text_raises. reflexivity.
  - intros mentor_text H.
    assert (Hnone : resume_error json_loads profile = None).
    { destruct (resume_error json_loads profile) as [e|] eqn:E; [|reflexivity].
      apply extract_text_raises with (is_student := false)
                                     (py_repr := py_repr) in E.
      congruence. }
    destruct (extract_fragments py_repr json_loads profile Hnone)
      as (f1 & f2 & f4 & f5 & f6 & f8 & _ & Htext).
    rewrite Htext in H. inversion H; subst mentor_text; clear H.
    eexists. eexists. split; [|split; [apply Htext | reflexivity]].
    reflexivity.
Qed.

(** ** The resume walk *)

Section StripFacts.

Import Text.

Lemma lstrip_fixed (s : chars) : head_space s = false -> lstrip s = s.
Proof. destruct s as [|c s]; simpl; [reflexivity|]. intros ->. reflexivity. Qed.

Lemma head_space_rstrip (s : chars) :
  head_space s = false -> head_space (rstrip s) = false.
Proof.
  intros H. destruct (rstrip_prefix s) as [w Hw].
  destruct (rstrip s) as [|c r]; [reflexivity|].
  rewrite Hw in H. exact H.
Qed.

Lemma strip_fixed (s : chars) : strip (strip s) = strip s.
Proof.
  unfold strip at 1.
  rewrite (lstrip_fixed (strip s)).
  - unfold strip, rstrip. rewrite rev_involutive.
    rewrite (lstrip_fixed (lstrip (rev (lstrip s)))); [reflexivity|].
    apply head_space_lstrip.
  - unfold strip. apply head_space_rstrip, head_space_lstrip.
Qed.

End StripFacts.

Lemma str_strip_fixed (s : string) : str_strip (str_strip s) = str_strip s.
Proof.
  unfold str_strip, Text.to_string, Text.of_string.
  rewrite list_ascii_of_string_of_list_ascii, strip_fixed. reflexivity.
Qed.

Lemma length_pos_nonempty (s : string) :
  (0 <? String.length s)%nat = true -> s <> "".
Proof. destruct s; simpl; [discriminate | intros _; discriminate]. Qed.

(** X16. Every string the resume walk returns is non-empty and carries no
    white space at its ends, and the walk returns nothing once the depth
    bound is reached: with the bound 3 of the extractor, strings nested
    three or more containers below the resume are never read. *)
Theorem resume_walk_leaves (obj : value) (max_depth current_depth : nat) :
  (forall s, In s (extract_dict_values obj max_depth current_depth) ->
             s <> "" /\ str_strip s = s /\ (current_depth < max_depth)%nat)
  /\ ((max_depth <= current_depth)%nat ->
      extract_dict_values obj max_depth current_depth = [])
  /\ (forall l, extract_dict_values (VList [VList [VList l]]) 3 0 = [])
  /\ (forall k1 k2 k3 l,
        extract_dict_values
          (VDict [(k1, VDict [(k2, VDict [(k3, l)])])]) 3 0 = []).
Proof.
  assert (Hbound : forall o m d, (m <= d)%nat -> extract_dict_values o m d = []).
  { intros o m d H. apply Nat.leb_le in H.
    destruct o; simpl; rewrite H; reflexivity. }
  split; [|split; [apply Hbound | split]].
  - remember (max_depth - current_depth)%nat as n eqn:En.
    revert obj current_depth En.
    induction n as [|n IH]; intros obj d En s Hin.
    + rewrite Hbound in Hin by lia. contradiction.
    + assert (Hlt : (d < max_depth)%nat) by lia.
      assert (Hleb : (max_depth <=? d)%nat = false) by (apply Nat.leb_gt; lia).
      destruct obj as [| | | |t|l|dd]; simpl in Hin; rewrite Hleb in Hin;
        try contradiction.
      * destruct (0 <? String.length (str_strip t))%nat eqn:El; [|contradiction].
        destruct Hin as [<-|[]].
        split; [now apply length_pos_nonempty|].
        split; [apply str_strip_fixed | exact Hlt].
      * apply in_flat_map in Hin. destruct Hin as (item & _ & Hin).
        destruct (IH item (S d)) with (s := s) as (H1 & H2 & _);
          [lia | exact Hin|]. splits; assumption.
      * apply in_flat_map in Hin. destruct Hin as (kv & _ & Hin).
        destruct (IH (snd kv) (S d)) with (s := s) as (H1 & H2 & _);
          [lia | exact Hin|]. splits; assumption.
  - intros l. simpl. rewrite !app_nil_r.
    induction l as [|item l IH]; simpl; [reflexivity|].
    rewrite IH, Hbound by lia. reflexivity.
  - intros k1 k2 k3 l. simpl. rewrite !app_nil_r.
    apply Hbound. lia.
Qed.

(** ** The vectorisers *)

Lemma strip_of_normalized (t : string) : space_normalized t -> str_strip t = t.
Proof.
  unfold space_normalized, str_strip, Text.to_string, Text.of_string.
  cbv zeta. intros (_ & Hh & Ht).
  unfold Text.strip, Text.rstrip.
  rewrite (lstrip_fixed _ Hh), (lstrip_fixed _ Ht), rev_involutive.
  apply string_of_list_ascii_of_string.
Qed.

Lemma some_text_survives (texts : list string) :
  Forall space_normalized texts ->
  forallb (fun text => negb (str_nonempty text)) texts = false ->
  nonempty (filter (fun text => str_nonempty (str_strip text)) texts) = true.
Proof.
  induction 1 as [|t texts Ht _ IH]; simpl; [discriminate|].
  rewrite (strip_of_normalized t Ht).
  destruct (str_nonempty t); simpl; [reflexivity | exact IH].
Qed.

Lemma dummy_survives (n : nat) :
  nonempty (filter (fun text => str_nonempty (str_strip text))
                   (repeat "dummy text" (S n))) = true.
Proof. reflexivity. Qed.

Lemma texts_normalized (py_repr : value -> string)
      (json_loads : string -> json_outcome) (is_student : bool)
      (l : list pydict) (texts : list string) :
  map_result (fun m => extract_text_from_profile py_repr json_loads m is_student) l
  = Ok texts ->
  Forall space_normalized texts /\ length texts = length l.
Proof.
  revert texts. induction l as [|m l IH]; intros texts H; simpl in H.
  - inversion H; subst. split; [constructor | reflexivity].
  - bind_inv H. bind_inv H. inversion H; subst; clear H.
    destruct (IH _ Hv0) as [Hn Hl]. split; [|simpl; congruence].
    constructor; [|exact Hn].
    pose proof (extract_text_outcome py_repr json_loads m is_student) as Ho.
    destruct (resume_error json_loads m) as [e|]; [congruence|].
    destruct Ho as (t & Ht & Hs). congruence.
Qed.

(** X17. The stand-alone vectoriser raises what the extraction of a text
    raises; when the texts are extracted it does what the pipeline's
    inlined copy does on the same texts.  On an empty list of profiles
    it returns an empty matrix without consulting the vectoriser; on any
    other list it always consults the vectoriser (TF-IDF, and the count
    vectoriser if that raises [ValueError]), on the profiles' texts or,
    when all of them are empty, on "dummy text" once per profile: the
    zero-vector branch is never taken for a non-empty list. *)
Theorem vectoriser_is_always_consulted
        (py_repr : value -> string) (json_loads : string -> json_outcome)
        (vec : Type) (zero_vec : vec)
        (tfidf_fit_transform count_fit_transform : list string -> result (list vec))
        (profiles : list pydict) (is_students : bool) :
  let stand_alone :=
    vectorize_profiles py_repr json_loads vec zero_vec tfidf_fit_transform
                       count_fit_transform profiles is_students in
  match
    map_result
      (fun p => extract_text_from_profile py_repr json_loads p is_students)
      profiles
  with
  | Raise e => stand_alone = Raise e
  | Ok texts =>
      let docs :=
        if forallb (fun text => negb (str_nonempty text)) texts
        then repeat "dummy text" (length profiles)
        else texts in
      stand_alone
      = vectorize vec zero_vec tfidf_fit_transform count_fit_transform texts
      /\ (profiles = [] -> stand_alone = Ok [])
      /\ (profiles <> [] ->
          length docs = length profiles
          /\ stand_alone
             = match tfidf_fit_transform docs with
               | Ok vectors => Ok vectors
               | Raise ValueError => count_fit_transform docs
               | Raise e => Raise e
               end)
  end.
Proof.
  intros stand_alone. unfold stand_alone, vectorize_profiles.
  destruct (map_result
              (fun p => extract_text_from_profile py_repr json_loads p is_students)
              profiles) as [texts|e] eqn:Et; [|reflexivity].
  destruct (texts_normalized _ _ _ _ _ Et) as [Hnorm Hl].
  cbn [bind]. cbv zeta.
  set (docs := if forallb (fun text => negb (str_nonempty text)) texts
               then repeat "dummy text" (length profiles)
               else texts).
  split; [|split].
  - unfold vectorize. cbv zeta. rewrite Hl. fold docs.
    assert (Hd : length docs = length profiles).
    { unfold docs.
      destruct (forallb (fun text => negb (str_nonempty text)) texts);
        [apply repeat_length | exact Hl]. }
    rewrite Hd. reflexivity.
  - intros ->. simpl in Et. inversion Et; subst. reflexivity.
  - intros Hne.
    assert (Hdocs : nonempty (filter (fun text => str_nonempty (str_strip text))
                                     docs) = true).
    { unfold docs.
      destruct (forallb (fun text => negb (str_nonempty text)) texts) eqn:Ea.
      - destruct profiles as [|p0 ps]; [congruence|]. apply dummy_survives.
      - apply some_text_survives; [exact Hnorm | exact Ea]. }
    rewrite Hdocs. split; [|reflexivity].
    unfold docs.
    destruct (forallb (fun text => negb (str_nonempty text)) texts);
      [apply repeat_length | exact Hl].
Qed.

(** ** The entry point *)

Section EntryPointFacts.

Variable py_repr : value -> string.
Variable json_loads : string -> json_outcome.
Variable vec : Type.
Variable zero_vec : vec.
Variable tfidf_fit_transform : list string -> result (list vec).
Variable count_fit_transform : list string -> result (list vec).
Variable cosine : vec -> vec -> cell.
Variable exn_text : exn -> string.

Let run_values :=
  perform_matching_values py_repr json_loads vec zero_vec tfidf_fit_transform
                          count_fit_transform cosine.
Let run :=
  perform_matching py_repr json_loads vec zero_vec tfidf_fit_transform
                   count_fit_transform cosine.

Lemma as_profile_objects (l : list pydict) :
  map_result as_profile (map VDict l) = Ok l.
Proof.
  induction l as [|d l IH]; simpl; [reflexivity|]. rewrite IH. reflexivity.
Qed.

Lemma eligible_objects (l : list pydict) :
  filter_result (fun v => d <- as_profile v ;; mentor_eligible d) (map VDict l)
  = match filter_result mentor_eligible l with
    | Ok kept => Ok (map VDict kept)
    | Raise e => Raise e
    end.
Proof.
  induction l as [|d l IH]; simpl; [reflexivity|].
  destruct (mentor_eligible d) as [keep|e]; simpl; [|reflexivity].
  rewrite IH. destruct (filter_result mentor_eligible l); simpl; [|reflexivity].
  destruct keep; reflexivity.
Qed.

(** On lists of objects the raw-value form is [perform_matching]. *)
Lemma values_of_objects (mentors mentees : list pydict) :
  run_values (VList (map VDict mentors)) (VList (map VDict mentees))
  = run mentors mentees.
Proof.
  unfold run_values, run, perform_matching_values. simpl.
  rewrite eligible_objects.
  destruct (filter_result mentor_eligible mentors) as [kept|e] eqn:E; simpl.
  - rewrite !as_profile_objects. reflexivity.
  - unfold perform_matching. rewrite E. reflexivity.
Qed.

(** What the raw-value form returns, [perform_matching] returned. *)
Lemma values_returned (mentors_data mentees_data : value) (out : output) :
  run_values mentors_data mentees_data = Ok out ->
  exists mentors mentees, run mentors mentees = Ok out.
Proof.
  unfold run_values, perform_matching_values. intros H.
  do 5 bind_inv H. eauto.
Qed.

End EntryPointFacts.

(** [main] on a document that is an object. *)
Lemma main_loaded
      (py_repr : value -> string) (json_loads : string -> json_outcome)
      (vec : Type) (zero_vec : vec)
      (tfidf_fit_transform count_fit_transform : list string -> result (list vec))
      (cosine : vec -> vec -> cell) (exn_text : exn -> string)
      (json_dumps : output -> result string) (input : pydict) :
  main py_repr json_loads vec zero_vec tfidf_fit_transform
       count_fit_transform cosine exn_text json_dumps (Loaded (VDict input))
  = let mentors := dict_get_default input "mentors" (VList []) in
    let mentees := dict_get_default input "mentees" (VList []) in
    match
      (if negb (py_truthy mentors) && negb (py_truthy mentees)
       then Ok (failure "No mentors or mentees provided")
       else perform_matching_values
              py_repr json_loads vec zero_vec tfidf_fit_transform
              count_fit_transform cosine mentors mentees)
    with
    | Ok result =>
        match serialise json_dumps result with
        | Ok _ => (result, 0%nat)
        | Raise e => error_document exn_text e
        end
    | Raise e => error_document exn_text e
    end.
Proof.
  unfold main. cbn [as_profile bind]. cbv zeta.
  destruct (if negb (py_truthy (dict_get_default input "mentors" (VList [])))
               && negb (py_truthy (dict_get_default input "mentees" (VList [])))
            then Ok (failure "No mentors or mentees provided")
            else perform_matching_values
                   py_repr json_loads vec zero_vec tfidf_fit_transform
                   count_fit_transform cosine
                   (dict_get_default input "mentors" (VList []))
                   (dict_get_default input "mentees" (VList [])))
    as [result|e]; cbn [bind]; [|reflexivity].
  destruct (serialise json_dumps result) as [[]|e]; reflexivity.
Qed.

(** X18. Whatever the load yields, [main] prints a document and exits with
    0 or 1.  It exits with 1 exactly on an exception, and then the
    document is a failure; a failure document never carries matches or
    statistics; so a document with matches is a success printed with exit
    code 0.  It exits with 0 exactly when the input is an object that
    holds neither mentors nor mentees, or on which the matching returns a
    result that [json.dumps] serialises; when [json.dumps] raises on the
    result the error document is printed and the exit code is 1. *)
Theorem main_document
        (py_repr : value -> string) (json_loads : string -> json_outcome)
        (vec : Type) (zero_vec : vec)
        (tfidf_fit_transform count_fit_transform : list string -> result (list vec))
        (cosine : vec -> vec -> cell) (exn_text : exn -> string)
        (json_dumps : output -> result string)
        (load : load_outcome) :
  let printed :=
    main py_repr json_loads vec zero_vec tfidf_fit_transform
         count_fit_transform cosine exn_text json_dumps load in
  let run_values :=
    perform_matching_values py_repr json_loads vec zero_vec tfidf_fit_transform
                            count_fit_transform cosine in
  (snd printed = 0%nat \/ snd printed = 1%nat)
  /\ (snd printed = 1%nat -> success (fst printed) = false)
  /\ (success (fst printed) = false ->
      matches (fst printed) = [] /\ stats (fst printed) = None)
  /\ (matches (fst printed) <> [] ->
      success (fst printed) = true /\ snd printed = 0%nat)
  /\ (snd printed = 0%nat <->
      exists input,
        load = Loaded (VDict input)
        /\ let mentors := dict_get_default input "mentors" (VList []) in
           let mentees := dict_get_default input "mentees" (VList []) in
           (py_truthy mentors = false /\ py_truthy mentees = false)
           \/ exists out,
               run_values mentors mentees = Ok out
               /\ ((stats out = None /\ matches out = [])
                   \/ exists text, json_dumps out = Ok text))
  /\ (forall input out e,
        load = Loaded (VDict input) ->
        let mentors := dict_get_default input "mentors" (VList []) in
        let mentees := dict_get_default input "mentees" (VList []) in
        py_truthy mentors = true \/ py_truthy mentees = true ->
        run_values mentors mentees = Ok out ->
        success out = true ->
        json_dumps out = Raise e ->
        printed = (failure ("Error during matching: " ++ exn_text e), 1%nat)).
Proof.
  cbv zeta.
  assert (Hfail : forall msg code,
             let printed := (failure msg, code) in
             (success (fst printed) = false ->
              matches (fst printed) = [] /\ stats (fst printed) = None)
             /\ (matches (fst printed) <> [] ->
                 success (fst printed) = true /\ snd printed = 0%nat)).
  { intros msg code. simpl. split; [tauto | congruence]. }
  assert (Hser : forall out : output,
             (stats out = None /\ matches out = [])
             \/ (exists text, json_dumps out = Ok text)
             <-> serialise json_dumps out = Ok tt).
  { intros out. unfold serialise. split.
    - intros [[-> ->] | [text Ht]]; [reflexivity|].
      destruct (stats out), (matches out); rewrite ?Ht; reflexivity.
    - destruct (stats out), (matches out);
        try (destruct (json_dumps out) as [text|e]; [right; eauto | discriminate]).
      left. tauto. }
  destruct load as [input_data|msg|msg|msg];
    try (cbn [main fst snd]; splits; try tauto; try apply Hfail;
         solve [ split; [discriminate | intros (input & E & _); discriminate]
               | intros input out e E; discriminate ]).
  destruct input_data as [| | | | | |input];
    try (cbn [main as_profile bind error_document fst snd];
         splits; try tauto; try apply Hfail;
         solve [ split; [discriminate | intros (input & E & _); discriminate]
               | intros input out e E; discriminate ]).
  rewrite main_loaded. cbv zeta.
  set (mentors := dict_get_default input "mentors" (VList [])).
  set (mentees := dict_get_default input "mentees" (VList [])).
  destruct (negb (py_truthy mentors) && negb (py_truthy mentees)) eqn:Eb.
  { apply andb_prop in Eb. rewrite !negb_true_iff in Eb.
    cbn [serialise failure stats matches fst snd].
    splits; try tauto; try discriminate; try apply Hfail.
    - split; [|reflexivity]. intros _. exists input.
      split; [reflexivity | left; exact Eb].
    - intros input' out e E Hor. inversion E; subst input'.
      fold mentors mentees in Hor. destruct Eb as [Hm He].
      rewrite Hm, He in Hor. destruct Hor; discriminate. }
  destruct (perform_matching_values py_repr json_loads vec zero_vec
              tfidf_fit_transform count_fit_transform cosine mentors mentees)
    as [out|e] eqn:Er.
  - destruct (values_returned _ _ _ _ _ _ _ _ _ _ Er) as (ms & es & Hrun).
    destruct (run_shape _ _ _ _ _ _ _ _ _ _ Hrun) as (kept & _ & _ & Hf & _).
    destruct (serialise json_dumps out) as [[]|e] eqn:Es;
      cbn [error_document fst snd].
    + splits.
      * now left.
      * discriminate.
      * exact Hf.
      * intros Hm. split; [|reflexivity].
        destruct (success out) eqn:Esucc; [reflexivity|].
        destruct (Hf eq_refl) as [E _]. congruence.
      * split; [|reflexivity]. intros _. exists input.
        split; [reflexivity|]. right. exists out.
        split; [exact Er|]. apply Hser. exact Es.
      * intros input' out' e E _ Hout Hsucc Hd. inversion E; subst input'.
        fold mentors mentees in Hout. rewrite Er in Hout.
        inversion Hout; subst out'. exfalso.
        destruct (run_shape _ _ _ _ _ _ _ _ _ _ Hrun)
          as (kept' & _ & _ & _ & Hok).
        destruct (Hok Hsucc) as ((total & _ & Estats) & _).
        unfold serialise in Es. rewrite Estats, Hd in Es.
        discriminate.
    + splits; try tauto; try discriminate; try apply Hfail.
      * split; [discriminate|].
        intros (input' & E & [[H1 H2] | (out' & Hout & Hs)]);
          inversion E; subst input'.
        -- fold mentors mentees in H1, H2. rewrite H1, H2 in Eb. discriminate.
        -- fold mentors mentees in Hout. rewrite Er in Hout.
           inversion Hout; subst out'. apply Hser in Hs. congruence.
      * intros input' out' e' E _ Hout Hsucc Hd. inversion E; subst input'.
        fold mentors mentees in Hout. rewrite Er in Hout.
        inversion Hout; subst out'.
        unfold serialise in Es. rewrite Hd in Es.
        destruct (stats out), (matches out); cbn [bind] in Es;
          inversion Es; reflexivity.
  - cbn [error_document fst snd].
    splits; try tauto; try discriminate; try apply Hfail.
    + split; [discriminate|].
      intros (input' & E & [[H1 H2] | (out & Hout & _)]);
        inversion E; subst input'.
      * fold mentors mentees in H1, H2. rewrite H1, H2 in Eb. discriminate.
      * fold mentors mentees in Hout. congruence.
    + intros input' out e' E _ Hout. inversion E; subst input'.
      fold mentors mentees in Hout. congruence.
Qed.

(** X19. Edge inputs of [main].  A document that is not an object (an
    array, say) ends in the error document with exit code 1.  An object
    whose [mentors] and [mentees] are both absent or falsy is answered "No
    mentors or mentees provided" with exit code 0.  A [mentors] value that
    cannot be iterated (null, a number, a boolean) beside truthy [mentees]
    ends in the error document for [TypeError] with exit code 1, whereas
    an absent or empty [mentors] beside a non-empty list of mentee objects
    is answered "No mentors available ..." with exit code 0. *)
Theorem main_edge_inputs
        (py_repr : value -> string) (json_loads : string -> json_outcome)
        (vec : Type) (zero_vec : vec)
        (tfidf_fit_transform count_fit_transform : list string -> result (list vec))
        (cosine : vec -> vec -> cell) (exn_text : exn -> string)
        (json_dumps : output -> result string) :
  let main' :=
    main py_repr json_loads vec zero_vec tfidf_fit_transform
         count_fit_transform cosine exn_text json_dumps in
  (forall v, is_dict v = false ->
             main' (Loaded v)
             = (failure ("Error during matching: " ++ exn_text AttributeError),
                1%nat))
  /\ (forall input,
        py_truthy (dict_get_default input "mentors" (VList [])) = false ->
        py_truthy (dict_get_default input "mentees" (VList [])) = false ->
        main' (Loaded (VDict input))
        = (failure "No mentors or mentees provided", 0%nat))
  /\ (forall input mentors,
        dict_find input "mentors" = Some mentors ->
        py_iter mentors = Raise TypeError ->
        py_truthy (dict_get_default input "mentees" (VList [])) = true ->
        main' (Loaded (VDict input))
        = (failure ("Error during matching: " ++ exn_text TypeError), 1%nat))
  /\ (forall input mentees,
        dict_get_default input "mentors" (VList []) = VList [] ->
        mentees <> [] ->
        dict_find input "mentees" = Some (VList (map VDict mentees)) ->
        main' (Loaded (VDict input)) = (failure no_mentors_message, 0%nat)).
Proof.
  cbv zeta. splits.
  - intros v Hv. destruct v; try reflexivity. discriminate.
  - intros input Hm He. simpl. rewrite Hm, He. reflexivity.
  - intros input mentors Hm Hi He. simpl.
    rewrite He, andb_false_r.
    unfold dict_get_default at 1. rewrite Hm.
    unfold perform_matching_values. rewrite Hi. reflexivity.
  - intros input mentees Hm Hne He. simpl. rewrite Hm.
    unfold dict_get_default. rewrite He.
    destruct mentees as [|e0 es]; [congruence|].
    cbn [map py_truthy negb andb].
    change (VList (VDict e0 :: map VDict es))
      with (VList (map VDict (e0 :: es))).
    change (@nil value) with (map VDict []).
    rewrite values_of_objects. reflexivity.
Qed.

(** ** Letter case of locations *)

Lemma lower_char_fixed (c : ascii) :
  Text.lower_char (Text.lower_char c) = Text.lower_char c.
Proof.
  destruct c as [[] [] [] [] [] [] [] []]; reflexivity.
Qed.

Lemma lower_fixed (s : Text.chars) : Text.lower (Text.lower s) = Text.lower s.
Proof.
  unfold Text.lower. rewrite map_map. apply map_ext. apply lower_char_fixed.
Qed.

Lemma normalize_location_lower (s : string) :
  normalize_location (VStr (str_lower s)) = normalize_location (VStr s).
Proof.
  unfold normalize_location, str_lower, Text.to_string, Text.of_string.
  rewrite list_ascii_of_string_of_list_ascii.
  change (map Text.lower_char) with Text.lower.
  rewrite lower_fixed.
  destruct s as [|c s]; [reflexivity|]. reflexivity.
Qed.

Lemma normalized_of_lower (s : string) :
  normalized_of (VStr (str_lower s)) = normalized_of (VStr s).
Proof. rewrite !normalized_of_str. apply normalize_location_lower. Qed.

(** X20. Locations are compared without regard to letter case: two
    strings that differ only in case normalise alike, score the same
    against every location, and score 1 against each other unless they
    normalise to the empty string. *)
Theorem location_case_insensitive (s t : string) :
  str_lower s = str_lower t ->
  normalize_location (VStr s) = normalize_location (VStr t)
  /\ (forall v, location_similarity (VStr s) v = location_similarity (VStr t) v)
  /\ (normalize_location (VStr s) <> "" ->
      location_similarity (VStr s) (VStr t) = 1%Q).
Proof.
  intros H.
  assert (E : normalize_location (VStr s) = normalize_location (VStr t)).
  { rewrite <- (normalize_location_lower s), <- (normalize_location_lower t), H.
    reflexivity. }
  split; [exact E|]. split.
  - intros v. unfold location_similarity.
    rewrite !normalized_of_str, E. reflexivity.
  - intros Hne. apply location_similarity_exact; assumption.
Qed.

Lemma location_case_witness :
  normalize_location (VStr "Austin, TX") = normalize_location (VStr "AUSTIN, tx")
  /\ (forall v, location_similarity (VStr "Austin, TX") v
                = location_similarity (VStr "AUSTIN, tx") v)
  /\ (normalize_location (VStr "Austin, TX") <> "" ->
      location_similarity (VStr "Austin, TX") (VStr "AUSTIN, tx") = 1%Q).
Proof.
  apply (location_case_insensitive "Austin, TX" "AUSTIN, tx"). reflexivity.
Defined.

(** ** The extractor: the fields it reads *)

Section FieldsRead.

Variable py_repr : value -> string.
Variable json_loads : string -> json_outcome.
Variables p1 p2 : pydict.

Lemma same_get (field : string) :
  dict_find p1 field = dict_find p2 field ->
  dict_get p1 field = dict_get p2 field
  /\ dict_index p1 field = dict_index p2 field.
Proof.
  unfold dict_get, dict_get_default, dict_index. intros ->. split; reflexivity.
Qed.

Lemma list_field_same (field : string) (parts : list string) :
  dict_find p1 field = dict_find p2 field ->
  extract_list_field py_repr p1 field parts
  = extract_list_field py_repr p2 field parts.
Proof.
  intros H. destruct (same_get field H) as [Eg Ei].
  unfold extract_list_field. rewrite Eg, Ei. reflexivity.
Qed.

Lemma records_field_same (field : string) (parts : list string) :
  dict_find p1 field = dict_find p2 field ->
  extract_records_field py_repr p1 field parts
  = extract_records_field py_repr p2 field parts.
Proof.
  intros H. destruct (same_get field H) as [Eg Ei].
  unfold extract_records_field. rewrite Eg, Ei. reflexivity.
Qed.

Lemma scalar_field_same (field : string) (parts : list string) :
  dict_find p1 field = dict_find p2 field ->
  extract_scalar_field py_repr p1 field parts
  = extract_scalar_field py_repr p2 field parts.
Proof.
  intros H. destruct (same_get field H) as [Eg Ei].
  unfold extract_scalar_field. rewrite Eg, Ei. reflexivity.
Qed.

Lemma fields_read_same (is_student : bool) :
  (forall k, In k profile_fields -> dict_find p1 k = dict_find p2 k) ->
  extract_text_from_profile py_repr json_loads p1 is_student
  = extract_text_from_profile py_repr json_loads p2 is_student.
Proof.
  intros H.
  assert (Hp : forall parts,
             extract_mentor_preference py_repr p1 is_student parts
             = extract_mentor_preference py_repr p2 is_student parts).
  { intros parts. unfold extract_mentor_preference.
    destruct (same_get "mentor_preference") as [Eg Ei];
      [apply H; simpl; tauto|]. rewrite Eg, Ei. reflexivity. }
  assert (Hr : forall parts,
             extract_parsed_resume py_repr json_loads p1 parts
             = extract_parsed_resume py_repr json_loads p2 parts).
  { intros parts. unfold extract_parsed_resume.
    destruct (same_get "parsed_resume") as [Eg Ei];
      [apply H; simpl; tauto|]. rewrite Eg, Ei. reflexivity. }
  unfold extract_text_from_profile. rewrite Hp.
  destruct (extract_mentor_preference py_repr p2 is_student []) as [a0|];
    [|reflexivity]. cbn [bind].
  rewrite (list_field_same "skills") by (apply H; simpl; tauto).
  destruct (extract_list_field py_repr p2 "skills" a0) as [a1|];
    [|reflexivity]. cbn [bind].
  rewrite (records_field_same "projects") by (apply H; simpl; tauto).
  destruct (extract_records_field py_repr p2 "projects" a1) as [a2|];
    [|reflexivity]. cbn [bind].
  rewrite (scalar_field_same "aspirations") by (apply H; simpl; tauto).
  destruct (extract_scalar_field py_repr p2 "aspirations" a2) as [a3|];
    [|reflexivity]. cbn [bind].
  rewrite Hr.
  destruct (extract_parsed_resume py_repr json_loads p2 a3) as [a4|];
    [|reflexivity]. cbn [bind].
  rewrite (records_field_same "experiences") by (apply H; simpl; tauto).
  destruct (extract_records_field py_repr p2 "experiences" a4) as [a5|];
    [|reflexivity]. cbn [bind].
  rewrite (list_field_same "achievements") by (apply H; simpl; tauto).
  destruct (extract_list_field py_repr p2 "achievements" a5) as [a6|];
    [|reflexivity]. cbn [bind].
  rewrite (scalar_field_same "major") by (apply H; simpl; tauto).
  destruct (extract_scalar_field py_repr p2 "major" a6) as [a7|];
    [|reflexivity]. cbn [bind].
  rewrite (list_field_same "relevant_coursework") by (apply H; simpl; tauto).
  reflexivity.
Qed.

End FieldsRead.

(** X21. The extracted text depends on nine fields only
    ([mentor_preference], [skills], [projects], [aspirations],
    [parsed_resume], [experiences], [achievements], [major],
    [relevant_coursework]): two profiles that agree on these give the same
    text, whatever else they hold (name, email, location, flags) and in
    whatever order. *)
Theorem extractor_reads_nine_fields
        (py_repr : value -> string) (json_loads : string -> json_outcome)
        (p1 p2 : pydict) (is_student : bool) :
  (forall k, In k profile_fields -> dict_find p1 k = dict_find p2 k) ->
  extract_text_from_profile py_repr json_loads p1 is_student
  = extract_text_from_profile py_repr json_loads p2 is_student.
Proof. apply fields_read_same. Qed.

Lemma extractor_fields_witness :
  extract_text_from_profile Demo.repr Demo.loads Demo.mentor_1 false
  = extract_text_from_profile Demo.repr Demo.loads
      [("skills", VList [VStr "python"]); ("name", VStr "Ann")] false.
Proof.
  apply (extractor_reads_nine_fields
           Demo.repr Demo.loads Demo.mentor_1
           [("skills", VList [VStr "python"]); ("name", VStr "Ann")] false).
  intros k Hk. simpl in Hk.
  repeat (destruct Hk as [<-|Hk]; [reflexivity|]). contradiction.
Defined.

(** ** The pipeline: a resume that cannot be decoded *)

Lemma first_resume_error_none (json_loads : string -> json_outcome)
      (l : list pydict) :
  first_resume_error json_loads l = None
  <-> Forall (fun p => resume_error json_loads p = None) l.
Proof.
  induction l as [|p l IH]; simpl.
  - split; [constructor | reflexivity].
  - destruct (resume_error json_loads p) as [e|] eqn:E.
    + split; [discriminate|]. intros H. inversion H; congruence.
    + rewrite IH. split; [now constructor|]. intros H. now inversion H.
Qed.

Lemma first_resume_error_app (json_loads : string -> json_outcome)
      (l1 l2 : list pydict) :
  first_resume_error json_loads (l1 ++ l2)
  = match first_resume_error json_loads l1 with
    | Some e => Some e
    | None => first_resume_error json_loads l2
    end.
Proof.
  induction l1 as [|p l1 IH]; simpl; [reflexivity|].
  destruct (resume_error json_loads p); [reflexivity | exact IH].
Qed.

Lemma map_result_extract_raises (py_repr : value -> string)
      (json_loads : string -> json_outcome) (is_student : bool)
      (l : list pydict) (e : exn) :
  first_resume_error json_loads l = Some e ->
  map_result (fun m => extract_text_from_profile py_repr json_loads m is_student) l
  = Raise e.
Proof.
  induction l as [|p l IH]; simpl; [discriminate|].
  pose proof (extract_text_outcome py_repr json_loads p is_student) as Ho.
  destruct (resume_error json_loads p) as [e'|].
  - intros H. inversion H; subst. rewrite Ho. reflexivity.
  - destruct Ho as (t & -> & _). intros H. cbn [bind].
    rewrite (IH H). reflexivity.
Qed.

(** X22. When both sides have eligible profiles, the run raises what
    [json.loads] raises (beyond [JSONDecodeError]) on the resume of the
    first eligible profile on which it does, mentors before mentees: an
    undecodable resume of one profile stops the whole matching. *)
Theorem resume_failure_raises
        (py_repr : value -> string) (json_loads : string -> json_outcome)
        (vec : Type) (zero_vec : vec)
        (tfidf_fit_transform count_fit_transform : list string -> result (list vec))
        (cosine : vec -> vec -> cell)
        (mentors_data mentees_data mentors : list pydict) (e : exn) :
  filter_result mentor_eligible mentors_data = Ok mentors ->
  mentors <> [] -> filter mentee_eligible mentees_data <> [] ->
  first_resume_error json_loads (mentors ++ filter mentee_eligible mentees_data)
  = Some e ->
  perform_matching py_repr json_loads vec zero_vec tfidf_fit_transform
                   count_fit_transform cosine mentors_data mentees_data
  = Raise e.
Proof.
  intros Hf Hm Hs Herr.
  set (students := filter mentee_eligible mentees_data) in *.
  unfold perform_matching. rewrite Hf. cbn [bind]. fold students.
  destruct mentors as [|m0 ms]; [congruence|].
  destruct students as [|s0 ss] eqn:Est; [congruence|].
  cbn [nonempty negb]. cbv iota.
  rewrite first_resume_error_app in Herr.
  destruct (first_resume_error json_loads (m0 :: ms)) as [e'|] eqn:Em.
  - inversion Herr; subst e'.
    rewrite (map_result_extract_raises py_repr json_loads false _ _ Em).
    reflexivity.
  - apply first_resume_error_none in Em.
    rewrite (map_result_extract py_repr json_loads false _ Em). cbn [bind].
    rewrite (map_result_extract_raises py_repr json_loads true _ _ Herr).
    reflexivity.
Qed.

Lemma resume_failure_witness :
  perform_matching Demo.repr Cases.loads unit tt Demo.fit_transform
                   Demo.fit_transform Demo.cos
                   [Demo.mentor_1] [Demo.mentee_10; Cases.mentee_long_resume]
  = Raise ValueError.
Proof.
  apply (resume_failure_raises
           Demo.repr Cases.loads unit tt Demo.fit_transform Demo.fit_transform
           Demo.cos [Demo.mentor_1] [Demo.mentee_10; Cases.mentee_long_resume]
           [Demo.mentor_1] ValueError).
  - reflexivity.
  - discriminate.
  - vm_compute. discriminate.
  - vm_compute. reflexivity.
Defined.
